(** * time-tracker: the session history store

    A shallow embedding of the persistence half of [main.go]: the report
    writer [saveHistory], the report reader [loadHistory] and the two
    duration formatters [formatDuration] and [formatDurationLong], together
    with the parts of Go's [strings], [bufio], [fmt] and [time] packages that
    these four functions call.  Module [App] holds the program that uses
    the store: its [model], [initialModel] and [Update] with the four
    screens' key handlers, over a world made of the clock and the files.
    The views, which only render a model through the styling library, are
    left out.

    Conventions.
    - A Go [string] is a sequence of bytes: it is modelled by [string], whose
      characters are the bytes of the UTF-8 encoding.  The box-drawing
      characters of the report take three bytes each.
    - A Go [int] and a [time.Duration] are modelled by [Z]; where the source
      relies on 64-bit arithmetic the wrap-around is written out.  A
      [float64] is a primitive binary64 float.
    - A [time.Time] is modelled by its wall-clock reading: the number of
      nanoseconds between 1970-01-01 00:00:00 and the date and time of day the
      value presents in its own location.  [Format] only looks at this
      reading, and [Parse] builds a value in UTC with the reading that the
      text spells out. *)

From Stdlib Require Import ZArith List Bool Ascii String Lia.
From Stdlib Require Floats Uint63.
Import ListNotations.

Local Open Scope string_scope.
Local Open Scope Z_scope.

(** ** Bytes and strings *)

Module Str.

Definition byte_code (c : ascii) : Z := Z.of_N (N_of_ascii c).

Definition byte_of (n : Z) : ascii := ascii_of_N (Z.to_N n).

Fixpoint of_codes (l : list Z) : string :=
  match l with
  | [] => EmptyString
  | n :: l' => String (byte_of n) (of_codes l')
  end.

Definition len (s : string) : Z := Z.of_nat (String.length s).

(** [all p s]: every byte of [s] satisfies [p]. *)
Fixpoint all (p : ascii -> bool) (s : string) : bool :=
  match s with
  | EmptyString => true
  | String c s' => p c && all p s'
  end.

(** [lacks c s]: the byte [c] does not occur in [s]. *)
Definition lacks (c : ascii) (s : string) : bool :=
  all (fun x => negb (Ascii.eqb x c)) s.

(** [mem c s]: the byte [c] occurs in [s]. *)
Fixpoint mem (c : ascii) (s : string) : bool :=
  match s with
  | EmptyString => false
  | String x s' => Ascii.eqb x c || mem c s'
  end.

Fixpoint repeat (c : ascii) (n : nat) : string :=
  match n with
  | O => EmptyString
  | S n' => String c (repeat c n')
  end.

Fixpoint rev_append (s acc : string) : string :=
  match s with
  | EmptyString => acc
  | String c s' => rev_append s' (String c acc)
  end.

Definition rev (s : string) : string := rev_append s EmptyString.

(** [strings.HasPrefix(s, p)]. *)
Fixpoint HasPrefix (s p : string) {struct p} : bool :=
  match p with
  | EmptyString => true
  | String a p' =>
      match s with
      | EmptyString => false
      | String b s' => Ascii.eqb a b && HasPrefix s' p'
      end
  end.

(** [strings.Contains(s, substr)]. *)
Fixpoint Contains (s substr : string) : bool :=
  HasPrefix s substr ||
  match s with
  | EmptyString => false
  | String _ s' => Contains s' substr
  end.

(** [drop n s] is [s[n:]] (empty when [n] exceeds the length). *)
Fixpoint drop (n : nat) (s : string) : string :=
  match n with
  | O => s
  | S n' => match s with
            | EmptyString => EmptyString
            | String _ s' => drop n' s'
            end
  end.

(** [cut s sep] splits [s] around the first occurrence of [sep], as
    [strings.Index] finds it: [Some (before, after)], or [None] when [sep]
    does not occur. *)
Fixpoint cut (s sep : string) : option (string * string) :=
  if HasPrefix s sep then Some (EmptyString, drop (String.length sep) s)
  else match s with
       | EmptyString => None
       | String c s' =>
           match cut s' sep with
           | Some (a, b) => Some (String c a, b)
           | None => None
           end
       end.

(** [strings.SplitN(s, sep, 2)] for a non-empty [sep]: one element when
    [sep] does not occur, two otherwise. *)
Definition SplitN2 (s sep : string) : list string :=
  match cut s sep with
  | Some (a, b) => [a; b]
  | None => [s]
  end.

(** [strings.Split(s, sep)[0]] for a non-empty [sep]: the text before the
    first occurrence of [sep], or all of [s]. *)
Definition SplitHead (s sep : string) : string :=
  match cut s sep with
  | Some (a, _) => a
  | None => s
  end.

End Str.

(** [strings.TrimSpace]: the white space of Unicode, in UTF-8.  The six ASCII
    spaces are tab, line feed, vertical tab, form feed, carriage return and
    space; the others are U+0085, U+00A0, U+1680, U+2000 to U+200A, U+2028,
    U+2029, U+202F, U+205F and U+3000.  A byte sequence that is not the
    encoding of one of them decodes to a rune that is not a space. *)
Definition space_encodings : list string :=
  map Str.of_codes
    [ [9]; [10]; [11]; [12]; [13]; [32];
      [194;133]; [194;160]; [225;154;128];
      [226;128;128]; [226;128;129]; [226;128;130]; [226;128;131];
      [226;128;132]; [226;128;133]; [226;128;134]; [226;128;135];
      [226;128;136]; [226;128;137]; [226;128;138];
      [226;128;168]; [226;128;169]; [226;128;175]; [226;129;159];
      [227;128;128] ].

(** Strip from the front of [s] every leading element of [seqs]. *)
Fixpoint trim_front (seqs : list string) (fuel : nat) (s : string) : string :=
  match fuel with
  | O => s
  | S fuel' =>
      match find (Str.HasPrefix s) seqs with
      | Some sp => trim_front seqs fuel' (Str.drop (String.length sp) s)
      | None => s
      end
  end.

Definition TrimLeftSpace (s : string) : string :=
  trim_front space_encodings (String.length s) s.

Definition TrimRightSpace (s : string) : string :=
  Str.rev (trim_front (map Str.rev space_encodings) (String.length s) (Str.rev s)).

Definition TrimSpace (s : string) : string := TrimRightSpace (TrimLeftSpace s).

(** ** [bufio.Scanner] with the default split function [ScanLines] *)

Definition newline : ascii := Str.byte_of 10.
Definition carriage_return : ascii := Str.byte_of 13.

(** The text cut at every line feed; a last line without a line feed counts,
    an empty remainder after the last line feed does not. *)
Fixpoint rawLines (data : string) : list string :=
  match data with
  | EmptyString => []
  | String c rest =>
      if Ascii.eqb c newline then EmptyString :: rawLines rest
      else match rawLines rest with
           | [] => [String c EmptyString]
           | l :: ls => String c l :: ls
           end
  end.

(** [dropCR]: a line loses one trailing carriage return. *)
Definition dropCR (l : string) : string :=
  match Str.rev l with
  | String c r => if Ascii.eqb c carriage_return then Str.rev r else l
  | EmptyString => l
  end.

(** [bufio.MaxScanTokenSize]: the scanner's buffer holds 64 KiB; a line that
    does not fit, together with its line feed, ends the scan with
    [ErrTooLong], which [loadHistory] does not look at. *)
Definition MaxScanTokenSize : Z := 64 * 1024.

Fixpoint scan_tokens (ls : list string) : list string :=
  match ls with
  | [] => []
  | l :: ls' =>
      if Str.len l <? MaxScanTokenSize then dropCR l :: scan_tokens ls' else []
  end.

(** The successive values of [scanner.Text()] while [scanner.Scan()] holds. *)
Definition ScanLines (data : string) : list string := scan_tokens (rawLines data).

(** ** [fmt.Sprintf], for the verbs [%d] and [%s] with the flags [-] and [0]
    and a width *)

Definition digit_char (d : Z) : ascii := Str.byte_of (48 + d).

Definition isDigit (c : ascii) : bool :=
  (48 <=? Str.byte_code c) && (Str.byte_code c <=? 57).

Definition digit_val (c : ascii) : Z := Str.byte_code c - 48.

Fixpoint utoa_loop (fuel : nat) (u : Z) (acc : string) : string :=
  match fuel with
  | O => acc
  | S fuel' =>
      let acc' := String (digit_char (u mod 10)) acc in
      if u / 10 =? 0 then acc' else utoa_loop fuel' (u / 10) acc'
  end.

(** The decimal digits of an unsigned 64-bit number: at most twenty. *)
Definition utoa (u : Z) : string := utoa_loop 20 u EmptyString.

(** [%d] *)
Definition itoa (x : Z) : string :=
  if x <? 0 then String "-" (utoa (- x)) else utoa x.

Definition zeros (n : Z) : string := Str.repeat "0" (Z.to_nat n).
Definition spaces (n : Z) : string := Str.repeat " " (Z.to_nat n).

(* UTF-8: the number of bytes a rune starting with [c0], followed by [c1],
   takes when the encoding is valid as far as these two bytes say. *)
Definition utf8_size (c0 c1 : Z) : Z :=
  let cont := (128 <=? c1) && (c1 <=? 191) in
  if c0 <? 194 then 1
  else if c0 <? 224 then (if cont then 2 else 1)
  else if c0 =? 224 then (if (160 <=? c1) && (c1 <=? 191) then 3 else 1)
  else if c0 =? 237 then (if (128 <=? c1) && (c1 <=? 159) then 3 else 1)
  else if c0 <? 240 then (if cont then 3 else 1)
  else if c0 =? 240 then (if (144 <=? c1) && (c1 <=? 191) then 4 else 1)
  else if c0 <? 244 then (if cont then 4 else 1)
  else if c0 =? 244 then (if (128 <=? c1) && (c1 <=? 143) then 4 else 1)
  else 1.

Definition is_cont (c : ascii) : bool :=
  (128 <=? Str.byte_code c) && (Str.byte_code c <=? 191).

(** [utf8.RuneCountInString]: a valid encoding counts once, every byte that
    starts no valid encoding counts once. *)
Fixpoint RuneCountInString (s : string) : Z :=
  match s with
  | EmptyString => 0
  | String c0 s1 =>
      1 +
      match s1 with
      | EmptyString => 0
      | String c1 s2 =>
          let n := utf8_size (Str.byte_code c0) (Str.byte_code c1) in
          if n =? 1 then RuneCountInString s1
          else if n =? 2 then RuneCountInString s2
          else match s2 with
               | EmptyString => RuneCountInString s1
               | String c2 s3 =>
                   if negb (is_cont c2) then RuneCountInString s1
                   else if n =? 3 then RuneCountInString s3
                   else match s3 with
                        | EmptyString => RuneCountInString s1
                        | String c3 s4 =>
                            if is_cont c3 then RuneCountInString s4
                            else RuneCountInString s1
                        end
               end
      end
  end.

Inductive arg : Type :=
| AInt (x : Z)
| AStr (s : string).

(** A verb's text before padding; with the flag [0] (and no [-]) an integer
    is filled with zeros to the width, the sign taking one place. *)
Definition verb_text (zero : bool) (width : Z) (a : arg) : string :=
  match a with
  | AStr s => s
  | AInt x =>
      if zero then
        if x <? 0
        then String "-" (zeros (width - 1 - Str.len (utoa (- x))) ++ utoa (- x))
        else zeros (width - Str.len (utoa x)) ++ utoa x
      else itoa x
  end.

Definition pad (minus : bool) (width : Z) (s : string) : string :=
  let fill := spaces (width - RuneCountInString s) in
  if minus then s ++ fill else fill ++ s.

Definition format_verb (minus zero : bool) (width : Z) (a : arg) : string :=
  pad minus width (verb_text (zero && negb minus) width a).

(** The state of the scan of a format string: copying text, or inside a verb
    after [%], with the flags and the width read so far. *)
Inductive fmt_mode : Type :=
| Text
| Verb (minus zero : bool) (width : Z).

Fixpoint sprintf_loop (f : string) (mode : fmt_mode) (args : list arg) : string :=
  match f with
  | EmptyString => EmptyString
  | String c f' =>
      match mode with
      | Text =>
          if Ascii.eqb c "%" then sprintf_loop f' (Verb false false 0) args
          else String c (sprintf_loop f' Text args)
      | Verb minus zero width =>
          if Ascii.eqb c "-" then sprintf_loop f' (Verb true zero width) args
          else if Ascii.eqb c "0" && (width =? 0)
          then sprintf_loop f' (Verb minus true width) args
          else if isDigit c
          then sprintf_loop f' (Verb minus zero (10 * width + digit_val c)) args
          else match args with
               | a :: args' => format_verb minus zero width a ++ sprintf_loop f' Text args'
               | [] => "%!" ++ String c "(MISSING)" ++ sprintf_loop f' Text []
               end
      end
  end.

Definition Sprintf (f : string) (args : list arg) : string :=
  sprintf_loop f Text args.

(** ** Package [time] *)

Definition Time : Type := Z.
Definition Duration : Type := Z.

Definition Nanosecond : Duration := 1.
Definition Second : Duration := 1000000000 * Nanosecond.
Definition Minute : Duration := 60 * Second.
Definition Hour : Duration := 60 * Minute.

Definition minDuration : Duration := - 2 ^ 63.
Definition maxDuration : Duration := 2 ^ 63 - 1.

(** Arithmetic on [int64] wraps around. *)
Definition wrap64 (x : Z) : Z := (x + 2 ^ 63) mod 2 ^ 64 - 2 ^ 63.

(** [float64(x)] for an integer below [2 ^ 53] in magnitude, which all the
    integers converted here are; the conversion is exact. *)
Definition float64 (x : Z) : PrimFloat.float :=
  if x <? 0 then PrimFloat.opp (PrimFloat.of_uint63 (Uint63.of_Z (- x)))
  else PrimFloat.of_uint63 (Uint63.of_Z x).

(** [int(f)] for a [float64] in the range of [int]: the fraction is dropped. *)
Definition intOfFloat (f : PrimFloat.float) : Z :=
  match FloatOps.Prim2SF f with
  | SpecFloat.S754_finite sign m e =>
      let magnitude := if 0 <=? e then Z.pos m * 2 ^ e else Z.pos m / 2 ^ (- e) in
      if sign then - magnitude else magnitude
  | _ => 0
  end.

(** [d.Hours()], [d.Minutes()] and [d.Seconds()]: the whole part plus the
    fraction of the next unit, both as [float64]. *)
Definition Hours (d : Duration) : PrimFloat.float :=
  PrimFloat.add (float64 (Z.quot d Hour))
    (PrimFloat.div (float64 (Z.rem d Hour)) (float64 (60 * 60 * 1000000000))).

Definition Minutes (d : Duration) : PrimFloat.float :=
  PrimFloat.add (float64 (Z.quot d Minute))
    (PrimFloat.div (float64 (Z.rem d Minute)) (float64 (60 * 1000000000))).

Definition Seconds (d : Duration) : PrimFloat.float :=
  PrimFloat.add (float64 (Z.quot d Second))
    (PrimFloat.div (float64 (Z.rem d Second)) (float64 1000000000)).

(** [int(d.Hours())], [int(d.Minutes())] and [int(d.Seconds())]. *)
Definition intHours (d : Duration) : Z := intOfFloat (Hours d).
Definition intMinutes (d : Duration) : Z := intOfFloat (Minutes d).
Definition intSeconds (d : Duration) : Z := intOfFloat (Seconds d).


(** [t.Sub(u)]: the difference, or the nearest bound of [Duration] when the
    difference does not fit. *)
Definition Sub (t u : Time) : Duration :=
  if t - u <? minDuration then minDuration
  else if maxDuration <? t - u then maxDuration
  else t - u.

(** *** The calendar *)

Definition secondsPerDay : Z := 86400.

(** Whole seconds and nanoseconds of a wall-clock reading. *)
Definition wallSeconds (t : Time) : Z := t / Second.
Definition Nanos (t : Time) : Z := t mod Second.

(** Days since 1970-01-01 and second of the day. *)
Definition dayNumber (t : Time) : Z := wallSeconds t / secondsPerDay.
Definition secondOfDay (t : Time) : Z := wallSeconds t mod secondsPerDay.

Definition isLeap (year : Z) : bool :=
  (year mod 4 =? 0) && (negb (year mod 100 =? 0) || (year mod 400 =? 0)).

Definition daysIn (month year : Z) : Z :=
  if month =? 2 then (if isLeap year then 29 else 28)
  else if (month =? 4) || (month =? 6) || (month =? 9) || (month =? 11) then 30
  else 31.

(** The proleptic Gregorian date of a day number, by 400-year cycles that
    start on a first of March: year, month (1 to 12), day of the month. *)
Definition civil_of_cycle_day (doe : Z) : Z * Z * Z :=
  let yoe := (doe - doe / 1460 + doe / 36524 - doe / 146096) / 365 in
  let doy := doe - (365 * yoe + yoe / 4 - yoe / 100) in
  let mp := (5 * doy + 2) / 153 in
  let d := doy - (153 * mp + 2) / 5 + 1 in
  let m := if mp <? 10 then mp + 3 else mp - 9 in
  (if m <=? 2 then yoe + 1 else yoe, m, d).

Definition civil (days : Z) : Z * Z * Z :=
  let z := days + 719468 in
  match civil_of_cycle_day (z mod 146097) with
  | (y, m, d) => (y + 400 * (z / 146097), m, d)
  end.

(** The number of days from 0000-03-01 to a date, and the day number of a
    date. *)
Definition daysSinceMarch0 (y m d : Z) : Z :=
  let y' := if m <=? 2 then y - 1 else y in
  let mp := if 2 <? m then m - 3 else m + 9 in
  365 * y' + y' / 4 - y' / 100 + y' / 400 + (153 * mp + 2) / 5 + d - 1.

Definition daysFromCivil (y m d : Z) : Z := daysSinceMarch0 y m d - 719468.

(** [time.Date(year, month, day, hour, min, sec, nsec, time.UTC)] for fields
    that are in range. *)
Definition Date (year month day hour min sec nsec : Z) : Time :=
  (daysFromCivil year month day * secondsPerDay + hour * 3600 + min * 60 + sec)
  * Second + nsec.

Definition Year (t : Time) : Z := fst (fst (civil (dayNumber t))).
Definition Month (t : Time) : Z := snd (fst (civil (dayNumber t))).
Definition Day (t : Time) : Z := snd (civil (dayNumber t)).
(** Sunday is 0; 1970-01-01 was a Thursday. *)
Definition Weekday (t : Time) : Z := (dayNumber t + 4) mod 7.
Definition HourOf (t : Time) : Z := secondOfDay t / 3600.
Definition MinuteOf (t : Time) : Z := secondOfDay t mod 3600 / 60.
Definition SecondOf (t : Time) : Z := secondOfDay t mod 60.

Definition longDayNames : list string :=
  ["Sunday"; "Monday"; "Tuesday"; "Wednesday"; "Thursday"; "Friday"; "Saturday"].

Definition shortDayNames : list string :=
  ["Sun"; "Mon"; "Tue"; "Wed"; "Thu"; "Fri"; "Sat"].

Definition shortMonthNames : list string :=
  ["Jan"; "Feb"; "Mar"; "Apr"; "May"; "Jun";
   "Jul"; "Aug"; "Sep"; "Oct"; "Nov"; "Dec"].

Definition longMonthNames : list string :=
  ["January"; "February"; "March"; "April"; "May"; "June";
   "July"; "August"; "September"; "October"; "November"; "December"].

Definition name_at (tab : list string) (i : Z) : string :=
  nth (Z.to_nat i) tab EmptyString.

(** *** Layouts *)

(** The elements of a layout that this program's layouts are made of, named
    as in [time/format.go]. *)
Inductive std : Type :=
| stdLongMonth      (* January *)
| stdMonth          (* Jan *)
| stdLongWeekDay    (* Monday *)
| stdWeekDay        (* Mon *)
| stdZeroDay        (* 02 *)
| stdLongYear       (* 2006 *)
| stdZeroHour12     (* 03 *)
| stdZeroMinute     (* 04 *)
| stdZeroSecond     (* 05 *)
| stdPM.            (* PM *)

(** A layout as [nextStdChunk] cuts it: literal text and elements. *)
Inductive chunk : Type :=
| Lit (text : string)
| Std (e : std).

Definition layout : Type := list chunk.

(** ["Monday, January 02, 2006"] *)
Definition layoutDate : layout :=
  [Std stdLongWeekDay; Lit ", "; Std stdLongMonth; Lit " "; Std stdZeroDay;
   Lit ", "; Std stdLongYear].

(** ["03:04:05 PM"] *)
Definition layoutClock : layout :=
  [Std stdZeroHour12; Lit ":"; Std stdZeroMinute; Lit ":"; Std stdZeroSecond;
   Lit " "; Std stdPM].

(** ["Monday, January 02, 2006 03:04:05 PM"] *)
Definition layoutStamp : layout := (layoutDate ++ Lit " " :: layoutClock)%list.

(** ["Mon Jan 02, 2006 at 03:04 PM"] *)
Definition layoutGenerated : layout :=
  [Std stdWeekDay; Lit " "; Std stdMonth; Lit " "; Std stdZeroDay; Lit ", ";
   Std stdLongYear; Lit " at "; Std stdZeroHour12; Lit ":"; Std stdZeroMinute;
   Lit " "; Std stdPM].

(** *** [Time.Format] *)

(** [appendInt]: the decimal text of [x], the digits filled with zeros to
    [width], after the sign. *)
Definition appendInt (x width : Z) : string :=
  let u := Z.abs x in
  (if x <? 0 then "-" else "") ++ zeros (width - Str.len (utoa u)) ++ utoa u.

Definition format_std (e : std) (t : Time) : string :=
  match e with
  | stdLongMonth => name_at longMonthNames (Month t - 1)
  | stdMonth => name_at shortMonthNames (Month t - 1)
  | stdLongWeekDay => name_at longDayNames (Weekday t)
  | stdWeekDay => name_at shortDayNames (Weekday t)
  | stdZeroDay => appendInt (Day t) 2
  | stdLongYear => appendInt (Year t) 4
  | stdZeroHour12 =>
      let hr := HourOf t mod 12 in
      appendInt (if hr =? 0 then 12 else hr) 2
  | stdZeroMinute => appendInt (MinuteOf t) 2
  | stdZeroSecond => appendInt (SecondOf t) 2
  | stdPM => if 12 <=? HourOf t then "PM" else "AM"
  end.

Definition format_chunk (t : Time) (c : chunk) : string :=
  match c with
  | Lit text => text
  | Std e => format_std e t
  end.

Fixpoint Format (t : Time) (l : layout) : string :=
  match l with
  | [] => EmptyString
  | c :: l' => format_chunk t c ++ Format t l'
  end.

(** *** [time.Parse] *)

(** The fields [parse] collects; no month or day read yet is [-1]. *)
Record fields : Type := mkFields {
  f_year : Z; f_month : Z; f_day : Z;
  f_hour : Z; f_min : Z; f_sec : Z; f_nsec : Z;
  amSet : bool; pmSet : bool
}.

Definition no_fields : fields := mkFields 0 (-1) (-1) 0 0 0 0 false false.

Fixpoint cutspace (s : string) : string :=
  match s with
  | String " " s' => cutspace s'
  | _ => s
  end.

(** [skip]: remove the literal [prefix] from the front of [value]; a run of
    spaces in the layout matches any run of spaces, also none at the end of
    the value. *)
Fixpoint skip (value prefix : string) : option string :=
  match prefix with
  | EmptyString => Some value
  | String p prefix' =>
      if Ascii.eqb p " " then
        match value with
        | EmptyString => skip EmptyString (cutspace prefix')
        | String v _ =>
            if Ascii.eqb v " " then skip (cutspace value) (cutspace prefix')
            else None
        end
      else
        match value with
        | EmptyString => None
        | String v value' => if Ascii.eqb v p then skip value' prefix' else None
        end
  end.

Definition foldEq (c1 c2 : ascii) : bool :=
  Ascii.eqb c1 c2 ||
  (let l1 := Z.lor (Str.byte_code c1) 32 in
   let l2 := Z.lor (Str.byte_code c2) 32 in
   (l1 =? l2) && (97 <=? l1) && (l1 <=? 122)).

(** [match] on the front of [val]: the name [v], letters in either case;
    the result is the rest of [val]. *)
Fixpoint matchName (val v : string) {struct v} : option string :=
  match v with
  | EmptyString => Some val
  | String c2 v' =>
      match val with
      | EmptyString => None
      | String c1 val' => if foldEq c1 c2 then matchName val' v' else None
      end
  end.

(** [lookup]: the first name of the table at the front of [val]. *)
Fixpoint lookup_from (i : Z) (tab : list string) (val : string) : option (Z * string) :=
  match tab with
  | [] => None
  | v :: tab' =>
      match matchName val v with
      | Some rest => Some (i, rest)
      | None => lookup_from (i + 1) tab' val
      end
  end.

Definition lookup (tab : list string) (val : string) : option (Z * string) :=
  lookup_from 0 tab val.

(** [getnum]: one or two digits, exactly two when [fixed]. *)
Definition getnum (s : string) (fixed : bool) : option (Z * string) :=
  match s with
  | String a s1 =>
      if isDigit a then
        match s1 with
        | String b s2 =>
            if isDigit b then Some (digit_val a * 10 + digit_val b, s2)
            else if fixed then None else Some (digit_val a, s1)
        | EmptyString => if fixed then None else Some (digit_val a, s1)
        end
      else None
  | EmptyString => None
  end.

Fixpoint digits_value (acc : Z) (s : string) : Z :=
  match s with
  | EmptyString => acc
  | String c s' => digits_value (10 * acc + digit_val c) s'
  end.

(** The digits at the front of [s], and what follows them. *)
Fixpoint span_digits (s : string) : string * string :=
  match s with
  | String c s' =>
      if isDigit c then
        match span_digits s' with (ds, rest) => (String c ds, rest) end
      else (EmptyString, s)
  | EmptyString => (EmptyString, EmptyString)
  end.

Fixpoint take (n : nat) (s : string) : string :=
  match n, s with
  | S n', String c s' => String c (take n' s')
  | _, _ => EmptyString
  end.

Definition commaOrPeriod (c : ascii) : bool := Ascii.eqb c "." || Ascii.eqb c ",".

(** [parseNanoseconds] on a run of digits: nine digits count, further ones
    are dropped. *)
Definition nanos_of_digits (ds : string) : Z :=
  let kept := take 9 ds in
  digits_value 0 kept * 10 ^ (9 - Str.len kept).

Definition parse_std (e : std) (f : fields) (value : string) : option (fields * string) :=
  match e with
  | stdLongYear =>
      match value with
      | String a (String b (String c (String d rest))) =>
          if isDigit a && isDigit b && isDigit c && isDigit d
          then Some (mkFields (digits_value 0 (take 4 value)) (f_month f) (f_day f)
                       (f_hour f) (f_min f) (f_sec f) (f_nsec f) (amSet f) (pmSet f),
                     rest)
          else None
      | _ => None
      end
  | stdMonth =>
      match lookup shortMonthNames value with
      | Some (i, rest) =>
          Some (mkFields (f_year f) (i + 1) (f_day f) (f_hour f) (f_min f)
                  (f_sec f) (f_nsec f) (amSet f) (pmSet f), rest)
      | None => None
      end
  | stdLongMonth =>
      match lookup longMonthNames value with
      | Some (i, rest) =>
          Some (mkFields (f_year f) (i + 1) (f_day f) (f_hour f) (f_min f)
                  (f_sec f) (f_nsec f) (amSet f) (pmSet f), rest)
      | None => None
      end
  | stdWeekDay =>
      match lookup shortDayNames value with
      | Some (_, rest) => Some (f, rest)
      | None => None
      end
  | stdLongWeekDay =>
      match lookup longDayNames value with
      | Some (_, rest) => Some (f, rest)
      | None => None
      end
  | stdZeroDay =>
      match getnum value true with
      | Some (day, rest) =>
          Some (mkFields (f_year f) (f_month f) day (f_hour f) (f_min f)
                  (f_sec f) (f_nsec f) (amSet f) (pmSet f), rest)
      | None => None
      end
  | stdZeroHour12 =>
      match getnum value true with
      | Some (hour, rest) =>
          if (hour <? 0) || (12 <? hour) then None
          else Some (mkFields (f_year f) (f_month f) (f_day f) hour (f_min f)
                       (f_sec f) (f_nsec f) (amSet f) (pmSet f), rest)
      | None => None
      end
  | stdZeroMinute =>
      match getnum value true with
      | Some (min, rest) =>
          if (min <? 0) || (60 <=? min) then None
          else Some (mkFields (f_year f) (f_month f) (f_day f) (f_hour f) min
                       (f_sec f) (f_nsec f) (amSet f) (pmSet f), rest)
      | None => None
      end
  | stdZeroSecond =>
      match getnum value true with
      | Some (sec, rest) =>
          if (sec <? 0) || (60 <=? sec) then None
          else
            (* a fraction of a second that the layout does not announce *)
            match rest with
            | String p (String d rest') =>
                if commaOrPeriod p && isDigit d then
                  match span_digits (String d rest') with
                  | (ds, after) =>
                      Some (mkFields (f_year f) (f_month f) (f_day f) (f_hour f)
                              (f_min f) sec (nanos_of_digits ds) (amSet f) (pmSet f),
                            after)
                  end
                else Some (mkFields (f_year f) (f_month f) (f_day f) (f_hour f)
                             (f_min f) sec (f_nsec f) (amSet f) (pmSet f), rest)
            | _ => Some (mkFields (f_year f) (f_month f) (f_day f) (f_hour f)
                           (f_min f) sec (f_nsec f) (amSet f) (pmSet f), rest)
            end
      | None => None
      end
  | stdPM =>
      match value with
      | String a (String b rest) =>
          if String.eqb (String a (String b EmptyString)) "PM"
          then Some (mkFields (f_year f) (f_month f) (f_day f) (f_hour f) (f_min f)
                       (f_sec f) (f_nsec f) (amSet f) true, rest)
          else if String.eqb (String a (String b EmptyString)) "AM"
          then Some (mkFields (f_year f) (f_month f) (f_day f) (f_hour f) (f_min f)
                       (f_sec f) (f_nsec f) true (pmSet f), rest)
          else None
      | _ => None
      end
  end.

(** After the last element: the twelve-hour clock is resolved, the day of the
    month is validated, and the time is built in UTC. *)
Definition finish (f : fields) : option Time :=
  let hour :=
    if pmSet f && (f_hour f <? 12) then f_hour f + 12
    else if amSet f && (f_hour f =? 12) then 0
    else f_hour f in
  let month := if f_month f <? 0 then 1 else f_month f in
  let day := if f_day f <? 0 then 1 else f_day f in
  if (day <? 1) || (daysIn month (f_year f) <? day) then None
  else Some (Date (f_year f) month day hour (f_min f) (f_sec f) (f_nsec f)).

Fixpoint parse_loop (l : layout) (f : fields) (value : string) : option Time :=
  match l with
  | [] => if String.eqb value EmptyString then finish f else None
  | Lit prefix :: l' =>
      match skip value prefix with
      | Some value' => parse_loop l' f value'
      | None => None
      end
  | Std e :: l' =>
      match parse_std e f value with
      | Some (f', value') => parse_loop l' f' value'
      | None => None
      end
  end.

(** [time.Parse(layout, value)]; [None] stands for the error. *)
Definition Parse (l : layout) (value : string) : option Time :=
  parse_loop l no_fields value.

(** ** Package [os]: the files the store touches *)

Inductive errno : Type := ENOENT | EACCES | EISDIR | EIO.

(** What a path names: nothing, a regular file that can be read and
    rewritten, or something that can be neither opened nor written. *)
Inductive node : Type :=
| Absent
| Regular (data : string)
| Blocked (e : errno).

Definition fsys : Type := string -> node.

Inductive result (A : Type) : Type :=
| Ok (a : A)
| Err (e : errno).
Arguments Ok {A} a.
Arguments Err {A} e.

(** [os.Open] followed by reading the file to its end. *)
Definition os_Open (fs : fsys) (name : string) : result string :=
  match fs name with
  | Absent => Err ENOENT
  | Regular data => Ok data
  | Blocked e => Err e
  end.

(** [os.WriteFile(name, data, 0644)]: the file is created or truncated. *)
Definition os_WriteFile (fs : fsys) (name data : string) : fsys * option errno :=
  match fs name with
  | Blocked e => (fs, Some e)
  | _ => (fun p => if String.eqb p name then Regular data else fs p, None)
  end.

(** ** The program *)

Definition historyFile : string := "history.txt".

Record session : Type := mkSession {
  start : Time;
  end_ : Time;
  duration : Duration
}.

(** [session{}]: the zero [time.Time] is 0001-01-01 00:00:00 UTC. *)
Definition zeroTime : Time := Date 1 1 1 0 0 0 0.
Definition zeroSession : session := mkSession zeroTime zeroTime 0.


Definition formatDurationLong (d : Duration) : string :=
  let hours := intHours d in
  let minutes := Z.rem (intMinutes d) 60 in
  let seconds := Z.rem (intSeconds d) 60 in
  if 0 <? hours
  then Sprintf "%dh %dm %ds" [AInt hours; AInt minutes; AInt seconds]
  else if 0 <? minutes
  then Sprintf "%dm %ds" [AInt minutes; AInt seconds]
  else Sprintf "%ds" [AInt seconds].

Definition banner : string := "
 ╔════════════════════════════════════════════════════════════════╗
 ║                                                                ║
 ║    ████████╗██╗███╗   ███╗███████╗                             ║
 ║    ╚══██╔══╝██║████╗ ████║██╔════╝                             ║
 ║       ██║   ██║██╔████╔██║█████╗                               ║
 ║       ██║   ██║██║╚██╔╝██║██╔══╝                               ║
 ║       ██║   ██║██║ ╚═╝ ██║███████╗                             ║
 ║       ╚═╝   ╚═╝╚═╝     ╚═╝╚══════╝                             ║
 ║                                                                ║
 ║    ████████╗██████╗  █████╗  ██████╗██╗  ██╗███████╗██████╗    ║
 ║    ╚══██╔══╝██╔══██╗██╔══██╗██╔════╝██║ ██╔╝██╔════╝██╔══██╗   ║
 ║       ██║   ██████╔╝███████║██║     █████╔╝ █████╗  ██████╔╝   ║
 ║       ██║   ██╔══██╗██╔══██║██║     ██╔═██╗ ██╔══╝  ██╔══██╗   ║
 ║       ██║   ██║  ██║██║  ██║╚██████╗██║  ██╗███████╗██║  ██║   ║
 ║       ╚═╝   ╚═╝  ╚═╝╚═╝  ╚═╝ ╚═════╝╚═╝  ╚═╝╚══════╝╚═╝  ╚═╝   ║
 ║                                                                ║
 ╚════════════════════════════════════════════════════════════════╝
".

Definition sectionHeader : string := "
 ┌────────────────────────────────────────────────────────────────┐
 │                      SESSION HISTORY                           │
 └────────────────────────────────────────────────────────────────┘
".

Definition sessionTemplate : string := "
   ┌──────────────────────────────────────────┐
   │  SESSION #%-3d                            │
   ├──────────────────────────────────────────┤
   │  Date:     %-29s │
   │  Start:    %-29s │
   │  End:      %-29s │
   │  Duration: %-29s │
   └──────────────────────────────────────────┘
".

Definition footer : string := "
 ╔════════════════════════════════════════════════════════════════╗
 ║                        END OF REPORT                           ║
 ╚════════════════════════════════════════════════════════════════╝
".

Definition totalDuration (history : list session) : Duration :=
  fold_left (fun total s => wrap64 (total + duration s)) history 0.

(** The record blocks of [history], the first of them numbered [i + 1]. *)
Fixpoint sessionBlocks (i : Z) (history : list session) : string :=
  match history with
  | [] => EmptyString
  | sess :: rest =>
      Sprintf sessionTemplate
        [AInt (i + 1);
         AStr (Format (start sess) layoutDate);
         AStr (Format (start sess) layoutClock);
         AStr (Format (end_ sess) layoutClock);
         AStr (formatDurationLong (duration sess))]
      ++ sessionBlocks (i + 1) rest
  end.

(** The text [saveHistory] builds in [sb]; [now] is [time.Now()].  The line
    feeds that the source writes as escapes stand in the literals. *)
Definition report (now : Time) (history : list session) : string :=
  banner
  ++ Sprintf "
  Generated: %s
" [AStr (Format now layoutGenerated)]
  ++ Sprintf "  Total Sessions: %d
" [AInt (Z.of_nat (List.length history))]
  ++ Sprintf "  Total Time: %s
" [AStr (formatDurationLong (totalDuration history))]
  ++ sectionHeader
  ++ (if Z.of_nat (List.length history) =? 0
      then "
   No sessions recorded yet.
"
      else sessionBlocks 0 history)
  ++ footer.

Definition saveHistory (now : Time) (history : list session) (fs : fsys)
  : fsys * option errno :=
  os_WriteFile fs historyFile (report now history).

(** The variables of the scanning loop of [loadHistory]. *)
Record scan : Type := mkScan {
  history : list session;
  currentSession : option session;
  dateStr : string;
  startStr : string;
  endStr : string
}.

Definition scan0 : scan := mkScan [] None "" "" "".

(** The value of a labelled line: the text after the first occurrence of the
    label, up to the next vertical border, without the surrounding white
    space.  [old] is kept when [SplitN] does not return two parts. *)
Definition labelled (line label old : string) : string :=
  match Str.SplitN2 line label with
  | [_; value] => TrimSpace (Str.SplitHead value "│")
  | _ => old
  end.

(** The five [if] statements of the loop body, in the order of the source. *)
Definition onMarker (line : string) (st : scan) : scan :=
  if Str.Contains line "SESSION #"
  then mkScan (history st) (Some zeroSession) "" "" ""
  else st.

Definition onDate (line : string) (st : scan) : scan :=
  if Str.Contains line "Date:"
  then mkScan (history st) (currentSession st)
         (labelled line "Date:" (dateStr st)) (startStr st) (endStr st)
  else st.

Definition onStart (line : string) (st : scan) : scan :=
  if Str.Contains line "Start:" && negb (Str.Contains line "──")
  then mkScan (history st) (currentSession st)
         (dateStr st) (labelled line "Start:" (startStr st)) (endStr st)
  else st.

Definition onEnd (line : string) (st : scan) : scan :=
  if Str.Contains line "End:"
  then mkScan (history st) (currentSession st)
         (dateStr st) (startStr st) (labelled line "End:" (endStr st))
  else st.

Definition nonEmpty (s : string) : bool := negb (String.eqb s "").

Definition onClose (line : string) (st : scan) : scan :=
  match currentSession st with
  | Some _ =>
      if Str.Contains line "└──"
         && nonEmpty (dateStr st) && nonEmpty (startStr st) && nonEmpty (endStr st)
      then
        match Parse layoutStamp (dateStr st ++ " " ++ startStr st),
              Parse layoutStamp (dateStr st ++ " " ++ endStr st) with
        | Some startTime, Some endTime =>
            mkScan (history st ++ [mkSession startTime endTime (Sub endTime startTime)])
              None (dateStr st) (startStr st) (endStr st)
        | _, _ => mkScan (history st) None (dateStr st) (startStr st) (endStr st)
        end
      else st
  | None => st
  end.

Definition scanLine (st : scan) (line : string) : scan :=
  onClose line (onEnd line (onStart line (onDate line (onMarker line st)))).

Definition parseHistory (data : string) : list session :=
  history (fold_left scanLine (ScanLines data) scan0).

Definition loadHistory (fs : fsys) : list session :=
  match os_Open fs historyFile with
  | Err _ => []
  | Ok data => parseHistory data
  end.

(** ** Vocabulary of the statements *)

Definition asciiByte (c : ascii) : bool := Str.byte_code c <? 128.
Definition isASCII (s : string) : bool := Str.all asciiByte s.

(** Two decimal digits. *)
Definition twoDigits (n : Z) : string :=
  String (digit_char (n / 10)) (String (digit_char (n mod 10)) "").

(** A file in which there is nothing: every path fails to open. *)
Definition emptyDisk : fsys := fun _ => Absent.

(** A disk that holds [data] as the history file. *)
Definition diskWith (data : string) : fsys :=
  fun p => if String.eqb p historyFile then Regular data else Absent.

(** A history file written by hand: the date line holds the weekday only,
    and the start and end lines spell out the rest of two dates that lie
    7993 years apart. *)
Definition farApartHistory : string := "SESSION #1
Date: Monday,
Start: January 02, 2006 03:04:05 PM
End: January 02, 9999 03:04:05 PM
└──
".

(** What [onClose] leaves of the loop variables: the pending record is gone,
    the three strings stay. *)
Definition closed (st : scan) (h : list session) : scan :=
  mkScan h None (dateStr st) (startStr st) (endStr st).

(** [inSet set c]: the byte [c] is one of the bytes of [set]. *)
Definition inSet (set : string) (c : ascii) : bool := Str.mem c set.

(** An ASCII byte that is not white space. *)
Definition solid (c : ascii) : bool :=
  asciiByte c && negb ((9 <=? Str.byte_code c) && (Str.byte_code c <=? 13))
  && negb (Str.byte_code c =? 32).

Definition headSolid (s : string) : bool :=
  match s with
  | String c _ => solid c
  | EmptyString => false
  end.

Fixpoint lastSolid (s : string) : bool :=
  match s with
  | EmptyString => false
  | String c EmptyString => solid c
  | String _ s' => lastSolid s'
  end.

(** No element of [seqs] starts with the byte [c]. *)
Definition leadFree (seqs : list string) (c : ascii) : bool :=
  forallb (fun sp => match sp with
                     | String a _ => negb (Ascii.eqb a c)
                     | EmptyString => false
                     end) seqs.

(** Every element of [seqs] has a first byte, and no byte [c] after it. *)
Definition tailsLack (c : ascii) (seqs : list string) : bool :=
  forallb (fun sp => match sp with
                     | String _ t => Str.lacks c t
                     | EmptyString => false
                     end) seqs.

(** ** The report, line by line *)

(** The text of a file whose lines are [ls], each ended by a line feed. *)
Fixpoint unlines (ls : list string) : string :=
  match ls with
  | [] => EmptyString
  | l :: ls' => l ++ String newline (unlines ls')
  end.

Definition bannerLines : list string :=
  [ "";
    " ╔════════════════════════════════════════════════════════════════╗";
    " ║                                                                ║";
    " ║    ████████╗██╗███╗   ███╗███████╗                             ║";
    " ║    ╚══██╔══╝██║████╗ ████║██╔════╝                             ║";
    " ║       ██║   ██║██╔████╔██║█████╗                               ║";
    " ║       ██║   ██║██║╚██╔╝██║██╔══╝                               ║";
    " ║       ██║   ██║██║ ╚═╝ ██║███████╗                             ║";
    " ║       ╚═╝   ╚═╝╚═╝     ╚═╝╚══════╝                             ║";
    " ║                                                                ║";
    " ║    ████████╗██████╗  █████╗  ██████╗██╗  ██╗███████╗██████╗    ║";
    " ║    ╚══██╔══╝██╔══██╗██╔══██╗██╔════╝██║ ██╔╝██╔════╝██╔══██╗   ║";
    " ║       ██║   ██████╔╝███████║██║     █████╔╝ █████╗  ██████╔╝   ║";
    " ║       ██║   ██╔══██╗██╔══██║██║     ██╔═██╗ ██╔══╝  ██╔══██╗   ║";
    " ║       ██║   ██║  ██║██║  ██║╚██████╗██║  ██╗███████╗██║  ██║   ║";
    " ║       ╚═╝   ╚═╝  ╚═╝╚═╝  ╚═╝ ╚═════╝╚═╝  ╚═╝╚══════╝╚═╝  ╚═╝   ║";
    " ║                                                                ║";
    " ╚════════════════════════════════════════════════════════════════╝" ].

Definition sectionLines : list string :=
  [ "";
    " ┌────────────────────────────────────────────────────────────────┐";
    " │                      SESSION HISTORY                           │";
    " └────────────────────────────────────────────────────────────────┘" ].

Definition footerLines : list string :=
  [ "";
    " ╔════════════════════════════════════════════════════════════════╗";
    " ║                        END OF REPORT                           ║";
    " ╚════════════════════════════════════════════════════════════════╝" ].

Definition emptyLines : list string := [ ""; "   No sessions recorded yet." ].

Definition blockTop : string := "   ┌──────────────────────────────────────────┐".
Definition blockMid : string := "   ├──────────────────────────────────────────┤".
Definition blockBottom : string := "   └──────────────────────────────────────────┘".

(** The line of a record that carries its number. *)
Definition markerLine (n : Z) : string :=
  "   │  SESSION #" ++ pad true 3 (itoa n) ++ "                            │".

(** A labelled line of a record; [label] is the label with the spaces that
    follow it. *)
Definition fieldLine (label value : string) : string :=
  "   │  " ++ label ++ pad true 29 value ++ " │".

Definition dateLine (t : Time) : string := fieldLine "Date:     " (Format t layoutDate).
Definition startLine (t : Time) : string := fieldLine "Start:    " (Format t layoutClock).
Definition endLine (t : Time) : string := fieldLine "End:      " (Format t layoutClock).
Definition durationLine (d : Duration) : string :=
  fieldLine "Duration: " (formatDurationLong d).

(** The nine lines of the record block of [sess], numbered [n]. *)
Definition blockLines (n : Z) (sess : session) : list string :=
  [ ""; blockTop; markerLine n; blockMid;
    dateLine (start sess); startLine (start sess); endLine (end_ sess);
    durationLine (duration sess); blockBottom ].

Fixpoint blocksLines (i : Z) (history : list session) : list string :=
  match history with
  | [] => []
  | sess :: rest => (blockLines (i + 1) sess ++ blocksLines (i + 1) rest)%list
  end.

Definition metaLines (now : Time) (history : list session) : list string :=
  [ "";
    "  Generated: " ++ Format now layoutGenerated;
    "  Total Sessions: " ++ itoa (Z.of_nat (List.length history));
    "  Total Time: " ++ formatDurationLong (totalDuration history) ].

Definition reportLines (now : Time) (history : list session) : list string :=
  (bannerLines ++ metaLines now history ++ sectionLines
   ++ (match history with [] => emptyLines | _ => blocksLines 0 history end)
   ++ footerLines)%list.

(** ** Alphabets *)

(** The bytes an element of a layout can produce are all in [set]. *)
Definition std_in (set : string) (e : std) : bool :=
  match e with
  | stdLongMonth => forallb (Str.all (inSet set)) longMonthNames
  | stdMonth => forallb (Str.all (inSet set)) shortMonthNames
  | stdLongWeekDay => forallb (Str.all (inSet set)) longDayNames
  | stdWeekDay => forallb (Str.all (inSet set)) shortDayNames
  | stdPM => Str.all (inSet set) "APM"
  | _ => Str.all (inSet set) "-0123456789"
  end.

Definition chunk_in (set : string) (c : chunk) : bool :=
  match c with
  | Lit text => Str.all (inSet set) text
  | Std e => std_in set e
  end.

Definition numberSet : string := "-0123456789".
Definition clockSet : string := "-0123456789:APM ".
Definition dateSet : string :=
  "-0123456789, ADFJMNOSTWabcdeghilmnoprstuvy".
Definition stampSet : string :=
  "-0123456789,: ADFJMNOPSTWabcdeghilmnoprstuvy".
Definition durationSet : string := "-0123456789hms ".

(** ** Enumeration *)

(** [p] holds of the [2 ^ depth] numbers from [lo] on. *)
Fixpoint range_check (depth : nat) (p : Z -> bool) (lo : Z) : bool :=
  match depth with
  | O => p lo
  | S d => range_check d p lo && range_check d p (lo + 2 ^ Z.of_nat d)
  end.

(** What the calendar promises of the day [doe] of a 400-year cycle. *)
Definition cycle_day_ok (doe : Z) : bool :=
  match civil_of_cycle_day doe with
  | (y, m, d) =>
      (0 <=? y) && (y <=? 400) && (1 <=? m) && (m <=? 12)
      && (1 <=? d) && (d <=? daysIn m y)
      && (daysSinceMarch0 y m d =? doe)
  end.

(** Four decimal digits. *)
Definition fourDigits (n : Z) : string :=
  String (digit_char (n / 1000))
    (String (digit_char (n / 100 mod 10))
       (String (digit_char (n / 10 mod 10))
          (String (digit_char (n mod 10)) ""))).

(** The date of [t] with the time of day of [u], in whole seconds. *)
Definition onDayOf (t u : Time) : Time :=
  (dayNumber t * secondsPerDay + secondOfDay u) * Second.

(** The year of [t] has four digits. *)
Definition yearFits (t : Time) : bool := (0 <=? Year t) && (Year t <=? 9999).

(** The duration of a record is the difference of its end and start as
    [Time.Sub] computes it. *)
Definition subConsistent (s : session) : Prop :=
  duration s = Sub (end_ s) (start s).

(** ** Vocabulary of the reader *)

(** A line that none of the five tests of the loop body reacts to. *)
Definition inert (line : string) : bool :=
  negb (Str.Contains line "SESSION #")
  && negb (Str.Contains line "Date:")
  && negb (Str.Contains line "Start:" && negb (Str.Contains line "──"))
  && negb (Str.Contains line "End:")
  && negb (Str.Contains line "└──").

(** A line that the scanner hands over as it is: no line feed inside, no
    carriage return, shorter than the buffer. *)
Definition plainLine (line : string) : bool :=
  Str.lacks newline line && Str.lacks carriage_return line
  && (Str.len line <? MaxScanTokenSize).

(** What the reader makes of a record that the writer wrote: nothing when
    the year of the start does not have four digits; otherwise the start
    without its fraction of a second, the time of day of the end on the
    date of the start, and the difference of the two. *)
Definition reread (s : session) : option session :=
  if yearFits (start s)
  then Some (mkSession (onDayOf (start s) (start s)) (onDayOf (start s) (end_ s))
               (onDayOf (start s) (end_ s) - onDayOf (start s) (start s)))
  else None.

Definition rereadList (s : session) : list session :=
  match reread s with
  | Some s' => [s']
  | None => []
  end.

(** The records the reader returns for the file written from [history]:
    in the order of [history]. *)
Definition recovered (history : list session) : list session :=
  flat_map rereadList history.

(** A printable ASCII byte. *)
Definition printable (c : ascii) : bool :=
  (32 <=? Str.byte_code c) && (Str.byte_code c <? 127).

(** Literal text of at most 25 bytes; every element of a layout produces at
    most that many. *)
Definition chunk_short (c : chunk) : bool :=
  match c with
  | Lit text => Str.len text <=? 25
  | Std _ => true
  end.

(** ** Editing a file by hand *)

(** A list without its element of index [n] (counted from 0). *)
Definition removeNth {A : Type} (n : nat) (l : list A) : list A :=
  (firstn n l ++ skipn (S n) l)%list.

(** The text [data] without its line of index [n]. *)
Definition deleteLine (n : nat) (data : string) : string :=
  unlines (removeNth n (rawLines data)).

(** The banner, the metadata and the section header take 26 lines, every
    record block takes nine, and the "End:" line is the seventh of its
    block: the index of the "End:" line of the record of index [k]. *)
Definition endLineIndex (k : nat) : nat := (26 + (9 * k + 6))%nat.

(** ** Vocabulary of the round trip *)

(** A session that the file can hold: it does not end before it starts, its
    two times are whole seconds, it ends on the calendar day on which it
    starts, and the year of that day has four digits. *)
Definition roundTrips (s : session) : Prop :=
  start s <= end_ s /\ Nanos (start s) = 0 /\ Nanos (end_ s) = 0 /\
  dayNumber (end_ s) = dayNumber (start s) /\ 0 <= Year (start s) <= 9999.

(** A session with its duration recomputed from its two times. *)
Definition asRead (s : session) : session :=
  mkSession (start s) (end_ s) (end_ s - start s).

(** A session from 23:00 to 01:00 of the next day, and the moment of saving. *)
Definition lateSession : session :=
  mkSession (Date 2024 1 1 23 0 0 0) (Date 2024 1 2 1 0 0 0) (2 * Hour).

Definition savingTime : Time := Date 2024 1 2 1 0 5 0.

(** A session in the first hour of the year 10000. *)
Definition farSession : session :=
  mkSession (Date 10000 1 1 0 0 0 0) (Date 10000 1 1 0 30 0 0) (30 * Minute).

(** Two sessions of one evening. *)
Definition firstEvening : session :=
  mkSession (Date 2024 1 1 18 0 0 0) (Date 2024 1 1 19 30 0 0) (90 * Minute).

Definition secondEvening : session :=
  mkSession (Date 2024 1 1 20 0 0 0) (Date 2024 1 1 20 45 10 0)
    (45 * Minute + 10 * Second).

Definition eveningSessions : list session := [firstEvening; secondEvening].

(** The lines of a record block whose "End:" line has been deleted. *)
Definition blockLinesNoEnd (n : Z) (sess : session) : list string :=
  [ ""; blockTop; markerLine n; blockMid;
    dateLine (start sess); startLine (start sess);
    durationLine (duration sess); blockBottom ].

(** The lines before the record blocks. *)
Definition headerLines (now : Time) (history : list session) : list string :=
  (bannerLines ++ metaLines now history ++ sectionLines)%list.

(** ** The duration formatters in words *)



(** The whole seconds for which the counts are checked one by one. *)
Definition wholeSecondsChecked : Z := 2 ^ 13.


(** ** Vocabulary of further properties of the store *)

(** The number of lines that contain the record marker. *)
Definition markerCount (ls : list string) : nat :=
  List.length (filter (fun l => Str.Contains l "SESSION #") ls).

(** A pending record counts for one. *)
Definition pendingCount (st : scan) : nat :=
  match currentSession st with
  | Some _ => 1%nat
  | None => 0%nat
  end.

(** The text with a carriage return before every line feed. *)
Fixpoint toCRLF (data : string) : string :=
  match data with
  | EmptyString => EmptyString
  | String c rest =>
      if Ascii.eqb c newline
      then String carriage_return (String newline (toCRLF rest))
      else String c (toCRLF rest)
  end.

(** Every line of the text is shorter than [bound]. *)
Definition linesShorter (bound : Z) (data : string) : bool :=
  forallb (fun l => Str.len l <? bound) (rawLines data).

(** The long form shows the seconds alone: no count of hours or minutes is
    positive, and the seconds are [s]. *)
Definition countsSecondsOnly (d : Duration) (s : Z) : bool :=
  (intHours d <=? 0) && (Z.rem (intMinutes d) 60 <=? 0)
  && (Z.rem (intSeconds d) 60 =? s).

(** ** The program around the store: the model and its [Update] *)

Module App.

(** [view] *)
Inductive view : Type := menuView | trackingView | historyView | settingsView.

(** A [tea.Msg]: a [tickMsg], a [tea.KeyMsg] given by its [String()], or a
    message of another type. *)
Inductive msg : Type :=
| tickMsg (t : Time)
| KeyMsg (key : string)
| otherMsg.

(** A [tea.Cmd]: [nil], [tickCmd()] or [tea.Quit]. *)
Inductive cmd : Type := cmdNil | cmdTick | cmdQuit.

(** A [map[string]bool] that is not [nil]: only lookups and assignments are
    made, so the order of the pairs does not show. *)
Definition settingsMap : Type := list (string * bool).

(** [s[key]]: [false] for a key that is not in the map. *)
Fixpoint mapGet (key : string) (s : settingsMap) : bool :=
  match s with
  | [] => false
  | (k, v) :: s' => if String.eqb k key then v else mapGet key s'
  end.

(** [s[key] = value] *)
Fixpoint mapSet (key : string) (value : bool) (s : settingsMap) : settingsMap :=
  match s with
  | [] => [(key, value)]
  | (k, v) :: s' =>
      if String.eqb k key then (k, value) :: s' else (k, v) :: mapSet key value s'
  end.

(** [model]; the [settings] of a zero [model] are the [nil] map, [None]. *)
Record model : Type := mkModel {
  currentView : view;
  cursor : Z;
  menuItems : list string;
  tracking : bool;
  trackingStart : Time;
  elapsed : Duration;
  history : list session;
  settingsCursor : Z;
  settings : option settingsMap
}.

(** What the program acts on besides its model: the clock, given by its
    successive readings, and the files.  The clock is one clock: the wall
    reading and the monotonic reading of a [time.Time] agree. *)
Record world : Type := mkWorld {
  clock : nat -> Time;
  reads : nat;
  disk : fsys
}.

(** [time.Now()] *)
Definition timeNow (w : world) : Time * world :=
  (clock w (reads w), mkWorld (clock w) (S (reads w)) (disk w)).

(** [time.Since(t)] *)
Definition timeSince (t : Time) (w : world) : Duration * world :=
  match timeNow w with
  | (now, w') => (Sub now t, w')
  end.

(** The statement [saveHistory(h)]: the error is not looked at. *)
Definition save (h : list session) (w : world) : world :=
  match timeNow w with
  | (now, w') => mkWorld (clock w') (reads w') (fst (saveHistory now h (disk w')))
  end.

Definition theMenu : list string :=
  ["Start tracking"; "Stop tracking"; "View history"; "Settings"; "Quit"].

Definition initialSettings : settingsMap :=
  [("Show seconds", true); ("Auto-save", true); ("Notifications", false);
   ("Dark mode", true)].

Definition initialModel (w : world) : model :=
  mkModel menuView 0 theMenu false zeroTime 0 (loadHistory (disk w)) 0
    (Some initialSettings).

Definition getSettingsKeys : list string :=
  ["Show seconds"; "Auto-save"; "Notifications"; "Dark mode"].

(** The result of a step: [None] is a run-time panic. *)
Definition outcome : Type := option (model * cmd * world).

(** A [case] of a [switch] on the name of the key. *)
Definition keyIs (key : string) (names : list string) : bool :=
  existsb (String.eqb key) names.

Definition len {A : Type} (l : list A) : Z := Z.of_nat (List.length l).

Definition setCursor (m : model) (c : Z) : model :=
  mkModel (currentView m) c (menuItems m) (tracking m) (trackingStart m)
    (elapsed m) (history m) (settingsCursor m) (settings m).

Definition setSettingsCursor (m : model) (c : Z) : model :=
  mkModel (currentView m) (cursor m) (menuItems m) (tracking m) (trackingStart m)
    (elapsed m) (history m) c (settings m).

Definition setView (m : model) (v : view) : model :=
  mkModel v (cursor m) (menuItems m) (tracking m) (trackingStart m)
    (elapsed m) (history m) (settingsCursor m) (settings m).

(** The statements of a stop: the session that ran is appended with the
    elapsed time of the last tick, and the whole history is saved. *)
Definition stopped (m : model) (v : view) (w : world) : model * world :=
  match timeNow w with
  | (now, w') =>
      let h := (history m ++ [mkSession (trackingStart m) now (elapsed m)])%list in
      (mkModel v (cursor m) (menuItems m) false (trackingStart m) 0 h
         (settingsCursor m) (settings m),
       save h w')
  end.

Definition updateMenu (m : model) (key : string) (w : world) : outcome :=
  if keyIs key ["ctrl+c"; "q"] then Some (m, cmdQuit, w)
  else if keyIs key ["up"; "k"] then
    Some (if 0 <? cursor m then setCursor m (cursor m - 1) else m, cmdNil, w)
  else if keyIs key ["down"; "j"] then
    Some (if cursor m <? len (menuItems m) - 1 then setCursor m (cursor m + 1) else m,
          cmdNil, w)
  else if keyIs key ["enter"] then
    if cursor m =? 0 then
      if negb (tracking m) then
        match timeNow w with
        | (now, w') =>
            Some (mkModel trackingView (cursor m) (menuItems m) true now 0
                    (history m) (settingsCursor m) (settings m),
                  cmdTick, w')
        end
      else Some (m, cmdNil, w)
    else if cursor m =? 1 then
      if tracking m then
        match stopped m (currentView m) w with
        | (m', w') => Some (m', cmdNil, w')
        end
      else Some (m, cmdNil, w)
    else if cursor m =? 2 then Some (setCursor (setView m historyView) 0, cmdNil, w)
    else if cursor m =? 3 then
      Some (setSettingsCursor (setView m settingsView) 0, cmdNil, w)
    else if cursor m =? 4 then Some (m, cmdQuit, w)
    else Some (m, cmdNil, w)
  else Some (m, cmdNil, w).

Definition updateTracking (m : model) (key : string) (w : world) : outcome :=
  if keyIs key ["ctrl+c"; "q"] then Some (m, cmdQuit, w)
  else if keyIs key ["esc"; "b"] then Some (setView m menuView, cmdNil, w)
  else if keyIs key ["enter"; "s"] then
    if tracking m then
      match stopped m menuView w with
      | (m', w') => Some (m', cmdNil, w')
      end
    else Some (m, cmdNil, w)
  else Some (m, cmdTick, w).

Definition updateHistory (m : model) (key : string) (w : world) : outcome :=
  if keyIs key ["ctrl+c"; "q"] then Some (m, cmdQuit, w)
  else if keyIs key ["esc"; "b"] then Some (setCursor (setView m menuView) 0, cmdNil, w)
  else if keyIs key ["up"; "k"] then
    Some (if 0 <? cursor m then setCursor m (cursor m - 1) else m, cmdNil, w)
  else if keyIs key ["down"; "j"] then
    Some (if cursor m <? len (history m) - 1 then setCursor m (cursor m + 1) else m,
          cmdNil, w)
  else if keyIs key ["d"; "backspace"] then
    if (0 <? len (history m)) && (cursor m <? len (history m)) then
      (* [m.history[:m.cursor]] panics for a negative cursor *)
      if cursor m <? 0 then None
      else
        let h := removeNth (Z.to_nat (cursor m)) (history m) in
        let c := if (len h <=? cursor m) && (0 <? cursor m)
                 then cursor m - 1 else cursor m in
        Some (mkModel (currentView m) c (menuItems m) (tracking m) (trackingStart m)
                (elapsed m) h (settingsCursor m) (settings m),
              cmdNil, save h w)
    else Some (m, cmdNil, w)
  else Some (m, cmdNil, w).

Definition updateSettings (m : model) (key : string) (w : world) : outcome :=
  let settingsKeys := getSettingsKeys in
  if keyIs key ["ctrl+c"; "q"] then Some (m, cmdQuit, w)
  else if keyIs key ["esc"; "b"] then Some (setCursor (setView m menuView) 0, cmdNil, w)
  else if keyIs key ["up"; "k"] then
    Some (if 0 <? settingsCursor m then setSettingsCursor m (settingsCursor m - 1) else m,
          cmdNil, w)
  else if keyIs key ["down"; "j"] then
    Some (if settingsCursor m <? len settingsKeys - 1
          then setSettingsCursor m (settingsCursor m + 1) else m,
          cmdNil, w)
  else if keyIs key ["enter"; " "] then
    (* [settingsKeys[m.settingsCursor]] panics outside the slice *)
    if (settingsCursor m <? 0) || (len settingsKeys <=? settingsCursor m) then None
    else
      let k := nth (Z.to_nat (settingsCursor m)) settingsKeys "" in
      (* an assignment to an entry of a [nil] map panics *)
      match settings m with
      | None => None
      | Some s =>
          Some (mkModel (currentView m) (cursor m) (menuItems m) (tracking m)
                  (trackingStart m) (elapsed m) (history m) (settingsCursor m)
                  (Some (mapSet k (negb (mapGet k s)) s)),
                cmdNil, w)
      end
  else Some (m, cmdNil, w).

Definition Update (m : model) (message : msg) (w : world) : outcome :=
  match message with
  | tickMsg _ =>
      if tracking m then
        match timeSince (trackingStart m) w with
        | (d, w') =>
            Some (mkModel (currentView m) (cursor m) (menuItems m) (tracking m)
                    (trackingStart m) d (history m) (settingsCursor m) (settings m),
                  cmdTick, w')
        end
      else Some (m, cmdNil, w)
  | KeyMsg key =>
      match currentView m with
      | menuView => updateMenu m key w
      | trackingView => updateTracking m key w
      | historyView => updateHistory m key w
      | settingsView => updateSettings m key w
      end
  | otherMsg => Some (m, cmdNil, w)
  end.

(** The program from its start, message after message; the commands only
    decide which messages come later, and every sequence is considered. *)
Fixpoint run (msgs : list msg) (m : model) (w : world) : option (model * world) :=
  match msgs with
  | [] => Some (m, w)
  | message :: rest =>
      match Update m message w with
      | Some (m', _, w') => run rest m' w'
      | None => None
      end
  end.

(** The value of a setting as the views read it. *)
Definition setting (m : model) (key : string) : bool :=
  match settings m with
  | Some s => mapGet key s
  | None => false
  end.

(** The cursors are where the program can use them, the settings are a
    map, and the tracking screen shows a session that runs. *)
Definition inBounds (m : model) : Prop :=
  menuItems m = theMenu /\
  0 <= cursor m /\
  0 <= settingsCursor m < 4 /\
  settings m <> None /\
  (currentView m = historyView -> cursor m <= Z.max 0 (len (history m) - 1)) /\
  (currentView m <> historyView -> cursor m <= 4) /\
  (currentView m = trackingView -> tracking m = true).

(** The history file can be written. *)
Definition writable (w : world) : bool :=
  match disk w historyFile with
  | Blocked _ => false
  | _ => true
  end.

(** The setting under the settings cursor. *)
Definition selected (m : model) : string :=
  nth (Z.to_nat (settingsCursor m)) getSettingsKeys "".

(** A world to start in: no file yet, and a clock that is one second
    further at every reading. *)
Definition firstWorld : world :=
  mkWorld (fun n => savingTime + Z.of_nat n * Second) 0 emptyDisk.

(** The model while a first session runs, on the tracking screen. *)
Definition runningModel : model :=
  mkModel trackingView 0 theMenu true savingTime (5 * Second) [] 0
    (Some initialSettings).

End App.

(** * Properties *)

(** ** Strings *)

Lemma append_nil_r (s : string) : s ++ "" = s.
Proof. induction s as [|c s IH]; simpl; [reflexivity | now rewrite IH]. Qed.

Lemma append_assoc (a b c : string) : (a ++ b) ++ c = a ++ (b ++ c).
Proof. induction a as [|x a IH]; simpl; [reflexivity | now rewrite IH]. Qed.

Lemma length_append (a b : string) :
  String.length (a ++ b) = (String.length a + String.length b)%nat.
Proof. induction a as [|x a IH]; simpl; [reflexivity | now rewrite IH]. Qed.

Lemma len_append (a b : string) : Str.len (a ++ b) = Str.len a + Str.len b.
Proof. unfold Str.len. rewrite length_append. lia. Qed.

Lemma len_nonneg (s : string) : 0 <= Str.len s.
Proof. unfold Str.len. lia. Qed.

Lemma len_String (c : ascii) (s : string) : Str.len (String c s) = 1 + Str.len s.
Proof. unfold Str.len. simpl String.length. lia. Qed.

Lemma length_repeat (c : ascii) (n : nat) : String.length (Str.repeat c n) = n.
Proof. induction n as [|n IH]; simpl; [reflexivity | now rewrite IH]. Qed.

Lemma all_append (p : ascii -> bool) (a b : string) :
  Str.all p (a ++ b) = Str.all p a && Str.all p b.
Proof.
  induction a as [|x a IH]; simpl; [reflexivity|].
  now rewrite IH, andb_assoc.
Qed.

Lemma all_repeat (p : ascii -> bool) (c : ascii) (n : nat) :
  p c = true -> Str.all p (Str.repeat c n) = true.
Proof. intros H. induction n as [|n IH]; simpl; [reflexivity | now rewrite H, IH]. Qed.

Lemma all_weaken (p q : ascii -> bool) (s : string) :
  (forall c, p c = true -> q c = true) -> Str.all p s = true -> Str.all q s = true.
Proof.
  intros Hpq. induction s as [|c s IH]; simpl; [reflexivity|].
  rewrite !andb_true_iff. intros [H1 H2]. split; auto.
Qed.

(** A property of bytes holds of all of them when it holds of the 256. *)
Lemma byte_forall (p : ascii -> bool) :
  forallb (fun n => p (ascii_of_nat n)) (seq 0 256) = true ->
  forall c, p c = true.
Proof.
  intros H c. rewrite forallb_forall in H.
  rewrite <- (ascii_nat_embedding c). apply H.
  apply in_seq. pose proof (nat_ascii_bounded c). lia.
Qed.

(** A property of numbers below a bound, by enumeration. *)
Lemma below_forall (p : Z -> bool) (bound : nat) :
  forallb (fun k => p (Z.of_nat k)) (seq 0 bound) = true ->
  forall n, 0 <= n < Z.of_nat bound -> p n = true.
Proof.
  intros H n Hn. rewrite forallb_forall in H.
  rewrite <- (Z2Nat.id n) by lia. apply H. apply in_seq. lia.
Qed.

Lemma range_check_spec (depth : nat) (p : Z -> bool) (lo : Z) :
  range_check depth p lo = true ->
  forall n, lo <= n < lo + 2 ^ Z.of_nat depth -> p n = true.
Proof.
  revert lo. induction depth as [|d IH]; intros lo H n Hn.
  - cbn in Hn. replace n with lo by lia. exact H.
  - cbn [range_check] in H. apply andb_true_iff in H as [H1 H2].
    rewrite Nat2Z.inj_succ, Z.pow_succ_r in Hn by lia.
    destruct (Z.lt_ge_cases n (lo + 2 ^ Z.of_nat d)).
    + apply (IH lo H1). lia.
    + apply (IH _ H2). lia.
Qed.

(** ** Numbers as text *)

Lemma RuneCount_ascii (s : string) :
  isASCII s = true -> RuneCountInString s = Str.len s.
Proof.
  unfold isASCII. induction s as [|c0 s1 IH]; [reflexivity|].
  cbn [Str.all]. rewrite andb_true_iff. intros [Hc Hs].
  specialize (IH Hs). rewrite len_String.
  destruct s1 as [|c1 s2]; [reflexivity|].
  cbn [RuneCountInString] in *.
  assert (Hsz : utf8_size (Str.byte_code c0) (Str.byte_code c1) = 1).
  { unfold utf8_size. unfold asciiByte in Hc. apply Z.ltb_lt in Hc.
    destruct (Str.byte_code c0 <? 194) eqn:E; [reflexivity|].
    apply Z.ltb_ge in E. lia. }
  rewrite Hsz. cbn [Z.eqb Pos.eqb]. rewrite IH. reflexivity.
Qed.

Lemma digit_char_digit (d : Z) : 0 <= d < 10 -> isDigit (digit_char d) = true.
Proof.
  intros H. revert d H.
  apply (below_forall (fun d => isDigit (digit_char d)) 10). reflexivity.
Qed.

Lemma digit_char_val (d : Z) : 0 <= d < 10 -> digit_val (digit_char d) = d.
Proof.
  intros H. apply Z.eqb_eq. revert d H.
  apply (below_forall (fun d => digit_val (digit_char d) =? d) 10). reflexivity.
Qed.

Lemma utoa_loop_digits (fuel : nat) (u : Z) (acc : string) :
  Str.all isDigit acc = true -> Str.all isDigit (utoa_loop fuel u acc) = true.
Proof.
  revert u acc. induction fuel as [|fuel IH]; intros u acc Hacc; [exact Hacc|].
  cbn [utoa_loop].
  assert (H : Str.all isDigit (String (digit_char (u mod 10)) acc) = true).
  { cbn [Str.all]. rewrite Hacc, digit_char_digit; [reflexivity|].
    apply Z.mod_pos_bound. lia. }
  destruct (u / 10 =? 0); [exact H | now apply IH].
Qed.

Lemma utoa_digits (u : Z) : Str.all isDigit (utoa u) = true.
Proof. apply utoa_loop_digits. reflexivity. Qed.

Lemma utoa_loop_length (fuel : nat) (u : Z) (acc : string) :
  (String.length acc < String.length (utoa_loop (S fuel) u acc) <=
   String.length acc + S fuel)%nat.
Proof.
  revert u acc. induction fuel as [|fuel IH]; intros u acc.
  - cbn [utoa_loop]. destruct (u / 10 =? 0); cbn [String.length]; lia.
  - change (utoa_loop (S (S fuel)) u acc)
      with (let acc' := String (digit_char (u mod 10)) acc in
            if u / 10 =? 0 then acc' else utoa_loop (S fuel) (u / 10) acc').
    cbv zeta. destruct (u / 10 =? 0); [cbn [String.length]; lia|].
    specialize (IH (u / 10) (String (digit_char (u mod 10)) acc)).
    cbn [String.length] in IH. lia.
Qed.

Lemma utoa_len (u : Z) : 1 <= Str.len (utoa u) <= 20.
Proof.
  unfold utoa, Str.len. pose proof (utoa_loop_length 19 u "") as H.
  change (String.length "") with O in H. lia.
Qed.



Lemma repeat_zero (c : ascii) (n : Z) : n <= 0 -> Str.repeat c (Z.to_nat n) = "".
Proof. intros H. replace (Z.to_nat n) with O by lia. reflexivity. Qed.

Lemma len_spaces (n : Z) : Str.len (spaces n) = Z.max 0 n.
Proof. unfold spaces, Str.len. rewrite length_repeat. lia. Qed.

Lemma len_zeros (n : Z) : Str.len (zeros n) = Z.max 0 n.
Proof. unfold zeros, Str.len. rewrite length_repeat. lia. Qed.





Lemma appendInt_two (n : Z) : 0 <= n < 100 -> appendInt n 2 = twoDigits n.
Proof.
  intros H. apply String.eqb_eq. revert n H.
  apply (below_forall (fun n => String.eqb (appendInt n 2) (twoDigits n)) 100).
  vm_compute. reflexivity.
Qed.

(** ** The duration formatters *)

Lemma Sprintf_hms (h m s : Z) :
  Sprintf "%dh %dm %ds" [AInt h; AInt m; AInt s]
  = format_verb false false 0 (AInt h) ++ "h "
    ++ format_verb false false 0 (AInt m) ++ "m "
    ++ format_verb false false 0 (AInt s) ++ "s".
Proof. reflexivity. Qed.

Lemma Sprintf_ms (m s : Z) :
  Sprintf "%dm %ds" [AInt m; AInt s]
  = format_verb false false 0 (AInt m) ++ "m "
    ++ format_verb false false 0 (AInt s) ++ "s".
Proof. reflexivity. Qed.

Lemma Sprintf_s (s : Z) :
  Sprintf "%ds" [AInt s] = format_verb false false 0 (AInt s) ++ "s".
Proof. reflexivity. Qed.



(** ** The reader, on any file *)

(** C2. When the history file does not exist, and when opening it fails for
    any other reason, [loadHistory] returns the empty collection; its result
    type has no place for an error. *)
Theorem loadHistory_open_failure (fs : fsys) :
  (fs historyFile = Absent -> loadHistory fs = []) /\
  (forall e, os_Open fs historyFile = Err e -> loadHistory fs = []).
Proof.
  split.
  - intros H. unfold loadHistory, os_Open. rewrite H. reflexivity.
  - intros e H. unfold loadHistory. rewrite H. reflexivity.
Qed.

Lemma loadHistory_open_failure_witness :
  loadHistory emptyDisk = [] /\ loadHistory (fun _ => Blocked EACCES) = [].
Proof.
  split.
  - exact (proj1 (loadHistory_open_failure emptyDisk) eq_refl).
  - exact (proj2 (loadHistory_open_failure (fun _ => Blocked EACCES)) EACCES eq_refl).
Defined.

Lemma Sub_in_range (t u : Time) :
  minDuration <= t - u <= maxDuration -> Sub t u = t - u.
Proof.
  intros [Hlo Hhi]. unfold Sub.
  destruct (Z.ltb_spec (t - u) minDuration); [lia|].
  destruct (Z.ltb_spec maxDuration (t - u)); [lia | reflexivity].
Qed.

Lemma nonEmpty_true (s : string) : s <> "" -> nonEmpty s = true.
Proof.
  intros H. unfold nonEmpty. destruct (String.eqb_spec s ""); [contradiction | reflexivity].
Qed.

(** C4, as amended.  At a line that contains the closing delimiter, with a
    pending record and the date, start and end strings all non-empty, the
    date followed by a space and the start, and the date followed by a space
    and the end, are parsed against "Monday, January 02, 2006 03:04:05 PM".
    When both parse, one record is appended: the two parsed times and
    [end.Sub(start)], which is computed from them, not read from the file,
    and is their difference whenever that fits a [Duration], the nearest
    bound of [Duration] otherwise.  When either fails, nothing is appended.
    The pending record is discarded in both cases. *)
Theorem onClose_at_delimiter (line : string) (st : scan) (pending : session)
  (Hline : Str.Contains line "└──" = true)
  (Hpending : currentSession st = Some pending)
  (Hdate : dateStr st <> "") (Hstart : startStr st <> "") (Hend : endStr st <> "") :
  (forall startTime endTime,
     Parse layoutStamp (dateStr st ++ " " ++ startStr st) = Some startTime ->
     Parse layoutStamp (dateStr st ++ " " ++ endStr st) = Some endTime ->
     onClose line st
     = closed st (history st ++ [mkSession startTime endTime (Sub endTime startTime)]) /\
     (minDuration <= endTime - startTime <= maxDuration ->
      Sub endTime startTime = endTime - startTime) /\
     (maxDuration < endTime - startTime -> Sub endTime startTime = maxDuration) /\
     (endTime - startTime < minDuration -> Sub endTime startTime = minDuration)) /\
  (Parse layoutStamp (dateStr st ++ " " ++ startStr st) = None \/
   Parse layoutStamp (dateStr st ++ " " ++ endStr st) = None ->
   onClose line st = closed st (history st)) /\
  currentSession (onClose line st) = None.
Proof.
  assert (Hguard :
    Str.Contains line "└──"
    && nonEmpty (dateStr st) && nonEmpty (startStr st) && nonEmpty (endStr st) = true)
    by now rewrite Hline, !nonEmpty_true.
  unfold onClose. rewrite Hpending, Hguard. repeat split.
  - now rewrite H, H0.
  - now apply Sub_in_range.
  - intros Hgt. unfold Sub.
    destruct (Z.ltb_spec (endTime - startTime) minDuration);
      [unfold minDuration, maxDuration in *; lia|].
    destruct (Z.ltb_spec maxDuration (endTime - startTime)); [reflexivity | lia].
  - intros Hlt. unfold Sub.
    destruct (Z.ltb_spec (endTime - startTime) minDuration); [reflexivity | lia].
  - intros [H | H]; rewrite H; [reflexivity|].
    now destruct (Parse layoutStamp (dateStr st ++ " " ++ startStr st)).
  - destruct (Parse layoutStamp (dateStr st ++ " " ++ startStr st));
      [destruct (Parse layoutStamp (dateStr st ++ " " ++ endStr st))|]; reflexivity.
Qed.

Lemma onClose_at_delimiter_witness :
  let st := mkScan [] (Some zeroSession) "Monday, January 01, 2024" "11:00:00 PM" "11:30:00 PM" in
  onClose "└──" st
  = closed st [mkSession (Date 2024 1 1 23 0 0 0) (Date 2024 1 1 23 30 0 0) (30 * Minute)].
Proof.
  intros st.
  refine (proj1 (proj1 (onClose_at_delimiter "└──" st zeroSession _ _ _ _ _)
                   (Date 2024 1 1 23 0 0 0) (Date 2024 1 1 23 30 0 0) _ _));
    try reflexivity; try discriminate; vm_compute; reflexivity.
Defined.

(** C4, as stated, fails: with the date string "Monday," and the rest of two
    dates in the start and end strings, both stamps parse, and the record
    gets the largest [Duration], not the difference of its two times. *)
Lemma onClose_duration_saturates :
  let st := mkScan [] (Some zeroSession) "Monday,"
              "January 02, 2006 03:04:05 PM" "January 02, 9999 03:04:05 PM" in
  let startTime := Date 2006 1 2 15 4 5 0 in
  let endTime := Date 9999 1 2 15 4 5 0 in
  Str.Contains "└──" "└──" = true /\
  Parse layoutStamp (dateStr st ++ " " ++ startStr st) = Some startTime /\
  Parse layoutStamp (dateStr st ++ " " ++ endStr st) = Some endTime /\
  history (onClose "└──" st) = [mkSession startTime endTime maxDuration] /\
  maxDuration <> endTime - startTime.
Proof.
  cbv zeta. do 4 (split; [vm_compute; reflexivity|]). vm_compute. discriminate.
Qed.

Lemma onClose_consistent (line : string) (st : scan) :
  Forall subConsistent (history st) ->
  Forall subConsistent (history (onClose line st)).
Proof.
  intros H. unfold onClose.
  destruct (currentSession st); [|exact H].
  destruct (Str.Contains line "└──" && nonEmpty (dateStr st)
            && nonEmpty (startStr st) && nonEmpty (endStr st)); [|exact H].
  destruct (Parse layoutStamp (dateStr st ++ " " ++ startStr st)) as [a|]; [|exact H].
  destruct (Parse layoutStamp (dateStr st ++ " " ++ endStr st)) as [b|]; [|exact H].
  cbn [history]. apply Forall_app. split; [exact H|].
  constructor; [reflexivity | constructor].
Qed.

Lemma before_onClose_history (line : string) (st : scan) :
  history (onEnd line (onStart line (onDate line (onMarker line st)))) = history st.
Proof.
  unfold onEnd, onStart, onDate, onMarker.
  repeat match goal with |- context [if ?b then _ else _] => destruct b end;
    reflexivity.
Qed.

Lemma scanLine_consistent (st : scan) (line : string) :
  Forall subConsistent (history st) ->
  Forall subConsistent (history (scanLine st line)).
Proof.
  intros H. unfold scanLine. apply onClose_consistent.
  now rewrite before_onClose_history.
Qed.

Lemma scan_consistent (ls : list string) (st : scan) :
  Forall subConsistent (history st) ->
  Forall subConsistent (history (fold_left scanLine ls st)).
Proof.
  revert st. induction ls as [|l ls IH]; intros st H; [exact H|].
  cbn [fold_left]. apply IH, scanLine_consistent, H.
Qed.

Lemma loadHistory_consistent (fs : fsys) : Forall subConsistent (loadHistory fs).
Proof.
  unfold loadHistory. destruct (os_Open fs historyFile); [|constructor].
  apply scan_consistent. constructor.
Qed.

(** C9, as amended.  Whatever the file holds, the duration of every record
    the reader returns is [end.Sub(start)]: the difference of its end and
    start when that fits a [Duration], the nearest bound of [Duration]
    otherwise. *)
Theorem loadHistory_duration_is_Sub (fs : fsys) (s : session)
  (Hs : In s (loadHistory fs)) :
  duration s = Sub (end_ s) (start s) /\
  (minDuration <= end_ s - start s <= maxDuration -> duration s = end_ s - start s) /\
  (maxDuration < end_ s - start s -> duration s = maxDuration) /\
  (end_ s - start s < minDuration -> duration s = minDuration).
Proof.
  pose proof (loadHistory_consistent fs) as H.
  rewrite Forall_forall in H. specialize (H s Hs). unfold subConsistent in H.
  rewrite H. unfold Sub. repeat split.
  - intros [Hlo Hhi].
    destruct (Z.ltb_spec (end_ s - start s) minDuration); [lia|].
    destruct (Z.ltb_spec maxDuration (end_ s - start s)); [lia | reflexivity].
  - intros Hgt.
    destruct (Z.ltb_spec (end_ s - start s) minDuration);
      [unfold minDuration, maxDuration in *; lia|].
    destruct (Z.ltb_spec maxDuration (end_ s - start s)); [reflexivity | lia].
  - intros Hlt.
    destruct (Z.ltb_spec (end_ s - start s) minDuration); [reflexivity | lia].
Qed.

Lemma loadHistory_duration_is_Sub_witness :
  let s := mkSession (Date 2006 1 2 15 4 5 0) (Date 9999 1 2 15 4 5 0) maxDuration in
  In s (loadHistory (diskWith farApartHistory)) /\
  duration s = Sub (end_ s) (start s).
Proof.
  intros s.
  assert (H : In s (loadHistory (diskWith farApartHistory)))
    by (vm_compute; left; reflexivity).
  split; [exact H|].
  exact (proj1 (loadHistory_duration_is_Sub (diskWith farApartHistory) s H)).
Defined.

(** C9, as stated, fails: the file [farApartHistory] yields a record whose
    end lies 7993 years after its start and whose duration is the largest
    [Duration], about 292 years. *)
Lemma loadHistory_duration_not_exact :
  ~ (forall s, In s (loadHistory (diskWith farApartHistory)) ->
               duration s = end_ s - start s).
Proof.
  intros H.
  specialize (H (mkSession (Date 2006 1 2 15 4 5 0) (Date 9999 1 2 15 4 5 0) maxDuration)).
  assert (Hin : In (mkSession (Date 2006 1 2 15 4 5 0) (Date 9999 1 2 15 4 5 0) maxDuration)
                  (loadHistory (diskWith farApartHistory)))
    by (vm_compute; left; reflexivity).
  specialize (H Hin). vm_compute in H. discriminate H.
Qed.

(** ** Searching in strings *)

Lemma HasPrefix_mem (p s : string) (c : ascii) :
  Str.HasPrefix s p = true -> Str.mem c p = true -> Str.mem c s = true.
Proof.
  revert s. induction p as [|a p IH]; intros s Hp Hc; [discriminate Hc|].
  destruct s as [|b s]; [discriminate Hp|].
  cbn [Str.HasPrefix] in Hp. apply andb_true_iff in Hp as [Hab Hp].
  apply Ascii.eqb_eq in Hab. subst b.
  cbn [Str.mem] in *. apply orb_true_iff in Hc as [Hc | Hc].
  - now rewrite Hc.
  - rewrite (IH s Hp Hc). apply orb_true_r.
Qed.

Lemma lacks_mem (c : ascii) (s : string) : Str.lacks c s = true -> Str.mem c s = false.
Proof.
  unfold Str.lacks. induction s as [|x s IH]; [reflexivity|].
  cbn [Str.all Str.mem]. rewrite andb_true_iff. intros [Hx Hs].
  apply negb_true_iff in Hx. now rewrite Hx, (IH Hs).
Qed.

Lemma lacks_append (c : ascii) (a b : string) :
  Str.lacks c (a ++ b) = Str.lacks c a && Str.lacks c b.
Proof. apply all_append. Qed.

(** A string that lacks one byte of a pattern does not contain the pattern. *)
Lemma Contains_lacks (c : ascii) (s pat : string) :
  Str.mem c pat = true -> Str.lacks c s = true -> Str.Contains s pat = false.
Proof.
  intros Hc Hs.
  assert (Hpre : forall t, Str.lacks c t = true -> Str.HasPrefix t pat = false).
  { intros t Ht. destruct (Str.HasPrefix t pat) eqn:E; [|reflexivity].
    pose proof (HasPrefix_mem _ _ _ E Hc) as Hm.
    rewrite (lacks_mem _ _ Ht) in Hm. discriminate Hm. }
  induction s as [|x s IH]; cbn [Str.Contains]; rewrite (Hpre _ Hs); [reflexivity|].
  apply IH. unfold Str.lacks in *. cbn [Str.all] in Hs.
  now apply andb_true_iff in Hs.
Qed.

Lemma HasPrefix_append (s p rest : string) :
  Str.HasPrefix s p = true -> Str.HasPrefix (s ++ rest) p = true.
Proof.
  revert s. induction p as [|a p IH]; intros s H; [reflexivity|].
  destruct s as [|b s]; [discriminate H|].
  cbn [Str.HasPrefix append] in *. apply andb_true_iff in H as [H1 H2].
  now rewrite H1, (IH s H2).
Qed.

(** What a part contains, the whole contains. *)
Lemma Contains_append_l (s rest pat : string) :
  Str.Contains s pat = true -> Str.Contains (s ++ rest) pat = true.
Proof.
  induction s as [|x s IH]; cbn [Str.Contains append].
  - rewrite orb_false_r. intros H. destruct pat; [|discriminate H].
    destruct rest; reflexivity.
  - intros H. apply orb_true_iff in H as [H | H].
    + change (String x (s ++ rest)) with (String x s ++ rest).
      now rewrite (HasPrefix_append _ _ _ H).
    + rewrite (IH H). apply orb_true_r.
Qed.


Lemma HasPrefix_last_absent (c : ascii) (q front rest : string) :
  Str.lacks c rest = true ->
  Str.HasPrefix (front ++ rest) (q ++ String c "")
  = Str.HasPrefix front (q ++ String c "").
Proof.
  revert front rest. induction q as [|a q IH]; intros front rest Hrest.
  - destruct front as [|x front]; [|reflexivity].
    cbn [append Str.HasPrefix]. destruct rest as [|b rest]; [reflexivity|].
    unfold Str.lacks in Hrest. cbn [Str.all] in Hrest.
    apply andb_true_iff in Hrest as [Hb _]. apply negb_true_iff in Hb.
    rewrite Ascii.eqb_sym, Hb. reflexivity.
  - destruct front as [|x front].
    + cbn [append Str.HasPrefix]. destruct rest as [|b rest]; [reflexivity|].
      unfold Str.lacks in Hrest. cbn [Str.all] in Hrest.
      apply andb_true_iff in Hrest as [_ Hrest].
      specialize (IH "" rest Hrest). cbn [append] in IH. rewrite IH.
      destruct q; cbn [append Str.HasPrefix]; apply andb_false_r.
    + cbn [append Str.HasPrefix]. now rewrite (IH front rest Hrest).
Qed.

(** When the last byte of a pattern does not occur after [front], the
    pattern occurs in the whole only where it occurs in [front]. *)
Lemma Contains_last_absent (c : ascii) (q front rest : string) :
  Str.lacks c rest = true ->
  Str.Contains (front ++ rest) (q ++ String c "")
  = Str.Contains front (q ++ String c "").
Proof.
  intros Hrest. induction front as [|x front IH].
  - cbn [append]. rewrite (Contains_lacks c rest); [| |exact Hrest].
    + destruct q; reflexivity.
    + clear. induction q as [|a q IH]; cbn [append Str.mem].
      * now rewrite Ascii.eqb_refl.
      * rewrite IH. apply orb_true_r.
  - cbn [append Str.Contains].
    change (String x (front ++ rest)) with (String x front ++ rest).
    now rewrite (HasPrefix_last_absent c q _ rest Hrest), IH.
Qed.

Lemma HasPrefix_self (p rest : string) : Str.HasPrefix (p ++ rest) p = true.
Proof.
  induction p as [|a p IH]; [reflexivity|].
  cbn [append Str.HasPrefix]. now rewrite Ascii.eqb_refl, IH.
Qed.

Lemma drop_append (p rest : string) : Str.drop (String.length p) (p ++ rest) = rest.
Proof. induction p as [|a p IH]; [reflexivity | exact IH]. Qed.

Lemma cut_here (s sep : string) :
  Str.HasPrefix s sep = true ->
  Str.cut s sep = Some ("", Str.drop (String.length sep) s).
Proof. intros H. destruct s; cbn [Str.cut]; rewrite H; reflexivity. Qed.

(** The text before the first occurrence of a separator whose first byte the
    text lacks. *)
Lemma cut_before (value rest : string) (a : ascii) (sep' : string) :
  Str.lacks a value = true ->
  Str.cut (value ++ String a sep' ++ rest) (String a sep') = Some (value, rest).
Proof.
  intros Hv. induction value as [|c value IH].
  - change ("" ++ String a sep' ++ rest) with (String a sep' ++ rest).
    rewrite cut_here by apply HasPrefix_self.
    now rewrite drop_append.
  - unfold Str.lacks in Hv. cbn [Str.all] in Hv.
    apply andb_true_iff in Hv as [Hc Hv]. apply negb_true_iff in Hc.
    specialize (IH Hv).
    change (String c value ++ String a sep' ++ rest)
      with (String c (value ++ String a sep' ++ rest)).
    cbn [Str.cut Str.HasPrefix]. rewrite Ascii.eqb_sym, Hc. cbn [andb].
    now rewrite IH.
Qed.

Lemma SplitHead_border (value rest : string) :
  Str.lacks (Str.byte_of 226) value = true ->
  Str.SplitHead (value ++ "│" ++ rest) "│" = value.
Proof.
  intros H. unfold Str.SplitHead.
  change "│" with (String (Str.byte_of 226) (Str.of_codes [148; 130])).
  now rewrite (cut_before value rest _ _ H).
Qed.

(** *** Reversal *)

Lemma rev_append_spec (s acc : string) : Str.rev_append s acc = Str.rev s ++ acc.
Proof.
  unfold Str.rev. revert acc. induction s as [|c s IH]; intros acc; [reflexivity|].
  cbn [Str.rev_append]. rewrite IH, (IH (String c "")), append_assoc. reflexivity.
Qed.

Lemma rev_String (c : ascii) (s : string) : Str.rev (String c s) = Str.rev s ++ String c "".
Proof. unfold Str.rev at 1. cbn [Str.rev_append]. apply rev_append_spec. Qed.

Lemma rev_app (a b : string) : Str.rev (a ++ b) = Str.rev b ++ Str.rev a.
Proof.
  induction a as [|c a IH]; cbn [append].
  - now rewrite append_nil_r.
  - now rewrite !rev_String, IH, append_assoc.
Qed.

Lemma rev_involutive (s : string) : Str.rev (Str.rev s) = s.
Proof.
  induction s as [|c s IH]; [reflexivity|].
  now rewrite rev_String, rev_app, IH.
Qed.

Lemma repeat_snoc (c : ascii) (n : nat) :
  Str.repeat c n ++ String c "" = Str.repeat c (S n).
Proof. induction n as [|n IH]; [reflexivity|]. cbn [Str.repeat append]. now rewrite IH. Qed.

Lemma rev_repeat (c : ascii) (n : nat) : Str.rev (Str.repeat c n) = Str.repeat c n.
Proof.
  induction n as [|n IH]; [reflexivity|].
  cbn [Str.repeat]. now rewrite rev_String, IH, repeat_snoc.
Qed.

Lemma repeat_add (c : ascii) (n m : nat) :
  Str.repeat c n ++ Str.repeat c m = Str.repeat c (n + m).
Proof. induction n as [|n IH]; [reflexivity|]. cbn [Str.repeat append Nat.add]. now rewrite IH. Qed.

Lemma lastSolid_rev (s : string) : lastSolid s = headSolid (Str.rev s).
Proof.
  induction s as [|c s IH]; [reflexivity|].
  rewrite rev_String. destruct s as [|c' s]; [reflexivity|].
  change (lastSolid (String c (String c' s))) with (lastSolid (String c' s)).
  rewrite IH. destruct (Str.rev (String c' s)) eqn:E; [|reflexivity].
  apply (f_equal String.length) in E. rewrite rev_String, length_append in E.
  cbn in E. lia.
Qed.

(** *** White space *)

Lemma find_leadFree (seqs : list string) (c : ascii) (s : string) :
  leadFree seqs c = true -> find (Str.HasPrefix (String c s)) seqs = None.
Proof.
  unfold leadFree. induction seqs as [|sp seqs IH]; [reflexivity|].
  cbn [forallb find]. rewrite andb_true_iff. intros [H1 H2].
  destruct sp as [|a sp]; [discriminate H1|].
  cbn [Str.HasPrefix]. apply negb_true_iff in H1. rewrite H1. cbn [andb].
  apply IH, H2.
Qed.

Lemma solid_leadFree (c : ascii) :
  solid c = true ->
  leadFree space_encodings c = true /\
  leadFree (map Str.rev space_encodings) c = true.
Proof.
  intros H.
  assert (A : forall c, implb (solid c)
                (leadFree space_encodings c
                 && leadFree (map Str.rev space_encodings) c) = true)
    by (apply byte_forall; vm_compute; reflexivity).
  specialize (A c). rewrite H in A. cbn [implb] in A.
  now apply andb_true_iff in A.
Qed.

Lemma trim_front_stop (seqs : list string) (fuel : nat) (s : string) :
  (exists c s', s = String c s' /\ leadFree seqs c = true) ->
  trim_front seqs fuel s = s.
Proof.
  intros (c & s' & -> & H). destruct fuel as [|fuel]; [reflexivity|].
  cbn [trim_front]. now rewrite (find_leadFree _ _ _ H).
Qed.

Lemma trim_front_spaces (seqs : list string) (n fuel : nat) (s : string) :
  (forall rest, find (Str.HasPrefix (String " " rest)) seqs = Some " ") ->
  (exists c s', s = String c s' /\ leadFree seqs c = true) ->
  (n <= fuel)%nat ->
  trim_front seqs fuel (Str.repeat " " n ++ s) = s.
Proof.
  intros Hsp Hs. revert fuel. induction n as [|n IH]; intros fuel Hf.
  - cbn [Str.repeat append]. apply trim_front_stop, Hs.
  - destruct fuel as [|fuel]; [lia|].
    cbn [Str.repeat append trim_front]. rewrite Hsp.
    cbn [String.length Str.drop]. apply IH. lia.
Qed.

Lemma headSolid_inv (s : string) :
  headSolid s = true -> exists c s', s = String c s' /\ solid c = true.
Proof. destruct s as [|c s']; [discriminate|]. intros H. now exists c, s'. Qed.

(** A value between runs of spaces is what [TrimSpace] keeps. *)
Lemma TrimSpace_padded (n m : nat) (v : string) :
  headSolid v = true -> lastSolid v = true ->
  TrimSpace (Str.repeat " " n ++ v ++ Str.repeat " " m) = v.
Proof.
  intros Hh Hl. unfold TrimSpace.
  assert (Hleft : TrimLeftSpace (Str.repeat " " n ++ v ++ Str.repeat " " m)
                  = v ++ Str.repeat " " m).
  { unfold TrimLeftSpace. apply trim_front_spaces.
    - intros rest. reflexivity.
    - destruct (headSolid_inv v Hh) as (c & s' & -> & Hc).
      exists c, (s' ++ Str.repeat " " m). split; [reflexivity|].
      apply solid_leadFree, Hc.
    - rewrite length_append, length_repeat. lia. }
  rewrite Hleft. unfold TrimRightSpace.
  rewrite rev_app, rev_repeat.
  rewrite lastSolid_rev in Hl.
  rewrite trim_front_spaces.
  - apply rev_involutive.
  - intros rest. reflexivity.
  - destruct (headSolid_inv _ Hl) as (c & s' & E & Hc).
    exists c, s'. split; [exact E|]. apply solid_leadFree, Hc.
  - rewrite length_append, length_repeat. lia.
Qed.

(** ** The report as a list of lines *)

Lemma unlines_app (a b : list string) : unlines (a ++ b) = unlines a ++ unlines b.
Proof.
  induction a as [|l a IH]; [reflexivity|].
  cbn [unlines app]. rewrite IH.
  now rewrite append_assoc.
Qed.

Lemma banner_lines : banner = unlines bannerLines.
Proof. vm_compute. reflexivity. Qed.

Lemma section_lines : sectionHeader = unlines sectionLines.
Proof. vm_compute. reflexivity. Qed.

Lemma footer_lines : footer = unlines footerLines.
Proof. vm_compute. reflexivity. Qed.

Lemma Sprintf_block (n : Z) (d s e du : string) :
  Sprintf sessionTemplate [AInt n; AStr d; AStr s; AStr e; AStr du]
  = unlines [ ""; blockTop; "   │  SESSION #" ++ pad true 3 (itoa n) ++ "                            │";
              blockMid;
              fieldLine "Date:     " d; fieldLine "Start:    " s;
              fieldLine "End:      " e; fieldLine "Duration: " du; blockBottom ].
Proof.
  unfold Sprintf, sessionTemplate, fieldLine, blockTop, blockMid, blockBottom.
  cbv -[format_verb append pad itoa].
  unfold format_verb. cbn [verb_text andb negb].
  rewrite !append_assoc. cbn [append]. reflexivity.
Qed.

(** ** Alphabets of the formatted values *)

Lemma all_mem (p : ascii -> bool) (s : string) (c : ascii) :
  Str.all p s = true -> Str.mem c s = true -> p c = true.
Proof.
  induction s as [|x s IH]; [discriminate 2|].
  cbn [Str.all Str.mem]. rewrite andb_true_iff, orb_true_iff.
  intros [Hx Hs] [Hc | Hc]; [|now apply IH].
  apply Ascii.eqb_eq in Hc. now subst.
Qed.

Lemma inSet_lacks (set : string) (c : ascii) (s : string) :
  Str.mem c set = false -> Str.all (inSet set) s = true -> Str.lacks c s = true.
Proof.
  intros Hc. apply all_weaken. intros x Hx.
  destruct (Ascii.eqb_spec x c) as [->|]; [|reflexivity].
  unfold inSet in Hx. congruence.
Qed.

Lemma inSet_sub (small big : string) (s : string) :
  Str.all (inSet big) small = true ->
  Str.all (inSet small) s = true -> Str.all (inSet big) s = true.
Proof.
  intros Hsub. apply all_weaken. intros c Hc. exact (all_mem _ _ _ Hsub Hc).
Qed.

Lemma inSet_ascii (set : string) (s : string) :
  isASCII set = true -> Str.all (inSet set) s = true -> isASCII s = true.
Proof.
  intros Hset. apply all_weaken. intros c Hc. exact (all_mem _ _ _ Hset Hc).
Qed.

Lemma all_nth (p : ascii -> bool) (tab : list string) (i : nat) :
  forallb (Str.all p) tab = true -> Str.all p (nth i tab "") = true.
Proof.
  revert i. induction tab as [|x tab IH]; intros i H; [now destruct i|].
  cbn [forallb] in H. apply andb_true_iff in H as [Hx Ht].
  destruct i as [|i]; [exact Hx | now apply IH].
Qed.

Lemma digit_in_numberSet (c : ascii) : isDigit c = true -> inSet "0123456789" c = true.
Proof.
  assert (A : forall c, implb (isDigit c) (inSet "0123456789" c) = true)
    by (apply byte_forall; vm_compute; reflexivity).
  intros H. specialize (A c). now rewrite H in A.
Qed.

Lemma utoa_in (set : string) (u : Z) :
  Str.all (inSet set) "-0123456789" = true -> Str.all (inSet set) (utoa u) = true.
Proof.
  intros Hset. apply (inSet_sub "0123456789").
  - cbn [Str.all] in Hset. now apply andb_true_iff in Hset.
  - apply (all_weaken isDigit); [exact digit_in_numberSet | apply utoa_digits].
Qed.

Lemma itoa_in (set : string) (x : Z) :
  Str.all (inSet set) "-0123456789" = true -> Str.all (inSet set) (itoa x) = true.
Proof.
  intros Hset. unfold itoa. destruct (x <? 0); [|now apply utoa_in].
  cbn [Str.all]. rewrite (utoa_in set _ Hset), andb_true_r.
  cbn [Str.all] in Hset. now apply andb_true_iff in Hset.
Qed.

Lemma zeros_in (set : string) (n : Z) :
  Str.all (inSet set) "-0123456789" = true -> Str.all (inSet set) (zeros n) = true.
Proof.
  intros Hset. apply all_repeat. apply (all_mem _ _ _ Hset). reflexivity.
Qed.

Lemma appendInt_in (set : string) (x width : Z) :
  Str.all (inSet set) "-0123456789" = true ->
  Str.all (inSet set) (appendInt x width) = true.
Proof.
  intros Hset. unfold appendInt.
  rewrite !all_append, (zeros_in set _ Hset), (utoa_in set _ Hset).
  destruct (x <? 0); [|reflexivity].
  cbn [Str.all]. rewrite (all_mem _ _ "-"%char Hset); reflexivity.
Qed.

Lemma format_std_in (set : string) (e : std) (t : Time) :
  std_in set e = true -> Str.all (inSet set) (format_std e t) = true.
Proof.
  destruct e; cbn [std_in format_std]; intros H;
    try (now apply all_nth); try (now apply appendInt_in).
  destruct (12 <=? HourOf t); revert H; cbn [Str.all];
    rewrite !andb_true_iff; tauto.
Qed.

(** Every byte of a formatted time is in [set] when the layout says so. *)
Lemma Format_in (set : string) (t : Time) (l : layout) :
  forallb (chunk_in set) l = true -> Str.all (inSet set) (Format t l) = true.
Proof.
  induction l as [|c l IH]; [reflexivity|].
  cbn [forallb Format]. rewrite andb_true_iff. intros [Hc Hl].
  rewrite all_append, (IH Hl), andb_true_r.
  destruct c as [text | e]; [exact Hc | now apply format_std_in].
Qed.

Lemma itoa_ascii (x : Z) : isASCII (itoa x) = true.
Proof. apply (inSet_ascii numberSet); [reflexivity | now apply itoa_in]. Qed.

(** [%d] without flags or width prints the number and nothing else. *)
Lemma format_verb_int (x : Z) : format_verb false false 0 (AInt x) = itoa x.
Proof.
  unfold format_verb, pad. cbn [andb verb_text].
  rewrite (RuneCount_ascii _ (itoa_ascii x)).
  unfold spaces. rewrite repeat_zero by (pose proof (len_nonneg (itoa x)); lia).
  reflexivity.
Qed.

Lemma format_verb_str (s : string) :
  isASCII s = true -> format_verb false false 0 (AStr s) = s.
Proof.
  intros H. unfold format_verb, pad. cbn [andb verb_text].
  rewrite (RuneCount_ascii _ H).
  unfold spaces. rewrite repeat_zero by (pose proof (len_nonneg s); lia).
  reflexivity.
Qed.

(** The long form of a duration, whatever the three counts are. *)
Lemma formatDurationLong_shape (d : Duration) :
  exists h m s,
    formatDurationLong d = itoa h ++ "h " ++ itoa m ++ "m " ++ itoa s ++ "s" \/
    formatDurationLong d = itoa m ++ "m " ++ itoa s ++ "s" \/
    formatDurationLong d = itoa s ++ "s".
Proof.
  exists (intHours d), (Z.rem (intMinutes d) 60), (Z.rem (intSeconds d) 60).
  unfold formatDurationLong.
  destruct (0 <? intHours d); [left|right].
  - now rewrite Sprintf_hms, !format_verb_int.
  - destruct (0 <? Z.rem (intMinutes d) 60); [left|right].
    + now rewrite Sprintf_ms, !format_verb_int.
    + now rewrite Sprintf_s, !format_verb_int.
Qed.

Lemma formatDurationLong_in (d : Duration) :
  Str.all (inSet durationSet) (formatDurationLong d) = true.
Proof.
  assert (N : forall x, Str.all (inSet durationSet) (itoa x) = true)
    by (intros x; now apply itoa_in).
  destruct (formatDurationLong_shape d) as (h & m & s & [E | [E | E]]);
    rewrite E, ?all_append, ?N; reflexivity.
Qed.

Lemma Format_date_in (t : Time) : Str.all (inSet dateSet) (Format t layoutDate) = true.
Proof. now apply Format_in. Qed.

Lemma Format_clock_in (t : Time) : Str.all (inSet clockSet) (Format t layoutClock) = true.
Proof. now apply Format_in. Qed.

Lemma Format_generated_in (t : Time) :
  Str.all (inSet stampSet) (Format t layoutGenerated) = true.
Proof. now apply Format_in. Qed.

(** ** The duration formatters, unit by unit *)




(** The counts go through [float64]: one nanosecond before the end of hour
    4097 the sum of the whole hours and the fraction rounds to 4097, and the
    program shows an hour that has not been completed. *)
Remark intHours_rounds_up :
  intHours (4097 * Hour - 1) = 4097 /\
  formatDurationLong (4097 * Hour - 1) = "4097h 59m 59s".
Proof. split; vm_compute; reflexivity. Qed.

(** ** The counts of a duration that is not negative *)















(** ** The calendar *)

(** Every day of a 400-year cycle has a date, and the date gives the day. *)
Lemma cycle_days (doe : Z) : 0 <= doe < 146097 -> cycle_day_ok doe = true.
Proof.
  intros H.
  assert (A : range_check 18 (fun n => (146097 <=? n) || cycle_day_ok n) 0 = true)
    by (vm_compute; reflexivity).
  pose proof (range_check_spec 18 _ 0 A doe) as B. cbv beta in B.
  destruct (Z.leb_spec 146097 doe); [lia|].
  apply B. change (2 ^ Z.of_nat 18) with 262144. lia.
Qed.

Lemma isLeap_cycle (y e : Z) : isLeap (y + 400 * e) = isLeap y.
Proof.
  unfold isLeap.
  replace ((y + 400 * e) mod 4) with (y mod 4)
    by (replace (y + 400 * e) with (y + (100 * e) * 4) by lia; now rewrite Z_mod_plus_full).
  replace ((y + 400 * e) mod 100) with (y mod 100)
    by (replace (y + 400 * e) with (y + (4 * e) * 100) by lia; now rewrite Z_mod_plus_full).
  replace ((y + 400 * e) mod 400) with (y mod 400)
    by (replace (y + 400 * e) with (y + e * 400) by lia; now rewrite Z_mod_plus_full).
  reflexivity.
Qed.

Lemma daysIn_cycle (m y e : Z) : daysIn m (y + 400 * e) = daysIn m y.
Proof. unfold daysIn. now rewrite isLeap_cycle. Qed.

Lemma daysSinceMarch0_cycle (y m d e : Z) :
  daysSinceMarch0 (y + 400 * e) m d = daysSinceMarch0 y m d + 146097 * e.
Proof.
  unfold daysSinceMarch0.
  set (y' := if m <=? 2 then y - 1 else y).
  replace (if m <=? 2 then y + 400 * e - 1 else y + 400 * e) with (y' + 400 * e)
    by (unfold y'; destruct (m <=? 2); lia).
  replace ((y' + 400 * e) / 4) with (y' / 4 + 100 * e)
    by (replace (y' + 400 * e) with (y' + (100 * e) * 4) by lia;
        now rewrite Z.div_add by lia).
  replace ((y' + 400 * e) / 100) with (y' / 100 + 4 * e)
    by (replace (y' + 400 * e) with (y' + (4 * e) * 100) by lia;
        now rewrite Z.div_add by lia).
  replace ((y' + 400 * e) / 400) with (y' / 400 + e)
    by (replace (y' + 400 * e) with (y' + e * 400) by lia;
        now rewrite Z.div_add by lia).
  lia.
Qed.

(** The date of a day number is a date of the calendar, and [daysFromCivil]
    gives the day number back. *)
Lemma civil_spec (days : Z) :
  match civil days with
  | (y, m, d) =>
      1 <= m <= 12 /\ 1 <= d <= daysIn m y /\ daysFromCivil y m d = days
  end.
Proof.
  unfold civil.
  set (z := days + 719468).
  assert (Hdoe : 0 <= z mod 146097 < 146097) by (apply Z.mod_pos_bound; lia).
  pose proof (cycle_days _ Hdoe) as H. unfold cycle_day_ok in H.
  destruct (civil_of_cycle_day (z mod 146097)) as [[y m] d].
  rewrite !andb_true_iff in H.
  destruct H as [[[[[[Hy0 Hy1] Hm0] Hm1] Hd0] Hd1] Hback].
  apply Z.leb_le in Hm0, Hm1, Hd0, Hd1. apply Z.eqb_eq in Hback.
  rewrite daysIn_cycle. unfold daysFromCivil. rewrite daysSinceMarch0_cycle, Hback.
  pose proof (Z.div_mod z 146097). unfold z in *. lia.
Qed.

(** ** Parsing what [Format] wrote *)

Lemma cutspace_solid (s : string) : headSolid s = true -> cutspace s = s.
Proof.
  destruct s as [|c s]; [reflexivity|]. cbn [headSolid].
  destruct c as [[] [] [] [] [] [] [] []]; try reflexivity; discriminate.
Qed.

Lemma skip_comma_space (rest : string) :
  headSolid rest = true -> skip (", " ++ rest) ", " = Some rest.
Proof. intros H. cbn. now rewrite cutspace_solid. Qed.

Lemma skip_space (rest : string) :
  headSolid rest = true -> skip (" " ++ rest) " " = Some rest.
Proof. intros H. cbn. now rewrite cutspace_solid. Qed.

Lemma skip_colon (rest : string) : skip (":" ++ rest) ":" = Some rest.
Proof. reflexivity. Qed.

Lemma skip_space_digit (c : ascii) (rest : string) :
  isDigit c = true -> skip (String c rest) " " = None.
Proof.
  intros H. cbn [skip]. cbn [Ascii.eqb Bool.eqb].
  destruct (Ascii.eqb_spec c " ") as [->|]; [discriminate H | reflexivity].
Qed.

Lemma lookup_longDay (w : Z) (rest : string) :
  0 <= w < 7 ->
  lookup longDayNames (name_at longDayNames w ++ rest) = Some (w, rest).
Proof.
  intros H.
  assert (E : w = 0 \/ w = 1 \/ w = 2 \/ w = 3 \/ w = 4 \/ w = 5 \/ w = 6) by lia.
  repeat (destruct E as [-> | E]; [reflexivity|]). subst. reflexivity.
Qed.

Lemma lookup_longMonth (m : Z) (rest : string) :
  0 <= m < 12 ->
  lookup longMonthNames (name_at longMonthNames m ++ rest) = Some (m, rest).
Proof.
  intros H.
  assert (E : m = 0 \/ m = 1 \/ m = 2 \/ m = 3 \/ m = 4 \/ m = 5 \/ m = 6
              \/ m = 7 \/ m = 8 \/ m = 9 \/ m = 10 \/ m = 11) by lia.
  repeat (destruct E as [-> | E]; [reflexivity|]). subst. reflexivity.
Qed.

Lemma longDay_solid (w : Z) (rest : string) :
  0 <= w < 7 -> headSolid (name_at longDayNames w ++ rest) = true.
Proof.
  intros H.
  assert (E : w = 0 \/ w = 1 \/ w = 2 \/ w = 3 \/ w = 4 \/ w = 5 \/ w = 6) by lia.
  repeat (destruct E as [-> | E]; [reflexivity|]). subst. reflexivity.
Qed.

Lemma longMonth_solid (m : Z) (rest : string) :
  0 <= m < 12 -> headSolid (name_at longMonthNames m ++ rest) = true.
Proof.
  intros H.
  assert (E : m = 0 \/ m = 1 \/ m = 2 \/ m = 3 \/ m = 4 \/ m = 5 \/ m = 6
              \/ m = 7 \/ m = 8 \/ m = 9 \/ m = 10 \/ m = 11) by lia.
  repeat (destruct E as [-> | E]; [reflexivity|]). subst. reflexivity.
Qed.

Lemma digit_solid (c : ascii) : isDigit c = true -> solid c = true.
Proof.
  assert (A : forall c, implb (isDigit c) (solid c) = true)
    by (apply byte_forall; vm_compute; reflexivity).
  intros H. specialize (A c). now rewrite H in A.
Qed.

Lemma twoDigits_solid (n : Z) (rest : string) :
  0 <= n < 100 -> headSolid (twoDigits n ++ rest) = true.
Proof.
  intros H. cbn [twoDigits append headSolid].
  apply digit_solid, digit_char_digit.
  split; [apply Z.div_pos; lia | apply Z.div_lt_upper_bound; lia].
Qed.

Lemma getnum_twoDigits (n : Z) (rest : string) :
  0 <= n < 100 -> getnum (twoDigits n ++ rest) true = Some (n, rest).
Proof.
  intros H.
  assert (H1 : 0 <= n / 10 < 10)
    by (split; [apply Z.div_pos; lia | apply Z.div_lt_upper_bound; lia]).
  assert (H0 : 0 <= n mod 10 < 10) by (apply Z.mod_pos_bound; lia).
  cbn [twoDigits append getnum].
  rewrite !digit_char_digit, !digit_char_val by assumption.
  do 2 f_equal. pose proof (Z.div_mod n 10). lia.
Qed.

Lemma appendInt_four (y : Z) : 0 <= y < 10000 -> appendInt y 4 = fourDigits y.
Proof.
  intros H.
  assert (A : range_check 14
                (fun n => (10000 <=? n) || String.eqb (appendInt n 4) (fourDigits n)) 0
              = true) by (vm_compute; reflexivity).
  pose proof (range_check_spec 14 _ 0 A y) as B. cbv beta in B.
  destruct (Z.leb_spec 10000 y); [lia|].
  apply String.eqb_eq, B. change (2 ^ Z.of_nat 14) with 16384. lia.
Qed.

Lemma year_fourDigits (y : Z) (f : fields) (rest : string) :
  0 <= y < 10000 ->
  parse_std stdLongYear f (fourDigits y ++ rest)
  = Some (mkFields y (f_month f) (f_day f) (f_hour f) (f_min f) (f_sec f)
            (f_nsec f) (amSet f) (pmSet f), rest).
Proof.
  intros H.
  assert (H3 : 0 <= y / 1000 < 10)
    by (split; [apply Z.div_pos; lia | apply Z.div_lt_upper_bound; lia]).
  assert (H2 : 0 <= y / 100 mod 10 < 10) by (apply Z.mod_pos_bound; lia).
  assert (H1 : 0 <= y / 10 mod 10 < 10) by (apply Z.mod_pos_bound; lia).
  assert (H0 : 0 <= y mod 10 < 10) by (apply Z.mod_pos_bound; lia).
  cbn [fourDigits append parse_std take digits_value].
  rewrite !digit_char_digit, !digit_char_val by assumption.
  cbn [andb]. do 2 f_equal. f_equal; try reflexivity.
  clear H3 H2 H1 H0. Z.div_mod_to_equations. lia.
Qed.

Lemma step_weekday (w : Z) (l : layout) (f : fields) (rest : string) :
  0 <= w < 7 ->
  parse_loop (Std stdLongWeekDay :: l) f (name_at longDayNames w ++ rest)
  = parse_loop l f rest.
Proof. intros H. cbn [parse_loop parse_std]. now rewrite lookup_longDay. Qed.

Lemma step_month (m : Z) (l : layout) (f : fields) (rest : string) :
  1 <= m <= 12 ->
  parse_loop (Std stdLongMonth :: l) f (name_at longMonthNames (m - 1) ++ rest)
  = parse_loop l (mkFields (f_year f) m (f_day f) (f_hour f) (f_min f) (f_sec f)
                    (f_nsec f) (amSet f) (pmSet f)) rest.
Proof.
  intros H. cbn [parse_loop parse_std]. rewrite lookup_longMonth by lia.
  now replace (m - 1 + 1) with m by lia.
Qed.

Lemma step_comma_space (l : layout) (f : fields) (rest : string) :
  headSolid rest = true ->
  parse_loop (Lit ", " :: l) f (", " ++ rest) = parse_loop l f rest.
Proof. intros H. cbn [parse_loop]. now rewrite skip_comma_space. Qed.

Lemma step_space (l : layout) (f : fields) (rest : string) :
  headSolid rest = true ->
  parse_loop (Lit " " :: l) f (" " ++ rest) = parse_loop l f rest.
Proof. intros H. cbn [parse_loop]. now rewrite skip_space. Qed.

Lemma step_colon (l : layout) (f : fields) (rest : string) :
  parse_loop (Lit ":" :: l) f (":" ++ rest) = parse_loop l f rest.
Proof. reflexivity. Qed.

Lemma step_day (d : Z) (l : layout) (f : fields) (rest : string) :
  0 <= d < 100 ->
  parse_loop (Std stdZeroDay :: l) f (twoDigits d ++ rest)
  = parse_loop l (mkFields (f_year f) (f_month f) d (f_hour f) (f_min f) (f_sec f)
                    (f_nsec f) (amSet f) (pmSet f)) rest.
Proof. intros H. cbn [parse_loop parse_std]. now rewrite getnum_twoDigits. Qed.

Lemma step_year (y : Z) (l : layout) (f : fields) (rest : string) :
  0 <= y < 10000 ->
  parse_loop (Std stdLongYear :: l) f (fourDigits y ++ rest)
  = parse_loop l (mkFields y (f_month f) (f_day f) (f_hour f) (f_min f) (f_sec f)
                    (f_nsec f) (amSet f) (pmSet f)) rest.
Proof.
  intros H. change (parse_loop (Std stdLongYear :: l) f (fourDigits y ++ rest))
    with (match parse_std stdLongYear f (fourDigits y ++ rest) with
          | Some (f', value') => parse_loop l f' value'
          | None => None
          end).
  now rewrite year_fourDigits.
Qed.

Lemma step_hour (h : Z) (l : layout) (f : fields) (rest : string) :
  0 <= h <= 12 ->
  parse_loop (Std stdZeroHour12 :: l) f (twoDigits h ++ rest)
  = parse_loop l (mkFields (f_year f) (f_month f) (f_day f) h (f_min f) (f_sec f)
                    (f_nsec f) (amSet f) (pmSet f)) rest.
Proof.
  intros H. cbn [parse_loop parse_std]. rewrite getnum_twoDigits by lia.
  destruct (Z.ltb_spec h 0); [lia|]. destruct (Z.ltb_spec 12 h); [lia|]. reflexivity.
Qed.

Lemma step_minute (m : Z) (l : layout) (f : fields) (rest : string) :
  0 <= m < 60 ->
  parse_loop (Std stdZeroMinute :: l) f (twoDigits m ++ rest)
  = parse_loop l (mkFields (f_year f) (f_month f) (f_day f) (f_hour f) m (f_sec f)
                    (f_nsec f) (amSet f) (pmSet f)) rest.
Proof.
  intros H. cbn [parse_loop parse_std]. rewrite getnum_twoDigits by lia.
  destruct (Z.ltb_spec m 0); [lia|]. destruct (Z.leb_spec 60 m); [lia|]. reflexivity.
Qed.

Lemma step_second (s : Z) (l : layout) (f : fields) (rest : string) :
  0 <= s < 60 ->
  parse_loop (Std stdZeroSecond :: l) f (twoDigits s ++ " " ++ rest)
  = parse_loop l (mkFields (f_year f) (f_month f) (f_day f) (f_hour f) (f_min f) s
                    (f_nsec f) (amSet f) (pmSet f)) (" " ++ rest).
Proof.
  intros H. cbn [parse_loop parse_std]. rewrite getnum_twoDigits by lia.
  destruct (Z.ltb_spec s 0); [lia|]. destruct (Z.leb_spec 60 s); [lia|].
  destruct rest; reflexivity.
Qed.

Lemma clock_hour (h : Z) :
  0 <= h < 24 ->
  let h12 := if h mod 12 =? 0 then 12 else h mod 12 in
  0 <= h12 <= 12 /\
  (12 <= h -> (if h12 <? 12 then h12 + 12 else h12) = h) /\
  (h < 12 -> (if h12 =? 12 then 0 else h12) = h).
Proof.
  intros H h12. unfold h12.
  destruct (Z.eqb_spec (h mod 12) 0) as [E|E].
  - cbn. repeat split; try lia; intros; Z.div_mod_to_equations; lia.
  - destruct (Z.ltb_spec (h mod 12) 12); destruct (Z.eqb_spec (h mod 12) 12);
      repeat split; try lia; intros; Z.div_mod_to_equations; lia.
Qed.

Lemma headSolid_append (a b : string) :
  headSolid a = true -> headSolid (a ++ b) = true.
Proof. destruct a; [discriminate | trivial]. Qed.

Lemma utoa_solid (u : Z) : headSolid (utoa u) = true.
Proof.
  pose proof (utoa_len u) as L. pose proof (utoa_digits u) as D.
  destruct (utoa u) as [|c s]; [cbn in L; lia|].
  cbn [Str.all] in D. apply andb_true_iff in D as [D _].
  now apply digit_solid.
Qed.

Lemma appendInt_solid (x width : Z) (rest : string) :
  headSolid (appendInt x width ++ rest) = true.
Proof.
  apply headSolid_append. unfold appendInt.
  destruct (x <? 0); [reflexivity|]. cbn [append].
  unfold zeros. destruct (Z.to_nat (width - Str.len (utoa (Z.abs x)))); cbn [Str.repeat append].
  - apply utoa_solid.
  - reflexivity.
Qed.

(** The date of a day number, with what [civil_spec] says of it. *)
Lemma date_fields (t : Time) :
  1 <= Month t <= 12 /\ 1 <= Day t <= 31 /\
  1 <= Day t <= daysIn (Month t) (Year t) /\
  daysFromCivil (Year t) (Month t) (Day t) = dayNumber t.
Proof.
  unfold Year, Month, Day.
  pose proof (civil_spec (dayNumber t)) as Hc.
  destruct (civil (dayNumber t)) as [[y m] d]. cbn [fst snd].
  destruct Hc as (Hm & Hd & Hback). repeat split; try lia.
  unfold daysIn in Hd. destruct (m =? 2); [destruct (isLeap y); lia|].
  destruct ((m =? 4) || (m =? 6) || (m =? 9) || (m =? 11)); lia.
Qed.

(** Parsing a stamp arrives at the year with the month and the day read. *)
Lemma Parse_stamp_to_year (t : Time) (clock : string) :
  Parse layoutStamp (Format t layoutDate ++ " " ++ clock)
  = parse_loop (Std stdLongYear :: Lit " " :: layoutClock)
      (mkFields 0 (Month t) (Day t) 0 0 0 0 false false)
      (appendInt (Year t) 4 ++ " " ++ clock).
Proof.
  destruct (date_fields t) as (Hm & Hd & _ & _).
  assert (Hw : 0 <= Weekday t < 7) by (apply Z.mod_pos_bound; lia).
  unfold Parse, layoutStamp, layoutDate.
  cbn [app Format format_chunk format_std].
  rewrite !appendInt_two by lia.
  rewrite !append_assoc.
  rewrite step_weekday by exact Hw.
  rewrite step_comma_space by (apply longMonth_solid; lia).
  rewrite step_month by exact Hm.
  rewrite step_space by (apply twoDigits_solid; lia).
  rewrite step_day by lia.
  rewrite step_comma_space by apply appendInt_solid.
  reflexivity.
Qed.

Lemma Parse_stamp (t u : Time) :
  yearFits t = true ->
  Parse layoutStamp (Format t layoutDate ++ " " ++ Format u layoutClock)
  = Some (onDayOf t u).
Proof.
  intros Hy. unfold yearFits in Hy. apply andb_true_iff in Hy as [Hy0 Hy1].
  apply Z.leb_le in Hy0, Hy1.
  rewrite Parse_stamp_to_year.
  destruct (date_fields t) as (Hm & _ & Hd & Hback).
  unfold layoutClock. cbn [Format format_chunk format_std].
  assert (Hsod : 0 <= secondOfDay u < 86400) by (apply Z.mod_pos_bound; reflexivity).
  assert (HH : 0 <= HourOf u < 24)
    by (unfold HourOf; split; [apply Z.div_pos; lia | apply Z.div_lt_upper_bound; lia]).
  assert (HM : 0 <= MinuteOf u < 60)
    by (unfold MinuteOf; Z.div_mod_to_equations; lia).
  assert (HS : 0 <= SecondOf u < 60) by (apply Z.mod_pos_bound; lia).
  destruct (clock_hour _ HH) as (Hh12 & Hpm & Ham).
  set (h12 := if HourOf u mod 12 =? 0 then 12 else HourOf u mod 12) in *.
  rewrite appendInt_four by lia.
  rewrite !appendInt_two by lia.
  rewrite ?append_assoc, ?append_nil_r.
  rewrite step_year by lia.
  rewrite step_space by (apply twoDigits_solid; lia).
  rewrite step_hour by lia.
  rewrite step_colon, step_minute by lia.
  rewrite step_colon, step_second by lia.
  cbn [f_year f_month f_day f_hour f_min f_sec f_nsec amSet pmSet].
  assert (Hdate : Date (Year t) (Month t) (Day t) (HourOf u) (MinuteOf u) (SecondOf u) 0
                  = onDayOf t u).
  { unfold Date, onDayOf. rewrite Hback, Z.add_0_r. f_equal.
    unfold HourOf, MinuteOf, SecondOf, secondsPerDay.
    generalize (secondOfDay u). intros sod. Z.div_mod_to_equations. lia. }
  assert (Hday : (Day t <? 1) || (daysIn (Month t) (Year t) <? Day t) = false).
  { destruct (Z.ltb_spec (Day t) 1); [lia|].
    destruct (Z.ltb_spec (daysIn (Month t) (Year t)) (Day t)); [lia|]. reflexivity. }
  assert (Hmon : (Month t <? 0) = false) by (apply Z.ltb_ge; lia).
  assert (Hdd : (Day t <? 0) = false) by (apply Z.ltb_ge; lia).
  destruct (Z.leb_spec 12 (HourOf u)) as [Hge | Hlt].
  - cbn [parse_loop skip append parse_std String.eqb Ascii.eqb Bool.eqb cutspace].
    unfold finish.
    cbn [f_year f_month f_day f_hour f_min f_sec f_nsec amSet pmSet andb].
    rewrite Hmon, Hdd, Hday, (Hpm Hge), Hdate. reflexivity.
  - cbn [parse_loop skip append parse_std String.eqb Ascii.eqb Bool.eqb cutspace].
    unfold finish.
    cbn [f_year f_month f_day f_hour f_min f_sec f_nsec amSet pmSet andb].
    rewrite Hmon, Hdd, Hday, (Ham Hlt), Hdate. reflexivity.
Qed.

Lemma utoa_loop_more (fuel : nat) (u : Z) (acc : string) :
  10 <= u ->
  utoa_loop (S fuel) u acc = utoa_loop fuel (u / 10) (String (digit_char (u mod 10)) acc).
Proof.
  intros H. cbn [utoa_loop].
  destruct (Z.eqb_spec (u / 10) 0) as [E|]; [|reflexivity].
  exfalso. Z.div_mod_to_equations. lia.
Qed.

Lemma utoa_five (u : Z) :
  10000 <= u ->
  exists a b c d e r,
    utoa u = String a (String b (String c (String d (String e r)))) /\
    isDigit a && isDigit b && isDigit c && isDigit d && isDigit e = true.
Proof.
  intros H.
  assert (L : (5 <= String.length (utoa u))%nat).
  { unfold utoa.
    rewrite (utoa_loop_more 19) by lia.
    rewrite (utoa_loop_more 18) by (Z.div_mod_to_equations; lia).
    rewrite (utoa_loop_more 17) by (Z.div_mod_to_equations; lia).
    rewrite (utoa_loop_more 16) by (Z.div_mod_to_equations; lia).
    match goal with |- (_ <= String.length (utoa_loop _ ?v ?acc))%nat =>
      pose proof (utoa_loop_length 15 v acc) as B end.
    cbn [String.length] in B. lia. }
  pose proof (utoa_digits u) as D.
  destruct (utoa u) as [|a [|b [|c [|d [|e r]]]]]; cbn [String.length] in L; try lia.
  exists a, b, c, d, e, r. split; [reflexivity|].
  cbn [Str.all] in D. rewrite !andb_true_iff in D. rewrite !andb_true_iff. tauto.
Qed.

(** A year that does not have four digits does not parse. *)
Lemma Parse_stamp_year_unfit (t : Time) (clock : string) :
  yearFits t = false ->
  Parse layoutStamp (Format t layoutDate ++ " " ++ clock) = None.
Proof.
  intros Hy. rewrite Parse_stamp_to_year.
  unfold yearFits in Hy. apply andb_false_iff in Hy.
  unfold appendInt.
  destruct (Z.ltb_spec (Year t) 0) as [Hneg | Hpos].
  - rewrite !append_assoc. cbn [append parse_loop].
    match goal with
    | |- context [parse_std stdLongYear _ (String "-" ?tail)] =>
        destruct tail as [|b [|c [|d r]]]
    end; reflexivity.
  - assert (Hbig : 10000 <= Year t).
    { destruct Hy as [Hy | Hy]; [apply Z.leb_gt in Hy | apply Z.leb_gt in Hy]; lia. }
    rewrite Z.abs_eq by lia.
    destruct (utoa_five _ Hbig) as (a & b & c & d & e & r & E & D).
    assert (Hz : zeros (4 - Str.len (utoa (Year t))) = "").
    { unfold zeros. apply repeat_zero. rewrite E. unfold Str.len. cbn [String.length]. lia. }
    rewrite Hz, E. cbn [append].
    rewrite !andb_true_iff in D. destruct D as [[[[Da Db] Dc] Dd] De].
    cbn [parse_loop parse_std]. rewrite Da, Db, Dc, Dd. cbn [andb].
    now rewrite skip_space_digit.
Qed.

(** ** The lines of a record block under the reader *)

Lemma onClose_no_delimiter (line : string) (st : scan) :
  Str.Contains line "└──" = false -> onClose line st = st.
Proof.
  intros H. unfold onClose. rewrite H. now destruct (currentSession st).
Qed.

Lemma scanLine_inert (st : scan) (line : string) :
  inert line = true -> scanLine st line = st.
Proof.
  unfold inert. rewrite !andb_true_iff, !negb_true_iff.
  intros [[[[H1 H2] H3] H4] H5].
  unfold scanLine, onMarker, onDate, onStart, onEnd.
  rewrite H1, H2, H3, H4. now apply onClose_no_delimiter.
Qed.

Lemma lacks_spaces (c : ascii) (n : Z) :
  Ascii.eqb " " c = false -> Str.lacks c (spaces n) = true.
Proof. intros H. apply all_repeat. now rewrite H. Qed.

Lemma lacks_pad (c : ascii) (set : string) (w : Z) (v : string) :
  Ascii.eqb " " c = false -> Str.mem c set = false ->
  Str.all (inSet set) v = true -> Str.lacks c (pad true w v) = true.
Proof.
  intros Hsp Hc Hv. unfold pad.
  now rewrite lacks_append, (inSet_lacks set c v Hc Hv), lacks_spaces.
Qed.

(** A byte that occurs neither in the frame of a labelled line nor in the
    alphabet of its value does not occur in the line. *)
Lemma lacks_fieldLine (c : ascii) (set label v : string) :
  Str.lacks c ("   │  " ++ label ++ " │") = true ->
  Str.mem c set = false ->
  Str.all (inSet set) v = true ->
  Str.lacks c (fieldLine label v) = true.
Proof.
  intros Hframe Hc Hv. unfold fieldLine.
  rewrite !lacks_append in *.
  apply andb_true_iff in Hframe as [H1 H2]. apply andb_true_iff in H2 as [H2 H3].
  rewrite H1, H2, H3, (lacks_pad c set) ; try assumption; try reflexivity.
  unfold Str.lacks in H3. cbn [Str.all] in H3.
  apply andb_true_iff in H3 as [H3 _]. apply negb_true_iff in H3. exact H3.
Qed.

Lemma absent_fieldLine (c : ascii) (set label v pat : string) :
  Str.mem c pat = true ->
  Str.lacks c ("   │  " ++ label ++ " │") = true ->
  Str.mem c set = false ->
  Str.all (inSet set) v = true ->
  Str.Contains (fieldLine label v) pat = false.
Proof.
  intros Hp Hframe Hc Hv. apply (Contains_lacks c); [exact Hp|].
  now apply (lacks_fieldLine c set).
Qed.

Lemma durationLine_inert (d : Duration) : inert (durationLine d) = true.
Proof.
  pose proof (formatDurationLong_in d) as Hv.
  unfold inert, durationLine.
  rewrite (absent_fieldLine "#" durationSet _ _ "SESSION #") by (reflexivity || exact Hv).
  rewrite (absent_fieldLine "e" durationSet _ _ "Date:") by (reflexivity || exact Hv).
  rewrite (absent_fieldLine "S" durationSet _ _ "Start:") by (reflexivity || exact Hv).
  rewrite (absent_fieldLine "E" durationSet _ _ "End:") by (reflexivity || exact Hv).
  rewrite (absent_fieldLine (Str.byte_of 128) durationSet _ _ "└──")
    by (reflexivity || exact Hv).
  reflexivity.
Qed.

Lemma markerLine_lacks (c : ascii) (n : Z) :
  Str.lacks c "   │  SESSION #                            │" = true ->
  Str.mem c numberSet = false ->
  Str.lacks c (markerLine n) = true.
Proof.
  intros Hframe Hc. unfold markerLine.
  change "   │  SESSION #                            │"
    with ("   │  SESSION #" ++ "                            │") in Hframe.
  rewrite !lacks_append in *. apply andb_true_iff in Hframe as [H1 H2].
  rewrite H1, H2, (lacks_pad c numberSet); try reflexivity; try assumption.
  - unfold Str.lacks in H2. cbn [Str.all] in H2.
    apply andb_true_iff in H2 as [H2 _]. apply negb_true_iff in H2. exact H2.
  - now apply itoa_in.
Qed.

Lemma scanLine_marker (st : scan) (n : Z) :
  scanLine st (markerLine n) = mkScan (history st) (Some zeroSession) "" "" "".
Proof.
  assert (H1 : Str.Contains (markerLine n) "SESSION #" = true)
    by (unfold markerLine; now apply Contains_append_l).
  assert (H2 : Str.Contains (markerLine n) "Date:" = false)
    by (apply (Contains_lacks "D"); [reflexivity | now apply markerLine_lacks]).
  assert (H3 : Str.Contains (markerLine n) "Start:" = false)
    by (apply (Contains_lacks "t"); [reflexivity | now apply markerLine_lacks]).
  assert (H4 : Str.Contains (markerLine n) "End:" = false)
    by (apply (Contains_lacks "n"); [reflexivity | now apply markerLine_lacks]).
  assert (H5 : Str.Contains (markerLine n) "└──" = false)
    by (apply (Contains_lacks (Str.byte_of 128)); [reflexivity | now apply markerLine_lacks]).
  unfold scanLine, onMarker, onDate, onStart, onEnd.
  rewrite H1. cbn [history currentSession dateStr startStr endStr].
  rewrite H2, H3, H4. cbn [andb]. now apply onClose_no_delimiter.
Qed.

Lemma lacks_repeat (c x : ascii) (n : nat) :
  Ascii.eqb x c = false -> Str.lacks c (Str.repeat x n) = true.
Proof. intros H. apply all_repeat. now rewrite H. Qed.

Lemma labelled_value (line key before : string) (gap k : nat) (v old : string) :
  Str.cut line key = Some (before, Str.repeat " " gap ++ v ++ Str.repeat " " k ++ " │") ->
  Str.lacks (Str.byte_of 226) v = true ->
  headSolid v = true -> lastSolid v = true ->
  labelled line key old = v.
Proof.
  intros Hcut H226 Hh Hl. unfold labelled, Str.SplitN2. rewrite Hcut.
  assert (E : Str.repeat " " gap ++ v ++ Str.repeat " " k ++ " │"
              = (Str.repeat " " gap ++ v ++ Str.repeat " " (S k)) ++ "│" ++ "").
  { rewrite <- repeat_snoc, !append_assoc. reflexivity. }
  rewrite E, SplitHead_border.
  - now apply TrimSpace_padded.
  - rewrite !lacks_append, H226, !lacks_repeat by reflexivity. reflexivity.
Qed.

Lemma cut_dateLine (v : string) :
  Str.cut (fieldLine "Date:     " v) "Date:"
  = Some ("   │  ", Str.repeat " " 5 ++ v
                     ++ Str.repeat " " (Z.to_nat (29 - RuneCountInString v)) ++ " │").
Proof. unfold fieldLine, pad, spaces. rewrite !append_assoc. reflexivity. Qed.

Lemma cut_startLine (v : string) :
  Str.cut (fieldLine "Start:    " v) "Start:"
  = Some ("   │  ", Str.repeat " " 4 ++ v
                     ++ Str.repeat " " (Z.to_nat (29 - RuneCountInString v)) ++ " │").
Proof. unfold fieldLine, pad, spaces. rewrite !append_assoc. reflexivity. Qed.

Lemma cut_endLine (v : string) :
  Str.cut (fieldLine "End:      " v) "End:"
  = Some ("   │  ", Str.repeat " " 6 ++ v
                     ++ Str.repeat " " (Z.to_nat (29 - RuneCountInString v)) ++ " │").
Proof. unfold fieldLine, pad, spaces. rewrite !append_assoc. reflexivity. Qed.

Lemma lastSolid_append (a b : string) : lastSolid b = true -> lastSolid (a ++ b) = true.
Proof.
  intros H. induction a as [|c a IH]; [exact H|].
  cbn [append]. destruct (a ++ b) eqn:E; [|exact IH].
  destruct a; [|discriminate E]. cbn in E. subst b. discriminate H.
Qed.

Lemma all_solid_last (s : string) :
  Str.all solid s = true -> s <> "" -> lastSolid s = true.
Proof.
  induction s as [|c s IH]; [congruence|].
  cbn [Str.all]. rewrite andb_true_iff. intros [Hc Hs] _.
  destruct s as [|c' s]; [exact Hc|]. apply IH; [exact Hs | discriminate].
Qed.

Lemma utoa_lastSolid (u : Z) : lastSolid (utoa u) = true.
Proof.
  apply all_solid_last.
  - apply (all_weaken isDigit); [exact digit_solid | apply utoa_digits].
  - pose proof (utoa_len u) as L. destruct (utoa u); [cbn in L; lia | discriminate].
Qed.

Lemma appendInt_lastSolid (x width : Z) : lastSolid (appendInt x width) = true.
Proof. unfold appendInt. rewrite <- append_assoc. apply lastSolid_append, utoa_lastSolid. Qed.

(** The formatted date and time of day start and end with a byte that is no
    white space, and hold no byte of a border. *)
Lemma Format_date_ends (t : Time) :
  headSolid (Format t layoutDate) = true /\ lastSolid (Format t layoutDate) = true.
Proof.
  unfold layoutDate. cbn [Format format_chunk format_std]. split.
  - apply longDay_solid, Z.mod_pos_bound. lia.
  - rewrite append_nil_r. do 6 apply lastSolid_append. apply appendInt_lastSolid.
Qed.

Lemma Format_clock_ends (t : Time) :
  headSolid (Format t layoutClock) = true /\ lastSolid (Format t layoutClock) = true.
Proof.
  unfold layoutClock. cbn [Format format_chunk format_std]. split.
  - apply appendInt_solid.
  - rewrite append_nil_r. do 6 apply lastSolid_append. now destruct (12 <=? HourOf t).
Qed.

Lemma scanLine_dateLine (st : scan) (t : Time) :
  scanLine st (dateLine t)
  = mkScan (history st) (currentSession st) (Format t layoutDate) (startStr st) (endStr st).
Proof.
  pose proof (Format_date_in t) as Hv. destruct (Format_date_ends t) as [Hh Hl].
  unfold dateLine in *. set (v := Format t layoutDate) in *.
  assert (H1 : Str.Contains (fieldLine "Date:     " v) "SESSION #" = false)
    by (apply (absent_fieldLine "#" dateSet); reflexivity || exact Hv).
  assert (H2 : Str.Contains (fieldLine "Date:     " v) "Date:" = true).
  { unfold fieldLine. rewrite <- append_assoc. now apply Contains_append_l. }
  assert (Hrest : Str.lacks ":" ("     " ++ pad true 29 v ++ " │") = true).
  { rewrite !lacks_append, (lacks_pad ":" dateSet); reflexivity || exact Hv. }
  assert (H3 : Str.Contains (fieldLine "Date:     " v) "Start:" = false).
  { change (fieldLine "Date:     " v)
      with ("   │  Date:" ++ "     " ++ pad true 29 v ++ " │").
    now rewrite (Contains_last_absent ":" "Start" _ _ Hrest). }
  assert (H4 : Str.Contains (fieldLine "Date:     " v) "End:" = false).
  { change (fieldLine "Date:     " v)
      with ("   │  Date:" ++ "     " ++ pad true 29 v ++ " │").
    now rewrite (Contains_last_absent ":" "End" _ _ Hrest). }
  assert (H5 : Str.Contains (fieldLine "Date:     " v) "└──" = false)
    by (apply (absent_fieldLine (Str.byte_of 128) dateSet); reflexivity || exact Hv).
  assert (H226 : Str.lacks (Str.byte_of 226) v = true)
    by (apply (inSet_lacks dateSet); [reflexivity | exact Hv]).
  unfold scanLine, onMarker, onDate, onStart, onEnd.
  rewrite H1, H2. cbn [history currentSession dateStr startStr endStr].
  rewrite H3, H4. cbn [andb].
  rewrite onClose_no_delimiter by exact H5.
  now rewrite (labelled_value _ _ _ _ _ v _ (cut_dateLine v) H226 Hh Hl).
Qed.

Lemma scanLine_startLine (st : scan) (t : Time) :
  scanLine st (startLine t)
  = mkScan (history st) (currentSession st) (dateStr st) (Format t layoutClock) (endStr st).
Proof.
  pose proof (Format_clock_in t) as Hv. destruct (Format_clock_ends t) as [Hh Hl].
  unfold startLine in *. set (v := Format t layoutClock) in *.
  assert (H1 : Str.Contains (fieldLine "Start:    " v) "SESSION #" = false)
    by (apply (absent_fieldLine "#" clockSet); reflexivity || exact Hv).
  assert (H2 : Str.Contains (fieldLine "Start:    " v) "Date:" = false)
    by (apply (absent_fieldLine "D" clockSet); reflexivity || exact Hv).
  assert (H3 : Str.Contains (fieldLine "Start:    " v) "Start:" = true).
  { unfold fieldLine. rewrite <- append_assoc. now apply Contains_append_l. }
  assert (H3' : Str.Contains (fieldLine "Start:    " v) "──" = false)
    by (apply (absent_fieldLine (Str.byte_of 128) clockSet); reflexivity || exact Hv).
  assert (H4 : Str.Contains (fieldLine "Start:    " v) "End:" = false)
    by (apply (absent_fieldLine "E" clockSet); reflexivity || exact Hv).
  assert (H5 : Str.Contains (fieldLine "Start:    " v) "└──" = false)
    by (apply (absent_fieldLine (Str.byte_of 128) clockSet); reflexivity || exact Hv).
  assert (H226 : Str.lacks (Str.byte_of 226) v = true)
    by (apply (inSet_lacks clockSet); [reflexivity | exact Hv]).
  unfold scanLine, onMarker, onDate, onStart, onEnd.
  rewrite H1, H2, H3, H3'. cbn [andb negb history currentSession dateStr startStr endStr].
  rewrite H4. rewrite onClose_no_delimiter by exact H5.
  now rewrite (labelled_value _ _ _ _ _ v _ (cut_startLine v) H226 Hh Hl).
Qed.

Lemma scanLine_endLine (st : scan) (t : Time) :
  scanLine st (endLine t)
  = mkScan (history st) (currentSession st) (dateStr st) (startStr st) (Format t layoutClock).
Proof.
  pose proof (Format_clock_in t) as Hv. destruct (Format_clock_ends t) as [Hh Hl].
  unfold endLine in *. set (v := Format t layoutClock) in *.
  assert (H1 : Str.Contains (fieldLine "End:      " v) "SESSION #" = false)
    by (apply (absent_fieldLine "#" clockSet); reflexivity || exact Hv).
  assert (H2 : Str.Contains (fieldLine "End:      " v) "Date:" = false)
    by (apply (absent_fieldLine "D" clockSet); reflexivity || exact Hv).
  assert (H3 : Str.Contains (fieldLine "End:      " v) "Start:" = false)
    by (apply (absent_fieldLine "S" clockSet); reflexivity || exact Hv).
  assert (H4 : Str.Contains (fieldLine "End:      " v) "End:" = true).
  { unfold fieldLine. rewrite <- append_assoc. now apply Contains_append_l. }
  assert (H5 : Str.Contains (fieldLine "End:      " v) "└──" = false)
    by (apply (absent_fieldLine (Str.byte_of 128) clockSet); reflexivity || exact Hv).
  assert (H226 : Str.lacks (Str.byte_of 226) v = true)
    by (apply (inSet_lacks clockSet); [reflexivity | exact Hv]).
  unfold scanLine, onMarker, onDate, onStart, onEnd.
  rewrite H1, H2, H3, H4. cbn [andb negb history currentSession dateStr startStr endStr].
  rewrite onClose_no_delimiter by exact H5.
  now rewrite (labelled_value _ _ _ _ _ v _ (cut_endLine v) H226 Hh Hl).
Qed.

Lemma scanLine_bottom (st : scan) : scanLine st blockBottom = onClose blockBottom st.
Proof.
  unfold scanLine, onMarker, onDate, onStart, onEnd.
  replace (Str.Contains blockBottom "SESSION #") with false by (vm_compute; reflexivity).
  replace (Str.Contains blockBottom "Date:") with false by (vm_compute; reflexivity).
  replace (Str.Contains blockBottom "Start:") with false by (vm_compute; reflexivity).
  replace (Str.Contains blockBottom "End:") with false by (vm_compute; reflexivity).
  reflexivity.
Qed.

Lemma headSolid_nonEmpty (s : string) : headSolid s = true -> nonEmpty s = true.
Proof. destruct s; [discriminate | reflexivity]. Qed.

Lemma Sub_onDayOf (t u : Time) :
  Sub (onDayOf t u) (onDayOf t t) = onDayOf t u - onDayOf t t.
Proof.
  apply Sub_in_range. unfold onDayOf, minDuration, maxDuration, Second, Nanosecond.
  assert (0 <= secondOfDay u < 86400) by (apply Z.mod_pos_bound; reflexivity).
  assert (0 <= secondOfDay t < 86400) by (apply Z.mod_pos_bound; reflexivity).
  lia.
Qed.

(** At the closing delimiter of the block of a written record. *)
Lemma onClose_written (h : list session) (pending : session) (t u : Time) :
  onClose blockBottom
    (mkScan h (Some pending) (Format t layoutDate) (Format t layoutClock)
       (Format u layoutClock))
  = mkScan (h ++ rereadList (mkSession t u 0)) None
      (Format t layoutDate) (Format t layoutClock) (Format u layoutClock).
Proof.
  unfold onClose. cbn [currentSession dateStr startStr endStr history].
  replace (Str.Contains blockBottom "└──") with true by (vm_compute; reflexivity).
  rewrite !headSolid_nonEmpty
    by (apply Format_date_ends || apply Format_clock_ends).
  cbn [andb]. unfold rereadList, reread. cbn [start end_].
  destruct (yearFits t) eqn:Hy.
  - rewrite !Parse_stamp by exact Hy. now rewrite Sub_onDayOf.
  - rewrite Parse_stamp_year_unfit by exact Hy. now rewrite app_nil_r.
Qed.

Lemma rereadList_duration (t u : Time) (d : Duration) :
  rereadList (mkSession t u d) = rereadList (mkSession t u 0).
Proof. reflexivity. Qed.

(** The nine lines of a record block, from any state of the loop: the record
    is appended as the reader rereads it, and no record is pending. *)
Lemma scan_block (st : scan) (n : Z) (sess : session) :
  fold_left scanLine (blockLines n sess) st
  = mkScan (history st ++ rereadList sess) None
      (Format (start sess) layoutDate) (Format (start sess) layoutClock)
      (Format (end_ sess) layoutClock).
Proof.
  unfold blockLines. cbn [fold_left].
  rewrite (scanLine_inert st "") by reflexivity.
  rewrite (scanLine_inert st blockTop) by (vm_compute; reflexivity).
  rewrite scanLine_marker.
  rewrite (scanLine_inert _ blockMid) by (vm_compute; reflexivity).
  rewrite scanLine_dateLine, scanLine_startLine, scanLine_endLine.
  rewrite (scanLine_inert _ (durationLine _)) by apply durationLine_inert.
  rewrite scanLine_bottom.
  cbn [history currentSession dateStr startStr endStr].
  rewrite onClose_written. destruct sess as [t u d]. reflexivity.
Qed.

(** The same block without its "End:" line: nothing is appended, and the
    record stays pending until the next block starts. *)
Lemma scan_block_without_end (st : scan) (n : Z) (sess : session) :
  fold_left scanLine
    [ ""; blockTop; markerLine n; blockMid; dateLine (start sess);
      startLine (start sess); durationLine (duration sess); blockBottom ] st
  = mkScan (history st) (Some zeroSession)
      (Format (start sess) layoutDate) (Format (start sess) layoutClock) "".
Proof.
  cbn [fold_left].
  rewrite (scanLine_inert st "") by reflexivity.
  rewrite (scanLine_inert st blockTop) by (vm_compute; reflexivity).
  rewrite scanLine_marker.
  rewrite (scanLine_inert _ blockMid) by (vm_compute; reflexivity).
  rewrite scanLine_dateLine, scanLine_startLine.
  rewrite (scanLine_inert _ (durationLine _)) by apply durationLine_inert.
  rewrite scanLine_bottom.
  cbn [history currentSession dateStr startStr endStr].
  unfold onClose. cbn [currentSession dateStr startStr endStr nonEmpty String.eqb negb].
  now rewrite !andb_false_r.
Qed.

(** ** What the scanner makes of the report *)

Lemma rawLines_line (l rest : string) :
  Str.lacks newline l = true ->
  rawLines (l ++ String newline rest) = l :: rawLines rest.
Proof.
  intros H. induction l as [|c l IH].
  - reflexivity.
  - unfold Str.lacks in H. cbn [Str.all] in H. apply andb_true_iff in H as [Hc Hl].
    apply negb_true_iff in Hc. cbn [append rawLines]. rewrite Hc, (IH Hl). reflexivity.
Qed.

Lemma rawLines_unlines (ls : list string) :
  forallb (Str.lacks newline) ls = true -> rawLines (unlines ls) = ls.
Proof.
  induction ls as [|l ls IH]; [reflexivity|].
  cbn [forallb unlines]. rewrite andb_true_iff. intros [Hl Hls].
  now rewrite rawLines_line, IH.
Qed.

Lemma lacks_rev (c : ascii) (s : string) : Str.lacks c (Str.rev s) = Str.lacks c s.
Proof.
  induction s as [|x s IH]; [reflexivity|].
  rewrite rev_String, lacks_append, IH. unfold Str.lacks. cbn [Str.all].
  now rewrite andb_true_r, andb_comm.
Qed.

Lemma dropCR_lacks (l : string) : Str.lacks carriage_return l = true -> dropCR l = l.
Proof.
  intros H. unfold dropCR. rewrite <- lacks_rev in H.
  destruct (Str.rev l) as [|c r]; [reflexivity|].
  unfold Str.lacks in H. cbn [Str.all] in H. apply andb_true_iff in H as [Hc _].
  apply negb_true_iff in Hc. now rewrite Hc.
Qed.

Lemma plainLine_parts (l : string) :
  plainLine l = true ->
  Str.lacks newline l = true /\ Str.lacks carriage_return l = true /\
  Str.len l < MaxScanTokenSize.
Proof.
  unfold plainLine. rewrite !andb_true_iff, Z.ltb_lt. tauto.
Qed.

(** A text made of plain lines is scanned into these lines. *)
Lemma ScanLines_unlines (ls : list string) :
  forallb plainLine ls = true -> ScanLines (unlines ls) = ls.
Proof.
  intros H. unfold ScanLines. rewrite rawLines_unlines.
  - induction ls as [|l ls IH]; [reflexivity|].
    cbn [forallb] in H. apply andb_true_iff in H as [Hl Hls].
    destruct (plainLine_parts l Hl) as (_ & Hcr & Hlen).
    cbn [scan_tokens]. apply Z.ltb_lt in Hlen. rewrite Hlen, (dropCR_lacks l Hcr).
    now rewrite (IH Hls).
  - rewrite forallb_forall in *. intros l Hl. now apply plainLine_parts, H.
Qed.

Lemma inSet_printable (set s : string) :
  Str.all printable set = true -> Str.all (inSet set) s = true ->
  Str.all printable s = true.
Proof.
  intros Hset. apply all_weaken. intros c Hc. exact (all_mem _ _ _ Hset Hc).
Qed.

(** *** Lengths *)

Lemma itoa_len (x : Z) : Str.len (itoa x) <= 21.
Proof.
  unfold itoa. destruct (x <? 0).
  - rewrite len_String. pose proof (utoa_len (- x)). lia.
  - pose proof (utoa_len x). lia.
Qed.

Lemma appendInt_len (x width : Z) : width <= 20 -> Str.len (appendInt x width) <= 21.
Proof.
  intros H. unfold appendInt. rewrite !len_append, len_zeros.
  pose proof (utoa_len (Z.abs x)).
  destruct (x <? 0); cbn [Str.len String.length Z.of_nat]; lia.
Qed.

Lemma forallb_nth (p : string -> bool) (tab : list string) (i : nat) :
  p "" = true -> forallb p tab = true -> p (nth i tab "") = true.
Proof.
  intros H0. revert i. induction tab as [|x tab IH]; intros i H; [now destruct i|].
  cbn [forallb] in H. apply andb_true_iff in H as [Hx Ht].
  destruct i as [|i]; [exact Hx | now apply IH].
Qed.

Lemma name_len (tab : list string) (i : Z) :
  forallb (fun s => Str.len s <=? 25) tab = true -> Str.len (name_at tab i) <= 25.
Proof.
  intros H. apply Z.leb_le. unfold name_at.
  apply (forallb_nth (fun s => Str.len s <=? 25)); [reflexivity | exact H].
Qed.

Lemma format_std_len (e : std) (t : Time) : Str.len (format_std e t) <= 25.
Proof.
  destruct e; cbn [format_std];
    try (apply name_len; reflexivity);
    try (etransitivity; [apply appendInt_len; lia | lia]).
  destruct (12 <=? HourOf t); cbn; lia.
Qed.

Lemma Format_len (t : Time) (l : layout) :
  forallb chunk_short l = true ->
  Str.len (Format t l) <= 25 * Z.of_nat (List.length l).
Proof.
  induction l as [|c l IH]; [cbn; lia|].
  cbn [forallb Format List.length]. rewrite andb_true_iff. intros [Hc Hl].
  rewrite len_append, Nat2Z.inj_succ. specialize (IH Hl).
  assert (Str.len (format_chunk t c) <= 25).
  { destruct c as [text | e]; [now apply Z.leb_le | apply format_std_len]. }
  lia.
Qed.

Lemma formatDurationLong_len (d : Duration) : Str.len (formatDurationLong d) <= 100.
Proof.
  destruct (formatDurationLong_shape d) as (h & m & s & [E | [E | E]]);
    rewrite E, ?len_append;
    pose proof (itoa_len h); pose proof (itoa_len m); pose proof (itoa_len s);
    cbn [Str.len String.length Z.of_nat]; lia.
Qed.

Lemma pad_len (w : Z) (v : string) :
  isASCII v = true -> Str.len (pad true w v) = Z.max w (Str.len v).
Proof.
  intros H. unfold pad. rewrite len_append, len_spaces, (RuneCount_ascii _ H).
  pose proof (len_nonneg v). lia.
Qed.

Lemma printable_ascii (s : string) : Str.all printable s = true -> isASCII s = true.
Proof.
  apply all_weaken. intros c Hc. unfold printable in Hc. unfold asciiByte.
  apply andb_true_iff in Hc as [_ Hc]. apply Z.ltb_lt in Hc. apply Z.ltb_lt. lia.
Qed.

Lemma printable_lacks_breaks (s : string) :
  Str.all printable s = true ->
  Str.lacks newline s = true /\ Str.lacks carriage_return s = true.
Proof.
  intros Hp.
  assert (A : forall c, implb (printable c)
                (negb (Ascii.eqb c newline) && negb (Ascii.eqb c carriage_return)) = true)
    by (apply byte_forall; vm_compute; reflexivity).
  split; revert Hp; apply all_weaken; intros c Hc; specialize (A c);
    rewrite Hc in A; now apply andb_true_iff in A.
Qed.

(** *** The lines of the report are plain *)

Lemma printable_plain (l : string) :
  Str.all printable l = true -> Str.len l < MaxScanTokenSize -> plainLine l = true.
Proof.
  intros Hp Hlen. unfold plainLine.
  destruct (printable_lacks_breaks l Hp) as [H1 H2].
  rewrite H1, H2. cbn [andb]. now apply Z.ltb_lt.
Qed.

(** A printable value of moderate length, filled to a width, between two
    fixed texts. *)
Lemma framed_plain (front back : string) (w : Z) (v : string) :
  plainLine (front ++ back) = true ->
  Str.len front + Str.len back <= 1000 -> w <= 1000 ->
  Str.all printable v = true -> Str.len v <= 400 ->
  plainLine (front ++ pad true w v ++ back) = true.
Proof.
  intros Hfb Hlen Hw Hv Hlv.
  destruct (plainLine_parts _ Hfb) as (Hn & Hc & _).
  rewrite lacks_append in Hn, Hc.
  apply andb_true_iff in Hn as [Hn1 Hn2]. apply andb_true_iff in Hc as [Hc1 Hc2].
  destruct (printable_lacks_breaks v Hv) as [Hvn Hvc].
  unfold plainLine.
  rewrite !lacks_append, Hn1, Hn2, Hc1, Hc2.
  unfold pad at 1 2. rewrite !lacks_append, Hvn, Hvc, !lacks_spaces by reflexivity.
  cbn [andb]. apply Z.ltb_lt.
  rewrite !len_append, pad_len by (now apply printable_ascii).
  unfold MaxScanTokenSize. lia.
Qed.

Lemma markerLine_plain (n : Z) : plainLine (markerLine n) = true.
Proof.
  unfold markerLine. apply framed_plain; try reflexivity; try (cbn; lia).
  - apply (inSet_printable numberSet); [reflexivity | now apply itoa_in].
  - pose proof (itoa_len n). lia.
Qed.

Lemma fieldLine_plain (set label v : string) :
  plainLine (("   │  " ++ label) ++ " │") = true ->
  Str.len label <= 100 ->
  Str.all printable set = true ->
  Str.all (inSet set) v = true -> Str.len v <= 400 ->
  plainLine (fieldLine label v) = true.
Proof.
  intros Hf Hl Hset Hv Hlen. unfold fieldLine. rewrite <- append_assoc.
  apply framed_plain; try assumption; try lia.
  - rewrite len_append. change (Str.len "   │  ") with 8. change (Str.len " │") with 4. lia.
  - now apply (inSet_printable set).
Qed.

Lemma Format_date_len (t : Time) : Str.len (Format t layoutDate) <= 400.
Proof.
  pose proof (Format_len t layoutDate eq_refl) as H.
  change (Z.of_nat (List.length layoutDate)) with 7 in H. lia.
Qed.

Lemma Format_clock_len (t : Time) : Str.len (Format t layoutClock) <= 400.
Proof.
  pose proof (Format_len t layoutClock eq_refl) as H.
  change (Z.of_nat (List.length layoutClock)) with 7 in H. lia.
Qed.

Lemma Format_generated_len (t : Time) : Str.len (Format t layoutGenerated) <= 400.
Proof.
  pose proof (Format_len t layoutGenerated eq_refl) as H.
  change (Z.of_nat (List.length layoutGenerated)) with 13 in H. lia.
Qed.

Lemma blockLines_plain (n : Z) (sess : session) :
  forallb plainLine (blockLines n sess) = true.
Proof.
  unfold blockLines. cbn [forallb].
  rewrite markerLine_plain.
  unfold dateLine, startLine, endLine, durationLine.
  rewrite (fieldLine_plain dateSet)
    by (reflexivity || (cbn; lia) || apply Format_date_in || apply Format_date_len).
  rewrite !(fieldLine_plain clockSet)
    by (reflexivity || (cbn; lia) || apply Format_clock_in || apply Format_clock_len).
  rewrite (fieldLine_plain durationSet)
    by (reflexivity || (cbn; lia) || apply formatDurationLong_in
        || (pose proof (formatDurationLong_len (duration sess)); lia)).
  vm_compute. reflexivity.
Qed.

Lemma blocksLines_plain (i : Z) (hist : list session) :
  forallb plainLine (blocksLines i hist) = true.
Proof.
  revert i. induction hist as [|sess hist IH]; intros i; [reflexivity|].
  cbn [blocksLines]. now rewrite forallb_app, blockLines_plain, IH.
Qed.

Lemma labelled_plain (label set v : string) :
  Str.all printable (label ++ set) = true -> Str.len label <= 100 ->
  Str.all (inSet set) v = true -> Str.len v <= 400 ->
  plainLine (label ++ v) = true.
Proof.
  intros Hp Hl Hv Hlen. rewrite all_append in Hp. apply andb_true_iff in Hp as [Hp1 Hp2].
  apply printable_plain.
  - now rewrite all_append, Hp1, (inSet_printable set v Hp2 Hv).
  - rewrite len_append. unfold MaxScanTokenSize. lia.
Qed.

Lemma metaLines_plain (now : Time) (hist : list session) :
  forallb plainLine (metaLines now hist) = true.
Proof.
  unfold metaLines. cbn [forallb].
  rewrite (labelled_plain _ stampSet)
    by (reflexivity || (cbn; lia) || apply Format_generated_in
        || apply Format_generated_len).
  rewrite (labelled_plain _ numberSet)
    by (reflexivity || (cbn; lia) || (now apply itoa_in)
        || (pose proof (itoa_len (Z.of_nat (List.length hist))); lia)).
  rewrite (labelled_plain _ durationSet)
    by (reflexivity || (cbn; lia) || apply formatDurationLong_in
        || (pose proof (formatDurationLong_len (totalDuration hist)); lia)).
  reflexivity.
Qed.

Lemma reportLines_plain (now : Time) (hist : list session) :
  forallb plainLine (reportLines now hist) = true.
Proof.
  unfold reportLines. rewrite !forallb_app, metaLines_plain.
  replace (forallb plainLine bannerLines) with true by (vm_compute; reflexivity).
  replace (forallb plainLine sectionLines) with true by (vm_compute; reflexivity).
  replace (forallb plainLine footerLines) with true by (vm_compute; reflexivity).
  destruct hist as [|sess hist]; [vm_compute; reflexivity|].
  now rewrite blocksLines_plain.
Qed.

(** ** The report is the text of its lines *)

Lemma Sprintf_generated (g : string) :
  isASCII g = true ->
  Sprintf "
  Generated: %s
" [AStr g] = unlines [""; "  Generated: " ++ g].
Proof.
  intros H. unfold Sprintf. cbv -[format_verb append].
  rewrite (format_verb_str g H). cbn [append].
  rewrite ?append_assoc, ?append_nil_r. reflexivity.
Qed.

Lemma Sprintf_total_sessions (n : Z) :
  Sprintf "  Total Sessions: %d
" [AInt n] = unlines ["  Total Sessions: " ++ itoa n].
Proof.
  unfold Sprintf. cbv -[format_verb append itoa].
  rewrite format_verb_int. cbn [append]. rewrite ?append_assoc, ?append_nil_r. reflexivity.
Qed.

Lemma Sprintf_total_time (s : string) :
  isASCII s = true ->
  Sprintf "  Total Time: %s
" [AStr s] = unlines ["  Total Time: " ++ s].
Proof.
  intros H. unfold Sprintf. cbv -[format_verb append].
  rewrite (format_verb_str s H). cbn [append]. rewrite ?append_assoc, ?append_nil_r. reflexivity.
Qed.

Lemma sessionBlocks_lines (i : Z) (hist : list session) :
  sessionBlocks i hist = unlines (blocksLines i hist).
Proof.
  revert i. induction hist as [|sess hist IH]; intros i; [reflexivity|].
  cbn [sessionBlocks blocksLines]. now rewrite unlines_app, IH, Sprintf_block.
Qed.

Lemma report_lines (now : Time) (hist : list session) :
  report now hist = unlines (reportLines now hist).
Proof.
  unfold report, reportLines, metaLines.
  rewrite banner_lines, section_lines, footer_lines.
  rewrite Sprintf_generated
    by (apply (inSet_ascii stampSet); [reflexivity | apply Format_generated_in]).
  rewrite Sprintf_total_sessions.
  rewrite Sprintf_total_time
    by (apply (inSet_ascii durationSet); [reflexivity | apply formatDurationLong_in]).
  rewrite !unlines_app.
  assert (Hbody :
    (if Z.of_nat (List.length hist) =? 0
     then "
   No sessions recorded yet.
" else sessionBlocks 0 hist)
    = unlines (match hist with [] => emptyLines | _ => blocksLines 0 hist end)).
  { destruct hist as [|sess hist]; [reflexivity|].
    replace (Z.of_nat (List.length (sess :: hist)) =? 0) with false
      by (symmetry; apply Z.eqb_neq; cbn [List.length]; lia).
    apply sessionBlocks_lines. }
  rewrite Hbody. cbn [unlines].
  repeat (progress (rewrite ?append_assoc; cbn [append])). reflexivity.
Qed.

Lemma ScanLines_report (now : Time) (hist : list session) :
  ScanLines (report now hist) = reportLines now hist.
Proof. rewrite report_lines. apply ScanLines_unlines, reportLines_plain. Qed.

(** ** The reader on the lines of the report *)

Lemma scan_inert (ls : list string) (st : scan) :
  forallb inert ls = true -> fold_left scanLine ls st = st.
Proof.
  revert st. induction ls as [|l ls IH]; intros st H; [reflexivity|].
  cbn [forallb] in H. apply andb_true_iff in H as [Hl Hls].
  cbn [fold_left]. now rewrite scanLine_inert, IH.
Qed.

Lemma labels_keep (line : string) (st : scan) :
  history (onEnd line (onStart line (onDate line st))) = history st /\
  currentSession (onEnd line (onStart line (onDate line st))) = currentSession st.
Proof.
  unfold onEnd, onStart, onDate.
  repeat match goal with |- context [if ?b then _ else _] => destruct b end;
    split; reflexivity.
Qed.

(** Without a pending record and without a marker, a line appends nothing
    and no record becomes pending. *)
Lemma scanLine_quiet (st : scan) (line : string) :
  Str.Contains line "SESSION #" = false -> currentSession st = None ->
  history (scanLine st line) = history st /\ currentSession (scanLine st line) = None.
Proof.
  intros Hm Hc. unfold scanLine, onMarker. rewrite Hm.
  destruct (labels_keep line st) as [A B].
  unfold onClose. rewrite B, Hc. rewrite A, B. auto.
Qed.

Lemma scan_quiet (ls : list string) (st : scan) :
  forallb (fun l => negb (Str.Contains l "SESSION #")) ls = true ->
  currentSession st = None ->
  history (fold_left scanLine ls st) = history st /\
  currentSession (fold_left scanLine ls st) = None.
Proof.
  revert st. induction ls as [|l ls IH]; intros st H Hc; [auto|].
  cbn [forallb] in H. apply andb_true_iff in H as [Hl Hls].
  apply negb_true_iff in Hl.
  destruct (scanLine_quiet st l Hl Hc) as [H1 H2].
  cbn [fold_left]. destruct (IH _ Hls H2) as [H3 H4]. split; congruence.
Qed.

Lemma labelled_no_marker (label set v : string) :
  Str.lacks "#" label = true -> Str.mem "#" set = false ->
  Str.all (inSet set) v = true ->
  negb (Str.Contains (label ++ v) "SESSION #") = true.
Proof.
  intros Hl Hs Hv. apply negb_true_iff. apply (Contains_lacks "#"); [reflexivity|].
  now rewrite lacks_append, Hl, (inSet_lacks set "#" v Hs Hv).
Qed.

Lemma header_quiet (now : Time) (hist : list session) :
  forallb (fun l => negb (Str.Contains l "SESSION #"))
    (bannerLines ++ metaLines now hist ++ sectionLines) = true.
Proof.
  rewrite !forallb_app.
  replace (forallb (fun l => negb (Str.Contains l "SESSION #")) bannerLines)
    with true by (vm_compute; reflexivity).
  replace (forallb (fun l => negb (Str.Contains l "SESSION #")) sectionLines)
    with true by (vm_compute; reflexivity).
  unfold metaLines. cbn [forallb].
  rewrite (labelled_no_marker _ stampSet) by (reflexivity || apply Format_generated_in).
  rewrite (labelled_no_marker _ numberSet) by (reflexivity || now apply itoa_in).
  rewrite (labelled_no_marker _ durationSet) by (reflexivity || apply formatDurationLong_in).
  reflexivity.
Qed.

Lemma scan_blocks (hist : list session) (i : Z) (st : scan) :
  history (fold_left scanLine (blocksLines i hist) st) = (history st ++ recovered hist)%list /\
  (hist <> [] -> currentSession (fold_left scanLine (blocksLines i hist) st) = None).
Proof.
  revert i st. induction hist as [|sess hist IH]; intros i st.
  - cbn [blocksLines fold_left recovered flat_map]. rewrite app_nil_r. split; congruence.
  - cbn [blocksLines]. rewrite fold_left_app, scan_block.
    destruct (IH (i + 1)
                (mkScan (history st ++ rereadList sess) None
                   (Format (start sess) layoutDate) (Format (start sess) layoutClock)
                   (Format (end_ sess) layoutClock))) as [H1 H2].
    split.
    + rewrite H1. cbn [history recovered flat_map]. now rewrite app_assoc.
    + intros _. destruct hist as [|s' hist']; [reflexivity|]. apply H2. discriminate.
Qed.

(** The reader on the written file: the records as it rereads them, in the
    order of the collection. *)
Lemma parseHistory_report (now : Time) (hist : list session) :
  parseHistory (report now hist) = recovered hist.
Proof.
  unfold parseHistory. rewrite ScanLines_report. unfold reportLines.
  rewrite !app_assoc, fold_left_app, <- !app_assoc.
  rewrite (scan_inert footerLines) by (vm_compute; reflexivity).
  rewrite (app_assoc bannerLines), (app_assoc (bannerLines ++ _)), fold_left_app.
  rewrite <- !app_assoc.
  destruct (scan_quiet _ scan0 (header_quiet now hist) eq_refl) as [Hh Hc].
  set (st := fold_left scanLine (bannerLines ++ metaLines now hist ++ sectionLines) scan0) in *.
  destruct hist as [|sess hist].
  - rewrite (scan_inert emptyLines) by (vm_compute; reflexivity). exact Hh.
  - destruct (scan_blocks (sess :: hist) 0 st) as [H _]. rewrite H, Hh. reflexivity.
Qed.

(** ** Writing, then reading *)

Lemma load_after_save (fs fs' : fsys) (now : Time) (hist : list session) :
  saveHistory now hist fs = (fs', None) ->
  fs' historyFile = Regular (report now hist) /\ loadHistory fs' = recovered hist.
Proof.
  unfold saveHistory, os_WriteFile. intros H.
  assert (E : fs' = fun p => if String.eqb p historyFile
                             then Regular (report now hist) else fs p)
    by (destruct (fs historyFile); now inversion H).
  subst fs'. unfold loadHistory, os_Open. rewrite String.eqb_refl.
  split; [reflexivity | apply parseHistory_report].
Qed.

Lemma whole_seconds (t : Time) : Nanos t = 0 -> wallSeconds t * Second = t.
Proof.
  unfold Nanos, wallSeconds. intros H.
  pose proof (Z.div_mod t Second ltac:(discriminate)). lia.
Qed.

Lemma day_and_second (t : Time) :
  dayNumber t * secondsPerDay + secondOfDay t = wallSeconds t.
Proof.
  unfold dayNumber, secondOfDay.
  pose proof (Z.div_mod (wallSeconds t) secondsPerDay ltac:(discriminate)). lia.
Qed.

Lemma onDayOf_same (t u : Time) :
  Nanos u = 0 -> dayNumber u = dayNumber t -> onDayOf t u = u.
Proof.
  intros Hn Hd. unfold onDayOf. rewrite <- Hd, day_and_second. now apply whole_seconds.
Qed.

Lemma dayNumber_onDayOf (t u : Time) : dayNumber (onDayOf t u) = dayNumber t.
Proof.
  unfold onDayOf. unfold dayNumber at 1. unfold wallSeconds at 1.
  rewrite Z.div_mul by discriminate.
  assert (0 <= secondOfDay u < secondsPerDay) by (apply Z.mod_pos_bound; reflexivity).
  rewrite Z.div_add_l by discriminate. rewrite (Z.div_small (secondOfDay u)) by lia. lia.
Qed.

Lemma reread_roundTrips (s : session) : roundTrips s -> rereadList s = [asRead s].
Proof.
  intros (_ & Hs & He & Hd & Hy). unfold rereadList, reread, yearFits.
  destruct (Z.leb_spec 0 (Year (start s))); [|lia].
  destruct (Z.leb_spec (Year (start s)) 9999); [|lia].
  cbn [andb]. rewrite (onDayOf_same _ (start s)), (onDayOf_same _ (end_ s)) by auto.
  reflexivity.
Qed.

Lemma recovered_roundTrips (hist : list session) :
  Forall roundTrips hist -> recovered hist = map asRead hist.
Proof.
  induction 1 as [|s hist Hs _ IH]; [reflexivity|].
  unfold recovered in *. cbn [flat_map map]. now rewrite (reread_roundTrips s Hs), IH.
Qed.

Lemma recovered_app (a b : list session) :
  recovered (a ++ b) = (recovered a ++ recovered b)%list.
Proof. apply flat_map_app. Qed.

Lemma recovered_origin (hist : list session) (s : session) :
  In s (recovered hist) ->
  exists w, In w hist /\ yearFits (start w) = true /\
            start s = onDayOf (start w) (start w) /\
            end_ s = onDayOf (start w) (end_ w) /\
            duration s = end_ s - start s.
Proof.
  unfold recovered. rewrite in_flat_map. intros (w & Hw & Hs).
  exists w. split; [exact Hw|]. unfold rereadList, reread in Hs.
  destruct (yearFits (start w)); [|contradiction].
  destruct Hs as [<- | []]. cbn [start end_ duration]. auto.
Qed.

(** C1, as amended.  For every collection of sessions that each end on the
    calendar day on which they start, in a year of four digits, with end not
    before start and both times whole seconds: after a successful save, the
    reader returns as many sessions as were written, with the same start and
    the same end, one for one and in the same order, and each duration is
    end minus start. *)
Theorem roundtrip_same_day (fs fs' : fsys) (now : Time) (hist : list session)
  (Hsave : saveHistory now hist fs = (fs', None))
  (Hwf : Forall roundTrips hist) :
  loadHistory fs' = map asRead hist /\
  List.length (loadHistory fs') = List.length hist /\
  map start (loadHistory fs') = map start hist /\
  map end_ (loadHistory fs') = map end_ hist /\
  Forall (fun s => duration s = end_ s - start s) (loadHistory fs').
Proof.
  destruct (load_after_save _ _ _ _ Hsave) as [_ H].
  rewrite H, (recovered_roundTrips hist Hwf), length_map, !map_map.
  repeat split; try reflexivity.
  apply Forall_forall. intros s Hs. apply in_map_iff in Hs as (w & <- & _). reflexivity.
Qed.

Lemma roundtrip_same_day_witness :
  let fs' := fst (saveHistory savingTime eveningSessions emptyDisk) in
  loadHistory fs' = map asRead eveningSessions.
Proof.
  intros fs'.
  refine (proj1 (roundtrip_same_day emptyDisk fs' savingTime eveningSessions _ _)).
  - reflexivity.
  - repeat constructor; vm_compute; try reflexivity; discriminate.
Defined.

(** C1, as stated, fails: a session from 23:00 to 01:00 of the next day is
    well formed, and comes back ending at 01:00 of the day on which it
    started. *)
Lemma roundtrip_fails_across_midnight :
  let fs' := fst (saveHistory savingTime [lateSession] emptyDisk) in
  snd (saveHistory savingTime [lateSession] emptyDisk) = None /\
  start lateSession <= end_ lateSession /\
  Nanos (start lateSession) = 0 /\ Nanos (end_ lateSession) = 0 /\
  map end_ (loadHistory fs') = [Date 2024 1 1 1 0 0 0] /\
  map end_ (loadHistory fs') <> map end_ [lateSession].
Proof.
  assert (E : map end_ (loadHistory (fst (saveHistory savingTime [lateSession] emptyDisk)))
              = [Date 2024 1 1 1 0 0 0]) by (vm_compute; reflexivity).
  cbv zeta. rewrite E.
  repeat split; try (vm_compute; reflexivity); vm_compute; discriminate.
Qed.

(** A session of the year 10000 is well formed too, and is lost. *)
Lemma roundtrip_fails_after_year_9999 :
  loadHistory (fst (saveHistory savingTime [farSession] emptyDisk)) = [].
Proof. vm_compute. reflexivity. Qed.

(** C5. After a successful save the reader returns the records of the
    collection in the order in which they were written, whatever their
    number: what it recovers from an earlier part of the collection comes
    before what it recovers from a later part, each written session gives at
    most one record, and when every session can be held by the file the
    record of index [i] is the session of index [i]. *)
Theorem loadHistory_keeps_order (fs fs' : fsys) (now : Time) (hist : list session)
  (Hsave : saveHistory now hist fs = (fs', None)) :
  loadHistory fs' = flat_map rereadList hist /\
  (forall before after,
     hist = (before ++ after)%list ->
     loadHistory fs' = (recovered before ++ recovered after)%list) /\
  (forall s, (List.length (rereadList s) <= 1)%nat) /\
  (Forall roundTrips hist ->
   forall i, nth_error (loadHistory fs') i = option_map asRead (nth_error hist i)).
Proof.
  destruct (load_after_save _ _ _ _ Hsave) as [_ H]. rewrite H.
  repeat split.
  - intros before after ->. apply recovered_app.
  - intros s. unfold rereadList. destruct (reread s); cbn; lia.
  - intros Hwf i. rewrite (recovered_roundTrips hist Hwf). apply nth_error_map.
Qed.

Lemma loadHistory_keeps_order_witness :
  loadHistory (fst (saveHistory savingTime eveningSessions emptyDisk))
  = flat_map rereadList eveningSessions.
Proof.
  exact (proj1 (loadHistory_keeps_order emptyDisk _ savingTime eveningSessions eq_refl)).
Defined.




(** C10. The file holds one date for each record, the date of its start,
    and the reader puts both times of day on that date: after a successful
    save, every record the reader returns ends on the calendar day on which
    it starts, which is the day on which the session it was written from
    started. *)
Theorem reread_same_day (fs fs' : fsys) (now : Time) (hist : list session)
  (Hsave : saveHistory now hist fs = (fs', None)) (s : session)
  (Hs : In s (loadHistory fs')) :
  dayNumber (end_ s) = dayNumber (start s) /\
  civil (dayNumber (end_ s)) = civil (dayNumber (start s)) /\
  exists w, In w hist /\
            dayNumber (start s) = dayNumber (start w) /\
            dayNumber (end_ s) = dayNumber (start w) /\
            secondOfDay (end_ s) = secondOfDay (end_ w).
Proof.
  destruct (load_after_save _ _ _ _ Hsave) as [_ H]. rewrite H in Hs.
  destruct (recovered_origin hist s Hs) as (w & Hw & _ & Es & Ee & _).
  assert (D1 : dayNumber (start s) = dayNumber (start w))
    by (rewrite Es; apply dayNumber_onDayOf).
  assert (D2 : dayNumber (end_ s) = dayNumber (start w))
    by (rewrite Ee; apply dayNumber_onDayOf).
  repeat split; try congruence.
  exists w. repeat split; auto.
  rewrite Ee. unfold onDayOf. unfold secondOfDay at 1. unfold wallSeconds at 1.
  rewrite Z.div_mul by discriminate.
  assert (0 <= secondOfDay (end_ w) < secondsPerDay) by (apply Z.mod_pos_bound; reflexivity).
  rewrite Z.add_comm, Z.mod_add by discriminate. now apply Z.mod_small.
Qed.

Lemma reread_same_day_witness :
  let s := mkSession (Date 2024 1 1 23 0 0 0) (Date 2024 1 1 1 0 0 0) (- (22 * Hour)) in
  In s (loadHistory (fst (saveHistory savingTime [lateSession] emptyDisk))) /\
  dayNumber (end_ s) = dayNumber (start s).
Proof.
  intros s.
  assert (H : In s (loadHistory (fst (saveHistory savingTime [lateSession] emptyDisk))))
    by (vm_compute; left; reflexivity).
  split; [exact H|].
  exact (proj1 (reread_same_day emptyDisk _ savingTime [lateSession] eq_refl s H)).
Defined.

(** ** A record block without its "End:" line *)

Lemma removeNth_app (A : Type) (a x : list A) (n : nat) :
  removeNth (List.length a + n) (a ++ x) = (a ++ removeNth n x)%list.
Proof.
  unfold removeNth. rewrite firstn_app_2, <- app_assoc. f_equal. f_equal.
  replace (S (List.length a + n)) with (List.length a + S n)%nat by lia.
  rewrite skipn_app, skipn_all2 by lia.
  replace (List.length a + S n - List.length a)%nat with (S n) by lia. reflexivity.
Qed.

Lemma forallb_firstn (A : Type) (p : A -> bool) (n : nat) (l : list A) :
  forallb p l = true -> forallb p (firstn n l) = true.
Proof.
  revert l. induction n as [|n IH]; intros l H; [reflexivity|].
  destruct l as [|x l]; [reflexivity|].
  cbn [forallb firstn] in *. apply andb_true_iff in H as [Hx Hl].
  now rewrite Hx, IH.
Qed.

Lemma forallb_skipn (A : Type) (p : A -> bool) (n : nat) (l : list A) :
  forallb p l = true -> forallb p (skipn n l) = true.
Proof.
  revert l. induction n as [|n IH]; intros l H; [exact H|].
  destruct l as [|x l]; [reflexivity|].
  cbn [forallb skipn] in *. apply andb_true_iff in H as [_ Hl]. now apply IH.
Qed.

Lemma forallb_removeNth (A : Type) (p : A -> bool) (n : nat) (l : list A) :
  forallb p l = true -> forallb p (removeNth n l) = true.
Proof.
  intros H. unfold removeNth.
  now rewrite forallb_app, forallb_firstn, forallb_skipn.
Qed.

Lemma blocksLines_app (i : Z) (a b : list session) :
  blocksLines i (a ++ b)
  = (blocksLines i a ++ blocksLines (i + Z.of_nat (List.length a)) b)%list.
Proof.
  revert i. induction a as [|s a IH]; intros i.
  - cbn [app blocksLines List.length Z.of_nat]. now rewrite Z.add_0_r.
  - cbn [app blocksLines]. rewrite IH, <- app_assoc. do 3 f_equal.
    cbn [List.length]. lia.
Qed.

Lemma blocksLines_length (i : Z) (hist : list session) :
  List.length (blocksLines i hist) = (9 * List.length hist)%nat.
Proof.
  revert i. induction hist as [|s hist IH]; intros i; [reflexivity|].
  cbn [blocksLines]. rewrite length_app, IH. cbn [blockLines List.length]. lia.
Qed.

Lemma headerLines_length (now : Time) (hist : list session) :
  List.length (headerLines now hist) = 26%nat.
Proof. reflexivity. Qed.

Lemma reportLines_blocks (now : Time) (before : list session) (sess : session)
  (after : list session) :
  let hist := (before ++ sess :: after)%list in
  let n := Z.of_nat (List.length before) + 1 in
  reportLines now hist
  = (headerLines now hist
     ++ (blocksLines 0 before
         ++ (blockLines n sess ++ blocksLines n after ++ footerLines)))%list.
Proof.
  intros hist n. unfold reportLines, headerLines.
  assert (E : match hist with [] => emptyLines | _ => blocksLines 0 hist end
              = blocksLines 0 hist) by (unfold hist; now destruct before).
  rewrite E. unfold hist. rewrite blocksLines_app. cbn [blocksLines].
  rewrite <- !app_assoc. reflexivity.
Qed.

Lemma reportLines_end_line (now : Time) (before : list session) (sess : session)
  (after : list session) :
  nth_error (reportLines now (before ++ sess :: after))
    (endLineIndex (List.length before))
  = Some (endLine (end_ sess)).
Proof.
  rewrite reportLines_blocks. unfold endLineIndex.
  rewrite nth_error_app2 by (rewrite headerLines_length; lia).
  rewrite headerLines_length.
  replace (26 + (9 * List.length before + 6) - 26)%nat
    with (List.length (blocksLines 0 before) + 6)%nat
    by (rewrite blocksLines_length; lia).
  rewrite nth_error_app2 by lia.
  replace (List.length (blocksLines 0 before) + 6 - List.length (blocksLines 0 before))%nat
    with 6%nat by lia.
  reflexivity.
Qed.

Lemma reportLines_without_end (now : Time) (before : list session) (sess : session)
  (after : list session) :
  let hist := (before ++ sess :: after)%list in
  let n := Z.of_nat (List.length before) + 1 in
  removeNth (endLineIndex (List.length before)) (reportLines now hist)
  = (headerLines now hist
     ++ (blocksLines 0 before
         ++ (blockLinesNoEnd n sess ++ blocksLines n after ++ footerLines)))%list.
Proof.
  intros hist n. unfold hist at 1. rewrite reportLines_blocks. fold hist. fold n.
  unfold endLineIndex.
  rewrite <- (headerLines_length now hist), removeNth_app.
  replace (9 * List.length before + 6)%nat
    with (List.length (blocksLines 0 before) + 6)%nat
    by (rewrite blocksLines_length; lia).
  rewrite removeNth_app. reflexivity.
Qed.

(** The reader on the file whose record block for [sess] has lost its
    "End:" line. *)
Lemma parseHistory_without_end (now : Time) (before : list session) (sess : session)
  (after : list session) :
  parseHistory
    (deleteLine (endLineIndex (List.length before))
       (report now (before ++ sess :: after)))
  = (recovered before ++ recovered after)%list.
Proof.
  unfold parseHistory, deleteLine.
  rewrite report_lines, rawLines_unlines.
  2:{ pose proof (reportLines_plain now (before ++ sess :: after)) as P.
      rewrite forallb_forall in *. intros l Hl. now apply plainLine_parts, P. }
  rewrite ScanLines_unlines by (apply forallb_removeNth, reportLines_plain).
  rewrite reportLines_without_end. cbv zeta.
  rewrite !fold_left_app.
  rewrite (scan_inert footerLines) by (vm_compute; reflexivity).
  destruct (scan_quiet _ scan0 (header_quiet now (before ++ sess :: after)) eq_refl)
    as [Hh Hc].
  fold (headerLines now (before ++ sess :: after)) in Hh, Hc.
  set (st0 := fold_left scanLine (headerLines now (before ++ sess :: after)) scan0) in *.
  destruct (scan_blocks before 0 st0) as [H1 _].
  set (st1 := fold_left scanLine (blocksLines 0 before) st0) in *.
  unfold blockLinesNoEnd. rewrite scan_block_without_end.
  match goal with |- history (fold_left scanLine (blocksLines ?n after) ?st) = _ =>
    destruct (scan_blocks after n st) as [H2 _] end.
  rewrite H2. cbn [history]. now rewrite H1, Hh.
Qed.

(** C3, as amended.  When the "End:" line of one record block is deleted
    from a written file, the reader returns what it returns for the sessions
    before that record followed by what it returns for the sessions after
    it, and nothing for the record itself; from the file as written it
    returns the same with the record in between.  When the other sessions
    can be held by the file (each ends on the day on which it starts, in a
    year of four digits, not before its start, both times whole seconds),
    they are returned as they were written, durations recomputed. *)
Theorem deleted_end_line_drops_one_record (now : Time) (before : list session)
  (sess : session) (after : list session) :
  let hist := (before ++ sess :: after)%list in
  let k := List.length before in
  nth_error (rawLines (report now hist)) (endLineIndex k) = Some (endLine (end_ sess)) /\
  loadHistory (diskWith (deleteLine (endLineIndex k) (report now hist)))
  = (recovered before ++ recovered after)%list /\
  loadHistory (diskWith (report now hist))
  = (recovered before ++ rereadList sess ++ recovered after)%list /\
  (Forall roundTrips before -> Forall roundTrips after ->
   loadHistory (diskWith (deleteLine (endLineIndex k) (report now hist)))
   = (map asRead before ++ map asRead after)%list).
Proof.
  intros hist k.
  assert (Hload : forall data, loadHistory (diskWith data) = parseHistory data)
    by reflexivity.
  rewrite !Hload. unfold hist, k.
  rewrite parseHistory_without_end, parseHistory_report.
  repeat split.
  - rewrite report_lines, rawLines_unlines; [apply reportLines_end_line|].
    pose proof (reportLines_plain now (before ++ sess :: after)) as P.
    rewrite forallb_forall in *. intros l Hl. now apply plainLine_parts, P.
  - rewrite recovered_app. reflexivity.
  - intros Hb Ha. now rewrite !recovered_roundTrips.
Qed.

Lemma deleted_end_line_drops_one_record_witness :
  loadHistory
    (diskWith (deleteLine (endLineIndex 1)
                 (report savingTime ([firstEvening] ++ lateSession :: [secondEvening]))))
  = (map asRead [firstEvening] ++ map asRead [secondEvening])%list.
Proof.
  refine (proj2 (proj2 (proj2
            (deleted_end_line_drops_one_record savingTime
               [firstEvening] lateSession [secondEvening]))) _ _);
    repeat constructor; vm_compute; try reflexivity; discriminate.
Defined.

(** C3, as stated, fails: in a file of three sessions whose first runs from
    23:00 to 01:00 of the next day, deleting the "End:" line of the second
    leaves two records, and the first of them ends on the day on which it
    started, 24 hours before the end that was written. *)
Lemma deleted_end_line_neighbour_altered :
  let hist := [lateSession; firstEvening; secondEvening] in
  let data := report savingTime hist in
  let read := loadHistory (diskWith (deleteLine (endLineIndex 1) data)) in
  nth_error (rawLines data) (endLineIndex 1) = Some (endLine (end_ firstEvening)) /\
  start lateSession <= end_ lateSession /\
  Nanos (start lateSession) = 0 /\ Nanos (end_ lateSession) = 0 /\
  map start read = [start lateSession; start secondEvening] /\
  map end_ read = [end_ lateSession - 24 * Hour; end_ secondEvening] /\
  ~ In (end_ lateSession) (map end_ read).
Proof.
  cbv zeta.
  assert (E : loadHistory
                (diskWith (deleteLine (endLineIndex 1)
                             (report savingTime [lateSession; firstEvening; secondEvening])))
              = (recovered [lateSession] ++ recovered [secondEvening])%list)
    by exact (parseHistory_without_end savingTime [lateSession] firstEvening [secondEvening]).
  rewrite E.
  split; [vm_compute; reflexivity|].
  split; [vm_compute; discriminate|].
  do 4 (split; [vm_compute; reflexivity|]).
  vm_compute. intros [H | [H | []]]; discriminate H.
Qed.

(** * Further properties of the store *)

(** ** Saving what was loaded *)

Lemma Nanos_onDayOf (t u : Time) : Nanos (onDayOf t u) = 0.
Proof. unfold Nanos, onDayOf. apply Z.mod_mul. discriminate. Qed.

Lemma Year_day (t u : Time) : dayNumber t = dayNumber u -> Year t = Year u.
Proof. unfold Year. now intros ->. Qed.

Lemma reread_stable (s s' : session) : reread s = Some s' -> reread s' = Some s'.
Proof.
  unfold reread. destruct (yearFits (start s)) eqn:Hy; [|discriminate].
  intros H. inversion H as [E]. clear H. cbn [start end_].
  set (t := onDayOf (start s) (start s)). set (u := onDayOf (start s) (end_ s)).
  assert (Ht : dayNumber t = dayNumber (start s)) by apply dayNumber_onDayOf.
  assert (Hu : dayNumber u = dayNumber (start s)) by apply dayNumber_onDayOf.
  assert (Hy' : yearFits t = true).
  { unfold yearFits in *. now rewrite (Year_day t (start s) Ht). }
  rewrite Hy'.
  rewrite (onDayOf_same t t) by (apply Nanos_onDayOf || reflexivity).
  rewrite (onDayOf_same t u) by (apply Nanos_onDayOf || congruence).
  reflexivity.
Qed.

Lemma recovered_stable (hist : list session) : recovered (recovered hist) = recovered hist.
Proof.
  unfold recovered. induction hist as [|s hist IH]; [reflexivity|].
  cbn [flat_map]. rewrite flat_map_app, IH. f_equal.
  unfold rereadList at 2 3. destruct (reread s) as [s'|] eqn:E; [|reflexivity].
  cbn [flat_map]. unfold rereadList. rewrite (reread_stable s s' E). reflexivity.
Qed.

(** X1. Saving the collection that was loaded from a written file, and
    loading again, gives the same collection: one pass through the file
    changes a collection at most once. *)
Theorem load_save_load (fs fs1 fs2 : fsys) (now now' : Time) (hist : list session)
  (Hsave : saveHistory now hist fs = (fs1, None))
  (Hagain : saveHistory now' (loadHistory fs1) fs1 = (fs2, None)) :
  loadHistory fs2 = loadHistory fs1.
Proof.
  destruct (load_after_save _ _ _ _ Hsave) as [_ H1].
  destruct (load_after_save _ _ _ _ Hagain) as [_ H2].
  rewrite H2, H1. apply recovered_stable.
Qed.

Lemma load_save_load_witness :
  let fs1 := fst (saveHistory savingTime [lateSession; firstEvening] emptyDisk) in
  let fs2 := fst (saveHistory savingTime (loadHistory fs1) fs1) in
  loadHistory fs2 = loadHistory fs1.
Proof.
  intros fs1 fs2.
  exact (load_save_load emptyDisk fs1 fs2 savingTime savingTime
           [lateSession; firstEvening] eq_refl eq_refl).
Defined.

Lemma recovered_ext (h h' : list session) :
  map start h = map start h' -> map end_ h = map end_ h' -> recovered h = recovered h'.
Proof.
  revert h'. induction h as [|s h IH]; intros [|s' h'] Hs He; try discriminate.
  - reflexivity.
  - cbn [map] in Hs, He. inversion Hs as [[Hs1 Hs2]]. inversion He as [[He1 He2]].
    unfold recovered in *. cbn [flat_map]. rewrite (IH h' Hs2 He2). f_equal.
    unfold rereadList, reread. now rewrite Hs1, He1.
Qed.

(** X2. What the reader returns for a written file depends on the starts and
    the ends of the sessions alone: not on their stored durations, which the
    file shows but the reader never reads, and not on the time of saving. *)
Theorem reader_ignores_duration_text (now now' : Time) (hist hist' : list session)
  (Hstart : map start hist = map start hist')
  (Hend : map end_ hist = map end_ hist') :
  loadHistory (diskWith (report now hist)) = loadHistory (diskWith (report now' hist')).
Proof.
  change (parseHistory (report now hist) = parseHistory (report now' hist')).
  rewrite !parseHistory_report. now apply recovered_ext.
Qed.

Lemma reader_ignores_duration_text_witness :
  loadHistory (diskWith (report savingTime [firstEvening]))
  = loadHistory (diskWith (report 0 [mkSession (start firstEvening) (end_ firstEvening) 7])).
Proof.
  exact (reader_ignores_duration_text savingTime 0 [firstEvening]
           [mkSession (start firstEvening) (end_ firstEvening) 7] eq_refl eq_refl).
Defined.

(** ** The reader on any file: markers and labels *)

Lemma labels_keep_pending (line : string) (st : scan) :
  pendingCount (onEnd line (onStart line (onDate line st))) = pendingCount st.
Proof. unfold pendingCount. now rewrite (proj2 (labels_keep line st)). Qed.

Lemma onClose_count (line : string) (st : scan) :
  (List.length (history (onClose line st)) + pendingCount (onClose line st)
   <= List.length (history st) + pendingCount st)%nat.
Proof.
  unfold onClose, pendingCount.
  destruct (currentSession st) eqn:E; [|rewrite E; lia].
  destruct (Str.Contains line "└──" && nonEmpty (dateStr st)
            && nonEmpty (startStr st) && nonEmpty (endStr st)); [|rewrite E; lia].
  destruct (Parse layoutStamp (dateStr st ++ " " ++ startStr st));
    [destruct (Parse layoutStamp (dateStr st ++ " " ++ endStr st))|];
    cbn [history currentSession]; rewrite ?length_app; cbn [List.length]; lia.
Qed.

Lemma scanLine_count (st : scan) (line : string) :
  (List.length (history (scanLine st line)) + pendingCount (scanLine st line)
   <= List.length (history st) + pendingCount st
      + (if Str.Contains line "SESSION #" then 1 else 0))%nat.
Proof.
  unfold scanLine.
  etransitivity; [apply onClose_count|].
  rewrite labels_keep_pending, (proj1 (labels_keep line _)).
  unfold onMarker. destruct (Str.Contains line "SESSION #"); [|lia].
  cbn [history]. unfold pendingCount at 1. cbn [currentSession]. lia.
Qed.

Lemma scan_count (ls : list string) (st : scan) :
  (List.length (history (fold_left scanLine ls st))
   + pendingCount (fold_left scanLine ls st)
   <= List.length (history st) + pendingCount st + markerCount ls)%nat.
Proof.
  revert st. induction ls as [|l ls IH]; intros st.
  - cbn [fold_left]. unfold markerCount. cbn. lia.
  - cbn [fold_left]. etransitivity; [apply IH|].
    pose proof (scanLine_count st l) as H.
    unfold markerCount in *. cbn [filter].
    destruct (Str.Contains l "SESSION #"); cbn [List.length]; lia.
Qed.

(** X3. Whatever the file holds, the reader returns at most one record for
    every line that contains the record marker: text without a marker gives
    no record, however many dates, times and delimiters it holds. *)
Theorem loadHistory_one_record_per_marker (data : string) :
  (List.length (loadHistory (diskWith data)) <= markerCount (ScanLines data))%nat.
Proof.
  change (loadHistory (diskWith data)) with (parseHistory data). unfold parseHistory.
  pose proof (scan_count (ScanLines data) scan0) as H.
  unfold pendingCount at 2 in H. cbn [scan0 history currentSession List.length] in H. lia.
Qed.

Lemma onClose_strings (line : string) (st : scan) :
  dateStr (onClose line st) = dateStr st /\
  startStr (onClose line st) = startStr st /\
  endStr (onClose line st) = endStr st.
Proof.
  unfold onClose. destruct (currentSession st); [|auto].
  destruct (Str.Contains line "└──" && nonEmpty (dateStr st)
            && nonEmpty (startStr st) && nonEmpty (endStr st)); [|auto].
  destruct (Parse layoutStamp (dateStr st ++ " " ++ startStr st));
    [destruct (Parse layoutStamp (dateStr st ++ " " ++ endStr st))|]; auto.
Qed.

Lemma onClose_needs_strings (line : string) (st : scan) :
  dateStr st = "" \/ startStr st = "" \/ endStr st = "" -> onClose line st = st.
Proof.
  intros H. unfold onClose. destruct (currentSession st); [|reflexivity].
  assert (E : Str.Contains line "└──" && nonEmpty (dateStr st)
              && nonEmpty (startStr st) && nonEmpty (endStr st) = false).
  { destruct H as [-> | [-> | ->]]; cbn [nonEmpty String.eqb negb];
      rewrite ?andb_false_r; reflexivity. }
  now rewrite E.
Qed.

(** A line without a label leaves the string of that label empty, and
    while a string is empty nothing is appended. *)
Lemma scanLine_no_date (st : scan) (line : string) :
  Str.Contains line "Date:" = false -> dateStr st = "" ->
  dateStr (scanLine st line) = "" /\ history (scanLine st line) = history st.
Proof.
  intros Hl He. unfold scanLine.
  assert (E : dateStr (onEnd line (onStart line (onDate line (onMarker line st)))) = "").
  { unfold onEnd, onStart, onDate, onMarker. rewrite Hl.
    repeat match goal with |- context [if ?b then _ else _] => destruct b end;
      cbn [dateStr]; auto. }
  rewrite onClose_needs_strings by auto. split; [exact E | apply before_onClose_history].
Qed.

Lemma scanLine_no_start (st : scan) (line : string) :
  Str.Contains line "Start:" = false -> startStr st = "" ->
  startStr (scanLine st line) = "" /\ history (scanLine st line) = history st.
Proof.
  intros Hl He. unfold scanLine.
  assert (E : startStr (onEnd line (onStart line (onDate line (onMarker line st)))) = "").
  { unfold onEnd, onStart, onDate, onMarker. rewrite Hl. cbn [andb].
    repeat match goal with |- context [if ?b then _ else _] => destruct b end;
      cbn [startStr]; auto. }
  rewrite onClose_needs_strings by auto. split; [exact E | apply before_onClose_history].
Qed.

Lemma scanLine_no_end (st : scan) (line : string) :
  Str.Contains line "End:" = false -> endStr st = "" ->
  endStr (scanLine st line) = "" /\ history (scanLine st line) = history st.
Proof.
  intros Hl He. unfold scanLine.
  assert (E : endStr (onEnd line (onStart line (onDate line (onMarker line st)))) = "").
  { unfold onEnd, onStart, onDate, onMarker. rewrite Hl.
    repeat match goal with |- context [if ?b then _ else _] => destruct b end;
      cbn [endStr]; auto. }
  rewrite onClose_needs_strings by auto. split; [exact E | apply before_onClose_history].
Qed.

Lemma scan_without (pick : scan -> string) (label : string) :
  (forall st line, Str.Contains line label = false -> pick st = "" ->
                   pick (scanLine st line) = "" /\ history (scanLine st line) = history st) ->
  forall ls st,
    forallb (fun l => negb (Str.Contains l label)) ls = true ->
    pick st = "" ->
    history (fold_left scanLine ls st) = history st.
Proof.
  intros Hstep. induction ls as [|l ls IH]; intros st Hls He; [reflexivity|].
  cbn [forallb] in Hls. apply andb_true_iff in Hls as [Hl Hls].
  apply negb_true_iff in Hl. cbn [fold_left].
  destruct (Hstep st l Hl He) as [E H]. now rewrite (IH _ Hls E).
Qed.

(** X4. A record needs its three labelled lines: a file in which no line
    contains "Date:", or none contains "Start:", or none contains "End:",
    gives no record at all. *)
Theorem loadHistory_needs_all_labels (data label : string)
  (Hlabel : label = "Date:" \/ label = "Start:" \/ label = "End:")
  (Hnone : forallb (fun l => negb (Str.Contains l label)) (ScanLines data) = true) :
  loadHistory (diskWith data) = [].
Proof.
  change (loadHistory (diskWith data)) with (parseHistory data). unfold parseHistory.
  destruct Hlabel as [-> | [-> | ->]].
  - now rewrite (scan_without dateStr "Date:" scanLine_no_date _ scan0 Hnone).
  - now rewrite (scan_without startStr "Start:" scanLine_no_start _ scan0 Hnone).
  - now rewrite (scan_without endStr "End:" scanLine_no_end _ scan0 Hnone).
Qed.

Lemma loadHistory_needs_all_labels_witness :
  loadHistory
    (diskWith (deleteLine (endLineIndex 0) (report savingTime [firstEvening]))) = [].
Proof.
  apply (loadHistory_needs_all_labels _ "End:"); [tauto | vm_compute; reflexivity].
Defined.

(** ** Line ends *)

Lemma dropCR_String (c : ascii) (l : string) :
  l <> "" -> dropCR (String c l) = String c (dropCR l).
Proof.
  intros Hl. unfold dropCR. rewrite rev_String.
  destruct (Str.rev l) as [|x r] eqn:E.
  - exfalso. apply Hl. rewrite <- (rev_involutive l), E. reflexivity.
  - cbn [append]. destruct (Ascii.eqb x carriage_return); [|reflexivity].
    rewrite rev_app. cbn [Str.rev Str.rev_append append]. reflexivity.
Qed.

Lemma dropCR_single (c : ascii) :
  Ascii.eqb c carriage_return = false -> dropCR (String c "") = String c "".
Proof.
  intros H. unfold dropCR, Str.rev. cbn [Str.rev_append]. now rewrite H.
Qed.

(** The lines of the text with CR LF line ends are the lines of the text,
    each terminated line followed by a carriage return. *)
Lemma rawLines_toCRLF (data : string) :
  Str.lacks carriage_return data = true ->
  map dropCR (rawLines (toCRLF data)) = rawLines data /\
  Forall2 (fun l' l => Str.len l' <= Str.len l + 1) (rawLines (toCRLF data)) (rawLines data).
Proof.
  induction data as [|c rest IH]; intros H; [split; constructor|].
  unfold Str.lacks in H. cbn [Str.all] in H. apply andb_true_iff in H as [Hc Hrest].
  apply negb_true_iff in Hc. destruct (IH Hrest) as [IH1 IH2].
  cbn [toCRLF rawLines]. destruct (Ascii.eqb c newline) eqn:Hn.
  - cbn [rawLines]. replace (Ascii.eqb carriage_return newline) with false by reflexivity.
    rewrite Ascii.eqb_refl. cbn [map]. split.
    + now rewrite IH1.
    + constructor; [cbn; lia | exact IH2].
  - cbn [rawLines]. rewrite Hn.
    destruct (rawLines (toCRLF rest)) as [|l' ls'];
      destruct (rawLines rest) as [|l ls]; try discriminate IH1.
    + cbn [map]. rewrite dropCR_single by exact Hc. split; [reflexivity|].
      constructor; [lia | constructor].
    + cbn [map] in *. inversion IH1 as [[E1 E2]]. inversion IH2 as [|? ? ? ? L1 L2]. subst.
      split.
      * destruct l' as [|x l'].
        -- rewrite dropCR_single by exact Hc. reflexivity.
        -- rewrite dropCR_String by discriminate. reflexivity.
      * constructor; [rewrite !len_String; lia | exact L2].
Qed.

Lemma scan_tokens_short (ls : list string) :
  forallb (fun l => Str.len l <? MaxScanTokenSize) ls = true ->
  scan_tokens ls = map dropCR ls.
Proof.
  induction ls as [|l ls IH]; [reflexivity|].
  cbn [forallb scan_tokens map]. rewrite andb_true_iff. intros [Hl Hls].
  now rewrite Hl, IH.
Qed.

Lemma rawLines_lacks (c : ascii) (data : string) :
  Str.lacks c data = true -> forallb (Str.lacks c) (rawLines data) = true.
Proof.
  induction data as [|x rest IH]; intros H; [reflexivity|].
  unfold Str.lacks in H. cbn [Str.all] in H. apply andb_true_iff in H as [Hx Hrest].
  specialize (IH Hrest). cbn [rawLines].
  destruct (Ascii.eqb x newline); [exact IH|].
  destruct (rawLines rest) as [|l ls]; cbn [forallb] in *.
  - unfold Str.lacks. cbn [Str.all]. now rewrite Hx.
  - apply andb_true_iff in IH as [Hl Hls]. unfold Str.lacks at 1. cbn [Str.all].
    fold (Str.lacks c l). now rewrite Hx, Hl, Hls.
Qed.

Lemma map_dropCR_lacks (ls : list string) :
  forallb (Str.lacks carriage_return) ls = true -> map dropCR ls = ls.
Proof.
  induction ls as [|l ls IH]; [reflexivity|].
  cbn [forallb map]. rewrite andb_true_iff. intros [Hl Hls].
  now rewrite (dropCR_lacks l Hl), IH.
Qed.

(** X5. A history file whose line ends were turned into CR LF reads as
    before: for every text without carriage returns whose lines are shorter
    than the scanner's buffer by two bytes, the reader returns the same
    records from the text and from the text with CR LF line ends. *)
Theorem loadHistory_CRLF (data : string)
  (Hcr : Str.lacks carriage_return data = true)
  (Hshort : linesShorter (MaxScanTokenSize - 1) data = true) :
  loadHistory (diskWith (toCRLF data)) = loadHistory (diskWith data).
Proof.
  change (parseHistory (toCRLF data) = parseHistory data).
  unfold parseHistory, ScanLines. f_equal. f_equal.
  destruct (rawLines_toCRLF data Hcr) as [Hmap Hlen].
  unfold linesShorter in Hshort.
  rewrite (scan_tokens_short (rawLines data)).
  2:{ rewrite forallb_forall in *. intros l Hl. specialize (Hshort l Hl).
      apply Z.ltb_lt in Hshort. apply Z.ltb_lt. lia. }
  rewrite (scan_tokens_short (rawLines (toCRLF data))).
  2:{ clear Hmap. induction Hlen as [|l' l ls' ls Hl _ IH]; [reflexivity|].
      cbn [forallb] in *. apply andb_true_iff in Hshort as [H1 H2].
      apply Z.ltb_lt in H1. rewrite (IH H2), andb_true_r. apply Z.ltb_lt. lia. }
  rewrite Hmap. symmetry. apply map_dropCR_lacks, rawLines_lacks, Hcr.
Qed.

Lemma loadHistory_CRLF_witness :
  loadHistory (diskWith (toCRLF (report savingTime eveningSessions)))
  = loadHistory (diskWith (report savingTime eveningSessions)).
Proof.
  apply loadHistory_CRLF; vm_compute; reflexivity.
Defined.

(** ** Column widths *)

(** An occurrence of the border does not begin in a text that does not
    contain it, when what follows the text begins with a space or with the
    border itself. *)
Lemma HasPrefix_border_straddle (v : string) (z0 : ascii) (z : string) :
  Str.HasPrefix v "│" = false ->
  z0 = " "%char \/ z0 = Str.byte_of 226 ->
  v <> "" ->
  Str.HasPrefix (v ++ String z0 z) "│" = false.
Proof.
  intros Hv Hz Hne.
  destruct v as [|x [|y [|w v]]]; [congruence | | |].
  - cbn [append Str.HasPrefix]. destruct Hz as [-> | ->];
      destruct (Ascii.eqb _ x); reflexivity.
  - cbn [append Str.HasPrefix]. destruct Hz as [-> | ->];
      destruct (Ascii.eqb _ x); destruct (Ascii.eqb _ y); reflexivity.
  - exact Hv.
Qed.

Lemma Contains_false_inv (c : ascii) (s pat : string) :
  Str.Contains (String c s) pat = false ->
  Str.HasPrefix (String c s) pat = false /\ Str.Contains s pat = false.
Proof. cbn [Str.Contains]. intros H. now apply orb_false_iff in H. Qed.

Lemma cut_border_after (v : string) (z0 : ascii) (z : string) :
  Str.Contains v "│" = false ->
  z0 = " "%char \/ z0 = Str.byte_of 226 ->
  Str.cut (v ++ String z0 z) "│"
  = match Str.cut (String z0 z) "│" with
    | Some (a, b) => Some (v ++ a, b)
    | None => None
    end.
Proof.
  intros Hv Hz. induction v as [|c v IH].
  - cbn [append]. destruct (Str.cut (String z0 z) "│") as [[a b]|]; reflexivity.
  - apply Contains_false_inv in Hv as [Hp Hv]. specialize (IH Hv).
    assert (Hs : Str.HasPrefix (String c v ++ String z0 z) "│" = false)
      by (apply HasPrefix_border_straddle; [exact Hp | exact Hz | discriminate]).
    change (String c v ++ String z0 z) with (String c (v ++ String z0 z)) in *.
    change (Str.cut (String c (v ++ String z0 z)) "│")
      with (if Str.HasPrefix (String c (v ++ String z0 z)) "│"
            then Some ("", Str.drop (String.length "│") (String c (v ++ String z0 z)))
            else match Str.cut (v ++ String z0 z) "│" with
                 | Some (a, b) => Some (String c a, b)
                 | None => None
                 end).
    rewrite Hs, IH. destruct (Str.cut (String z0 z) "│") as [[a b]|]; reflexivity.
Qed.

Lemma cut_border_spaces (n : nat) (rest : string) :
  Str.cut (Str.repeat " " n ++ "│" ++ rest) "│" = Some (Str.repeat " " n, rest).
Proof.
  induction n as [|n IH]; [reflexivity|].
  change (Str.repeat " " (S n) ++ "│" ++ rest)
    with (String " " (Str.repeat " " n ++ "│" ++ rest)).
  change (Str.repeat " " (S n)) with (String " " (Str.repeat " " n)).
  change (Str.cut (String " " (Str.repeat " " n ++ "│" ++ rest)) "│")
    with (match Str.cut (Str.repeat " " n ++ "│" ++ rest) "│" with
          | Some (a, b) => Some (String " " a, b)
          | None => None
          end).
  now rewrite IH.
Qed.

(** The text before the first border: spaces, a value that does not
    contain the border, spaces. *)
Lemma SplitHead_first_border (a b : nat) (v rest : string) :
  Str.Contains v "│" = false ->
  Str.SplitHead (Str.repeat " " a ++ v ++ Str.repeat " " b ++ "│" ++ rest) "│"
  = Str.repeat " " a ++ v ++ Str.repeat " " b.
Proof.
  intros Hv. unfold Str.SplitHead.
  assert (Hz : exists z0 z, Str.repeat " " b ++ "│" ++ rest = String z0 z /\
                            (z0 = " "%char \/ z0 = Str.byte_of 226)).
  { destruct b as [|b]; cbn [Str.repeat append]; eexists; eexists;
      (split; [reflexivity|]); [now right | now left]. }
  destruct Hz as (z0 & z & Ez & Hz0).
  assert (H1 : Str.cut (v ++ Str.repeat " " b ++ "│" ++ rest) "│"
               = Some (v ++ Str.repeat " " b, rest)).
  { rewrite Ez, (cut_border_after v z0 z Hv Hz0), <- Ez, cut_border_spaces. reflexivity. }
  assert (H2 : forall tail,
             Str.cut (Str.repeat " " a ++ tail) "│"
             = match Str.cut tail "│" with
               | Some (x, y) => Some (Str.repeat " " a ++ x, y)
               | None => None
               end).
  { intros tail. induction a as [|a IH].
    - cbn [Str.repeat append]. destruct (Str.cut tail "│") as [[x y]|]; reflexivity.
    - change (Str.repeat " " (S a) ++ tail) with (String " " (Str.repeat " " a ++ tail)).
      change (Str.repeat " " (S a)) with (String " " (Str.repeat " " a)).
      change (Str.cut (String " " (Str.repeat " " a ++ tail)) "│")
        with (match Str.cut (Str.repeat " " a ++ tail) "│" with
              | Some (x, y) => Some (String " " x, y)
              | None => None
              end).
      rewrite IH. destruct (Str.cut tail "│") as [[x y]|]; reflexivity. }
  rewrite H2, H1. reflexivity.
Qed.

(** *** White space around any value *)

Lemma HasPrefix_pad (c : ascii) (sp v z : string) :
  Str.lacks c sp = true ->
  z = "" \/ (exists z', z = String c z') ->
  Str.HasPrefix v sp = false ->
  Str.HasPrefix (v ++ z) sp = false.
Proof.
  intros Hsp Hz. revert v. induction sp as [|a sp IH]; intros v Hv.
  - destruct v; discriminate Hv.
  - unfold Str.lacks in Hsp. cbn [Str.all] in Hsp.
    apply andb_true_iff in Hsp as [Ha Hsp]. apply negb_true_iff in Ha.
    destruct v as [|x v].
    + cbn [append]. destruct Hz as [-> | [z' ->]]; [reflexivity|].
      cbn [Str.HasPrefix]. now rewrite Ha.
    + cbn [append Str.HasPrefix] in *.
      destruct (Ascii.eqb a x); [|reflexivity]. cbn [andb] in *. now apply IH.
Qed.

Lemma find_pad (c : ascii) (seqs : list string) (v z : string) :
  tailsLack c seqs = true ->
  v <> "" ->
  z = "" \/ (exists z', z = String c z') ->
  find (Str.HasPrefix v) seqs = None ->
  find (Str.HasPrefix (v ++ z)) seqs = None.
Proof.
  intros Ht Hv Hz. induction seqs as [|sp seqs IH]; [reflexivity|].
  cbn [tailsLack forallb] in Ht. apply andb_true_iff in Ht as [Hsp Ht].
  cbn [find]. destruct (Str.HasPrefix v sp) eqn:E; [discriminate|]. intros Hf.
  assert (E' : Str.HasPrefix (v ++ z) sp = false).
  { destruct sp as [|a t]; [discriminate Hsp|].
    destruct v as [|x v]; [congruence|].
    cbn [append Str.HasPrefix] in *.
    destruct (Ascii.eqb a x); [|reflexivity]. cbn [andb] in *.
    now apply (HasPrefix_pad c). }
  rewrite E'. now apply IH.
Qed.

Lemma trim_front_none (seqs : list string) (fuel : nat) (s : string) :
  find (Str.HasPrefix s) seqs = None -> trim_front seqs fuel s = s.
Proof. intros H. destruct fuel; [reflexivity|]. cbn [trim_front]. now rewrite H. Qed.

Lemma length_drop (n : nat) (s : string) :
  (String.length (Str.drop n s) <= String.length s)%nat.
Proof.
  revert s. induction n as [|n IH]; intros s; [cbn; lia|].
  destruct s as [|c s]; [cbn; lia|]. cbn [Str.drop String.length].
  specialize (IH s). lia.
Qed.

Lemma trim_front_length (seqs : list string) (fuel : nat) (s : string) :
  (String.length (trim_front seqs fuel s) <= String.length s)%nat.
Proof.
  revert s. induction fuel as [|fuel IH]; intros s; [cbn; lia|].
  cbn [trim_front]. destruct (find (Str.HasPrefix s) seqs) as [sp|]; [|lia].
  specialize (IH (Str.drop (String.length sp) s)).
  pose proof (length_drop (String.length sp) s). lia.
Qed.

Lemma trim_front_shrinks (c : ascii) (seqs : list string) (fuel : nat) (s sp : string) :
  tailsLack c seqs = true ->
  (0 < fuel)%nat ->
  find (Str.HasPrefix s) seqs = Some sp ->
  (String.length (trim_front seqs fuel s) < String.length s)%nat.
Proof.
  intros Ht Hf E. destruct fuel as [|fuel]; [lia|].
  cbn [trim_front]. rewrite E.
  apply find_some in E as [Hin Hp].
  unfold tailsLack in Ht. rewrite forallb_forall in Ht. specialize (Ht sp Hin).
  destruct sp as [|a t]; [discriminate Ht|].
  destruct s as [|x s]; [discriminate Hp|].
  pose proof (trim_front_length seqs fuel (Str.drop (String.length (String a t)) (String x s)))
    as L.
  cbn [String.length Str.drop] in *.
  pose proof (length_drop (String.length t) s). lia.
Qed.

Lemma trim_front_fixed (c : ascii) (seqs : list string) (fuel : nat) (s : string) :
  tailsLack c seqs = true ->
  (0 < fuel)%nat ->
  trim_front seqs fuel s = s ->
  find (Str.HasPrefix s) seqs = None.
Proof.
  intros Ht Hf H.
  destruct (find (Str.HasPrefix s) seqs) as [sp|] eqn:E; [exfalso | reflexivity].
  pose proof (trim_front_shrinks c seqs fuel s sp Ht Hf E) as L.
  rewrite H in L. lia.
Qed.

Lemma trim_front_run (seqs : list string) (n fuel : nat) (s : string) :
  (forall rest, find (Str.HasPrefix (String " " rest)) seqs = Some " ") ->
  (n <= fuel)%nat ->
  trim_front seqs fuel (Str.repeat " " n ++ s) = trim_front seqs (fuel - n) s.
Proof.
  intros Hsp. revert fuel. induction n as [|n IH]; intros fuel Hf.
  - cbn [Str.repeat append]. now rewrite Nat.sub_0_r.
  - destruct fuel as [|fuel]; [lia|].
    cbn [Str.repeat append trim_front]. rewrite Hsp.
    cbn [String.length Str.drop Nat.sub]. apply IH. lia.
Qed.

Lemma length_rev (s : string) : String.length (Str.rev s) = String.length s.
Proof.
  induction s as [|c s IH]; [reflexivity|].
  rewrite rev_String, length_append, IH. cbn. lia.
Qed.

Lemma space_tails :
  tailsLack " " space_encodings = true /\
  tailsLack " " (map Str.rev space_encodings) = true.
Proof. split; vm_compute; reflexivity. Qed.

(** A value that [TrimSpace] leaves as it is begins with no white space
    and ends with none. *)
Lemma TrimRightSpace_length (s : string) :
  (String.length (TrimRightSpace s) <= String.length s)%nat.
Proof.
  unfold TrimRightSpace. rewrite length_rev.
  pose proof (trim_front_length (map Str.rev space_encodings) (String.length s) (Str.rev s))
    as L.
  now rewrite length_rev in L.
Qed.

Lemma TrimSpace_fixed (v : string) :
  TrimSpace v = v ->
  find (Str.HasPrefix v) space_encodings = None /\
  find (Str.HasPrefix (Str.rev v)) (map Str.rev space_encodings) = None.
Proof.
  intros H. destruct v as [|x v]; [split; reflexivity|].
  set (s := String x v) in *.
  assert (Hlen : (0 < String.length s)%nat) by (unfold s; cbn; lia).
  assert (Hf : find (Str.HasPrefix s) space_encodings = None).
  { destruct (find (Str.HasPrefix s) space_encodings) as [sp|] eqn:E; [exfalso | reflexivity].
    pose proof (trim_front_shrinks " " space_encodings (String.length s) s sp
                  (proj1 space_tails) Hlen E) as L1.
    fold (TrimLeftSpace s) in L1.
    pose proof (TrimRightSpace_length (TrimLeftSpace s)) as L2.
    fold (TrimSpace s) in L2. rewrite H in L2. lia. }
  split; [exact Hf|].
  assert (Hl : TrimLeftSpace s = s) by (unfold TrimLeftSpace; now apply trim_front_none).
  unfold TrimSpace in H. rewrite Hl in H. unfold TrimRightSpace in H.
  apply (f_equal Str.rev) in H. rewrite rev_involutive in H.
  apply (trim_front_fixed " " _ (String.length s)); [apply space_tails | exact Hlen |].
  exact H.
Qed.

(** Spaces around a value without white space at its ends are what
    [TrimSpace] takes away. *)
Lemma TrimSpace_around (n m : nat) (v : string) :
  TrimSpace v = v ->
  TrimSpace (Str.repeat " " n ++ v ++ Str.repeat " " m) = v.
Proof.
  intros H. destruct (TrimSpace_fixed v H) as [Hf Hb].
  assert (Hsp : forall rest, find (Str.HasPrefix (String " " rest)) space_encodings = Some " ")
    by reflexivity.
  assert (Hrsp : forall rest,
             find (Str.HasPrefix (String " " rest)) (map Str.rev space_encodings) = Some " ")
    by reflexivity.
  assert (Hz : forall k, Str.repeat " " k = "" \/ exists z', Str.repeat " " k = String " " z').
  { intros [|k]; [now left | right]. now exists (Str.repeat " " k). }
  destruct v as [|x v].
  - cbn [append]. rewrite repeat_add. unfold TrimSpace.
    assert (E : TrimLeftSpace (Str.repeat " " (n + m)) = "").
    { unfold TrimLeftSpace. rewrite length_repeat.
      rewrite <- (append_nil_r (Str.repeat " " (n + m))).
      rewrite trim_front_run by (exact Hsp || lia).
      now apply trim_front_none. }
    rewrite E. reflexivity.
  - set (s := String x v) in *. unfold TrimSpace.
    assert (E : TrimLeftSpace (Str.repeat " " n ++ s ++ Str.repeat " " m)
                = s ++ Str.repeat " " m).
    { unfold TrimLeftSpace.
      rewrite trim_front_run by (exact Hsp || (rewrite length_append, length_repeat; lia)).
      apply trim_front_none.
      apply (find_pad " "); [apply space_tails | discriminate | apply Hz | exact Hf]. }
    rewrite E. unfold TrimRightSpace. rewrite rev_app, rev_repeat.
    rewrite trim_front_run
      by (exact Hrsp || (rewrite length_append, length_repeat; lia)).
    rewrite trim_front_none by exact Hb.
    apply rev_involutive.
Qed.

Lemma labelled_between (line key before : string) (a b : nat) (v rest old : string) :
  Str.cut line key
  = Some (before, Str.repeat " " a ++ v ++ Str.repeat " " b ++ "│" ++ rest) ->
  Str.Contains v "│" = false ->
  TrimSpace v = v ->
  labelled line key old = v.
Proof.
  intros Hcut Hv Ht. unfold labelled, Str.SplitN2. rewrite Hcut.
  rewrite SplitHead_first_border by exact Hv.
  now apply TrimSpace_around.
Qed.

(** X6. The value of a labelled line does not depend on the widths of the
    columns: for every value that does not contain the border "│" and that
    [TrimSpace] leaves as it is (no white space of Unicode at either end),
    whatever the numbers of spaces after the label and before the border,
    and whatever follows the border, the reader's expression takes the value
    between them, for each of the three labels. *)
Theorem labelled_any_padding (a b : nat) (v rest old : string)
  (Hborder : Str.Contains v "│" = false)
  (Htrim : TrimSpace v = v) :
  labelled ("   │  Date:" ++ Str.repeat " " a ++ v ++ Str.repeat " " b ++ "│" ++ rest)
    "Date:" old = v /\
  labelled ("   │  Start:" ++ Str.repeat " " a ++ v ++ Str.repeat " " b ++ "│" ++ rest)
    "Start:" old = v /\
  labelled ("   │  End:" ++ Str.repeat " " a ++ v ++ Str.repeat " " b ++ "│" ++ rest)
    "End:" old = v.
Proof.
  repeat split;
    apply (labelled_between _ _ "   │  " a b v rest old); auto; reflexivity.
Qed.

Lemma labelled_any_padding_witness :
  labelled ("   │  Date:" ++ Str.repeat " " 1 ++ "été 5€5"
            ++ Str.repeat " " 3 ++ "│" ++ "  │") "Date:" ""
  = "été 5€5".
Proof.
  refine (proj1 (labelled_any_padding 1 3 "été 5€5" "  │" "" _ _));
    vm_compute; reflexivity.
Defined.

(** ** Negative durations *)

Lemma formatDurationLong_seconds_only (d : Duration) (s : Z) :
  countsSecondsOnly d s = true -> formatDurationLong d = itoa s ++ "s".
Proof.
  unfold countsSecondsOnly. rewrite !andb_true_iff, !Z.leb_le, Z.eqb_eq.
  intros [[Hh Hm] Hs]. unfold formatDurationLong.
  destruct (Z.ltb_spec 0 (intHours d)); [lia|].
  destruct (Z.ltb_spec 0 (Z.rem (intMinutes d) 60)); [lia|].
  now rewrite Sprintf_s, format_verb_int, Hs.
Qed.

(** X7. The long form of a negative duration shows the seconds alone: for a
    duration of minus [n] whole seconds (checked for every [n] below
    [wholeSecondsChecked]) it is the remainder of the seconds with its sign,
    and the hours and the minutes are left out.  Minus 3725 s gives "-5s",
    and minus 22 hours, which is what the reader makes of a session from
    23:00 to 01:00, gives "0s". *)
Theorem formatDurationLong_negative (n : Z) (Hn : 0 <= n < wholeSecondsChecked) :
  formatDurationLong (- n * Second) = itoa (- (n mod 60)) ++ "s" /\
  formatDurationLong (- 3725 * Second) = "-5s" /\
  formatDurationLong (- (22 * Hour)) = "0s".
Proof.
  split; [|split; vm_compute; reflexivity].
  apply formatDurationLong_seconds_only.
  assert (A : range_check 13
                (fun n => countsSecondsOnly (- n * Second) (- (n mod 60))) 0 = true)
    by (vm_compute; reflexivity).
  exact (range_check_spec 13 _ 0 A n Hn).
Qed.

Lemma formatDurationLong_negative_witness :
  formatDurationLong (- 65 * Second) = itoa (- (65 mod 60)) ++ "s".
Proof.
  refine (proj1 (formatDurationLong_negative 65 _)). vm_compute.
  split; discriminate || reflexivity.
Defined.

(** ** The stamp of a record *)

(** X8. The date and the time of day that the writer puts on two lines of a
    record parse, joined by a space, against the layout of the reader: to
    the date of the first time with the time of day of the second, in whole
    seconds, when the year of the date has four digits, and not at all
    otherwise. *)
Theorem Parse_written_stamp (t u : Time) :
  Parse layoutStamp (Format t layoutDate ++ " " ++ Format u layoutClock)
  = if yearFits t then Some (onDayOf t u) else None.
Proof.
  destruct (yearFits t) eqn:Hy.
  - now apply Parse_stamp.
  - now apply Parse_stamp_year_unfit.
Qed.

(** ** The lines of a written file *)

Lemma reportLines_length (now : Time) (hist : list session) :
  List.length (reportLines now hist)
  = match hist with
    | [] => 32%nat
    | _ => (30 + 9 * List.length hist)%nat
    end.
Proof.
  unfold reportLines. rewrite !length_app.
  destruct hist as [|s hist]; [reflexivity|].
  rewrite blocksLines_length. cbn [List.length metaLines]. 
  change (List.length bannerLines) with 18%nat.
  change (List.length sectionLines) with 4%nat.
  change (List.length footerLines) with 4%nat. lia.
Qed.

(** X9. The scanner delivers every line of a written file: no line of a
    report reaches the size of its buffer, whatever the sessions.  The lines
    are 32 for the empty collection and 30 plus nine for each session
    otherwise, and the third line of the metadata shows the number of
    sessions. *)
Theorem report_scanned_whole (now : Time) (hist : list session) :
  ScanLines (report now hist) = reportLines now hist /\
  forallb (fun l => Str.len l <? MaxScanTokenSize) (reportLines now hist) = true /\
  List.length (ScanLines (report now hist))
  = match hist with
    | [] => 32%nat
    | _ => (30 + 9 * List.length hist)%nat
    end /\
  nth_error (ScanLines (report now hist)) 20
  = Some ("  Total Sessions: " ++ itoa (Z.of_nat (List.length hist))).
Proof.
  rewrite ScanLines_report. repeat split.
  - pose proof (reportLines_plain now hist) as P. rewrite forallb_forall in *.
    intros l Hl. apply Z.ltb_lt. now apply plainLine_parts, P.
  - apply reportLines_length.
Qed.

(** * Properties of the program around the store *)

Import App.

Lemma keyIs_cases (key : string) (names : list string) :
  keyIs key names = true -> In key names.
Proof.
  unfold keyIs. intros H. apply existsb_exists in H. destruct H as [n [Hin He]].
  apply String.eqb_eq in He. now subst.
Qed.

Lemma len_list_nonneg {A : Type} (l : list A) : 0 <= len l.
Proof. unfold len. lia. Qed.

Lemma len_app {A : Type} (a b : list A) : len (a ++ b) = len a + len b.
Proof. unfold len. rewrite length_app. lia. Qed.

Lemma len_removeNth {A : Type} (n : nat) (l : list A) :
  (n < List.length l)%nat -> len (removeNth n l) = len l - 1.
Proof.
  intros H. unfold len, removeNth.
  rewrite length_app, length_firstn, length_skipn. lia.
Qed.

Lemma initialModel_inBounds (w : world) : inBounds (initialModel w).
Proof.
  unfold inBounds, initialModel. cbn.
  repeat split; try lia; discriminate.
Qed.

Ltac bools :=
  repeat match goal with
  | H : (_ <? _) = true |- _ => apply Z.ltb_lt in H
  | H : (_ <? _) = false |- _ => apply Z.ltb_ge in H
  | H : (_ <=? _) = true |- _ => apply Z.leb_le in H
  | H : (_ <=? _) = false |- _ => apply Z.leb_gt in H
  | H : (_ =? _) = true |- _ => apply Z.eqb_eq in H
  | H : (_ =? _) = false |- _ => apply Z.eqb_neq in H
  | H : (_ && _) = true |- _ => apply andb_true_iff in H; destruct H
  | H : (_ && _) = false |- _ => apply andb_false_iff in H; destruct H
  | H : (_ || _) = true |- _ => apply orb_true_iff in H; destruct H
  | H : (_ || _) = false |- _ => apply orb_false_iff in H; destruct H
  end.

Ltac step_cases :=
  repeat match goal with
  | |- context [if ?b then _ else _] => destruct b eqn:?
  end.

Ltac bounds :=
  unfold inBounds; cbn -[Z.max len removeNth nth Z.ltb Z.leb];
  repeat split; auto; try discriminate; intros; try congruence; try lia.

Ltac returns := do 3 eexists; split; [reflexivity | bounds].

Lemma Update_inBounds (m : model) (message : msg) (w : world) :
  inBounds m ->
  exists m' c w', Update m message w = Some (m', c, w') /\ inBounds m'.
Proof.
  intros (Hmenu & Hc & Hs & Hmap & Hhist & Hother & Htrack).
  destruct m as [v c items tr ts el h sc st]. cbn -[Z.max len] in *. subst items.
  destruct st as [s|]; [clear Hmap | now elim Hmap].
  pose proof (len_list_nonneg h) as Hlen.
  destruct message as [t | key |].
  - cbn. destruct tr; unfold timeSince, timeNow; cbn; returns.
  - destruct v; cbn [Update currentView].
    + (* the menu *)
      assert (Hc4 : c <= 4) by (apply Hother; discriminate).
      unfold updateMenu, stopped, timeNow, setCursor, setView, setSettingsCursor.
      cbn -[keyIs Z.ltb Z.eqb len]. change (len theMenu) with 5.
      step_cases; bools; returns.
    + (* the tracking screen *)
      assert (Hc4 : c <= 4) by (apply Hother; discriminate).
      unfold updateTracking, stopped, timeNow, setCursor, setView.
      cbn -[keyIs Z.ltb Z.eqb len].
      step_cases; bools; returns.
    + (* the history *)
      specialize (Hhist eq_refl).
      unfold updateHistory, setCursor, setView.
      cbn -[keyIs Z.ltb Z.eqb Z.leb removeNth len].
      destruct (keyIs key ["ctrl+c"; "q"]); [returns|].
      destruct (keyIs key ["esc"; "b"]); [returns|].
      destruct (keyIs key ["up"; "k"]); [destruct (0 <? c) eqn:E; bools; returns|].
      destruct (keyIs key ["down"; "j"]);
        [destruct (c <? len h - 1) eqn:E; bools; returns|].
      destruct (keyIs key ["d"; "backspace"]); [|returns].
      destruct ((0 <? len h) && (c <? len h)) eqn:E; [|returns].
      bools.
      destruct (c <? 0) eqn:E0; [bools; lia|].
      assert (Hrm : len (removeNth (Z.to_nat c) h) = len h - 1).
      { apply len_removeNth. unfold len in *. lia. }
      rewrite Hrm.
      destruct ((len h - 1 <=? c) && (0 <? c)) eqn:E; bools;
        do 3 eexists; (split; [reflexivity|]);
        unfold inBounds; cbn -[Z.max len removeNth]; rewrite Hrm;
        repeat split; auto; try discriminate; intros; try congruence; lia.
    + (* the settings *)
      assert (Hc4 : c <= 4) by (apply Hother; discriminate).
      unfold updateSettings, setCursor, setView, setSettingsCursor.
      cbn -[keyIs Z.ltb Z.eqb Z.leb nth len].
      change (len getSettingsKeys) with 4.
      destruct (keyIs key ["ctrl+c"; "q"]); [returns|].
      destruct (keyIs key ["esc"; "b"]); [returns|].
      destruct (keyIs key ["up"; "k"]); [destruct (0 <? sc) eqn:E; bools; returns|].
      destruct (keyIs key ["down"; "j"]);
        [destruct (sc <? 4 - 1) eqn:E; bools; returns|].
      destruct (keyIs key ["enter"; " "]); [|returns].
      destruct ((sc <? 0) || (4 <=? sc)) eqn:E; [bools; lia|].
      returns.
  - cbn. returns.
Qed.

Lemma run_inBounds (msgs : list msg) :
  forall m w, inBounds m -> exists m' w', run msgs m w = Some (m', w') /\ inBounds m'.
Proof.
  induction msgs as [|message rest IH]; intros m w Hm.
  - exists m, w. now split.
  - destruct (Update_inBounds m message w Hm) as (m1 & c & w1 & E & Hm1).
    cbn [run]. rewrite E. now apply IH.
Qed.

(** X10. Started from [initialModel], the program never stops with a
    run-time panic, whatever messages reach it and whatever the history
    file holds: every [Update] returns, and after it the menu cursor is
    not negative and at most 4 outside the history screen, on the history
    screen it is at most the index of the last session (0 for an empty
    history), the settings cursor selects one of the four settings, and
    the tracking screen is shown only while a session runs. *)
Theorem run_never_panics (w : world) (msgs : list msg) :
  exists m' w', run msgs (initialModel w) w = Some (m', w') /\ inBounds m'.
Proof. apply run_inBounds, initialModel_inBounds. Qed.

(** X11. The keys "q" and "ctrl+c" end the program from every screen
    without another effect: the model is returned as it is and nothing is
    written, so a session that runs at that moment is not recorded. *)
Theorem quit_records_nothing (m : model) (w : world) (key : string)
  (Hkey : key = "q" \/ key = "ctrl+c") :
  Update m (KeyMsg key) w = Some (m, cmdQuit, w).
Proof.
  destruct m as [v c items tr ts el h sc st].
  destruct Hkey; subst key; destruct v; reflexivity.
Qed.

Lemma quit_records_nothing_witness :
  Update runningModel (KeyMsg "q") firstWorld = Some (runningModel, cmdQuit, firstWorld).
Proof. apply (quit_records_nothing runningModel firstWorld "q"). now left. Defined.

Ltac key_found :=
  match goal with
  | H : keyIs _ _ = true |- _ => apply keyIs_cases in H; cbn in H; intuition congruence
  end.

(** What a step does to the history and to the files: nothing, or the
    session that ran is appended and the history saved, or the session
    under the cursor is removed and the history saved. *)
Lemma Update_history (m m' : model) (message : msg) (c : cmd) (w w' : world) :
  Update m message w = Some (m', c, w') ->
  (history m' = history m /\ disk w' = disk w) \/
  (tracking m = true /\ tracking m' = false /\
   history m'
   = (history m ++ [mkSession (trackingStart m) (clock w (reads w)) (elapsed m)])%list /\
   disk w' = fst (saveHistory (clock w (S (reads w))) (history m') (disk w)) /\
   ((currentView m = menuView /\ cursor m = 1 /\ message = KeyMsg "enter") \/
    (currentView m = trackingView /\
     (message = KeyMsg "enter" \/ message = KeyMsg "s")))) \/
  (currentView m = historyView /\ 0 <= cursor m < len (history m) /\
   history m' = removeNth (Z.to_nat (cursor m)) (history m) /\
   disk w' = fst (saveHistory (clock w (reads w)) (history m') (disk w)) /\
   (message = KeyMsg "d" \/ message = KeyMsg "backspace")).
Proof.
  destruct m as [v cu items tr ts el h sc st].
  destruct message as [t | key |]; cbn [Update currentView tracking].
  - destruct tr; unfold timeSince, timeNow; cbn; intros H; inversion H; subst;
      left; now split.
  - destruct v.
    + unfold updateMenu, stopped, save, timeNow, setCursor, setView, setSettingsCursor.
      cbn -[keyIs Z.ltb Z.eqb len saveHistory].
      step_cases; intros H; inversion H; subst; cbn -[saveHistory];
        try (left; now split).
      right; left. repeat split. left. bools. repeat split; [assumption|].
      f_equal. key_found.
    + unfold updateTracking, stopped, save, timeNow, setCursor, setView.
      cbn -[keyIs Z.ltb Z.eqb len saveHistory].
      step_cases; intros H; inversion H; subst; cbn -[saveHistory];
        try (left; now split).
      right; left. repeat split. right. split; [reflexivity|].
      assert (key = "enter" \/ key = "s") as [-> | ->] by key_found; auto.
    + unfold updateHistory, save, timeNow, setCursor, setView.
      cbn -[keyIs Z.ltb Z.eqb Z.leb len removeNth saveHistory].
      step_cases; intros H; inversion H; subst;
        cbn -[saveHistory removeNth len Z.ltb Z.leb]; try (left; now split);
        bools; right; right; repeat split; try lia;
        (assert (key = "d" \/ key = "backspace") as [-> | ->] by key_found; auto).
    + unfold updateSettings, setCursor, setView, setSettingsCursor.
      cbn -[keyIs Z.ltb Z.eqb Z.leb len nth].
      step_cases; try discriminate; destruct st; try discriminate;
        intros H; inversion H; subst; left; now split.
  - intros H; inversion H; subst. left; now split.
Qed.

Lemma app_one_neq {A : Type} (l : list A) (x : A) : (l ++ [x])%list <> l.
Proof.
  intros H. apply (f_equal (@List.length A)) in H. rewrite length_app in H. cbn in H. lia.
Qed.

Lemma removeNth_neq {A : Type} (n : nat) (l : list A) :
  (n < List.length l)%nat -> removeNth n l <> l.
Proof.
  intros Hn H. apply (f_equal len) in H. rewrite len_removeNth in H by assumption. lia.
Qed.

Lemma In_removeNth {A : Type} (n : nat) (l : list A) (x : A) :
  In x (removeNth n l) -> In x l.
Proof.
  unfold removeNth. revert n. induction l as [|a l IH]; intros n.
  - now rewrite firstn_nil, skipn_nil.
  - destruct n as [|n].
    + cbn [firstn skipn app]. now right.
    + cbn [firstn skipn app]. intros [H | H]; [now left | right; now apply (IH n)].
Qed.

Lemma save_writable (now : Time) (h : list session) (fs : fsys) :
  (forall e, fs historyFile <> Blocked e) ->
  loadHistory (fst (saveHistory now h fs)) = recovered h /\
  (forall e, fst (saveHistory now h fs) historyFile <> Blocked e).
Proof.
  intros Hw.
  assert (E : saveHistory now h fs = (fst (saveHistory now h fs), None)).
  { unfold saveHistory, os_WriteFile.
    destruct (fs historyFile) eqn:F; try reflexivity. now elim (Hw e). }
  split; [exact (proj2 (load_after_save _ _ _ _ E))|].
  intros e. rewrite (proj1 (load_after_save _ _ _ _ E)). discriminate.
Qed.

Lemma writable_spec (w : world) :
  writable w = true <-> forall e, disk w historyFile <> Blocked e.
Proof.
  unfold writable. destruct (disk w historyFile); split; intros H;
    try reflexivity; try discriminate; try (intros e'; discriminate).
  now elim (H e).
Qed.

(** X12. Every change that a step makes to the history is saved within
    the step: when the history file can be written, the file read back after
    the step is what the reader recovers from the new history, and it is
    the new history itself, durations recomputed, when each of its
    sessions is one that the file can hold. *)
Theorem history_change_is_saved (m m' : model) (message : msg) (c : cmd) (w w' : world)
  (Hstep : Update m message w = Some (m', c, w'))
  (Hchange : history m' <> history m)
  (Hfile : writable w = true) :
  loadHistory (disk w') = recovered (history m') /\
  (Forall roundTrips (history m') -> loadHistory (disk w') = map asRead (history m')).
Proof.
  assert (H : loadHistory (disk w') = recovered (history m')).
  { pose proof (proj1 (writable_spec w) Hfile) as Hw.
    destruct (Update_history _ _ _ _ _ _ Hstep)
      as [[E _] | [(_ & _ & _ & -> & _) | (_ & _ & _ & -> & _)]];
      [now elim Hchange | |]; now apply save_writable. }
  split; [exact H|].
  intros Hwf. rewrite H. now apply recovered_roundTrips.
Qed.

Lemma history_change_is_saved_witness :
  exists m' w',
    Update runningModel (KeyMsg "s") firstWorld = Some (m', cmdNil, w') /\
    loadHistory (disk w') = recovered (history m').
Proof.
  do 2 eexists. split; [reflexivity|].
  refine (proj1 (history_change_is_saved runningModel _ (KeyMsg "s") cmdNil firstWorld _
                   eq_refl _ eq_refl)).
  discriminate.
Defined.

(** X13. A step that leaves the history as it is writes no file: moving
    the cursors, changing screens, ticks and the settings never reach the
    disk, so the settings chosen are not kept for the next start. *)
Theorem only_history_is_written (m m' : model) (message : msg) (c : cmd) (w w' : world)
  (Hstep : Update m message w = Some (m', c, w'))
  (Hsame : history m' = history m) :
  disk w' = disk w.
Proof.
  destruct (Update_history _ _ _ _ _ _ Hstep)
    as [[_ E] | [(_ & _ & E & _) | (_ & Hc & E & _)]]; [exact E | |].
  - rewrite E in Hsame. now elim (app_one_neq _ _ Hsame).
  - rewrite E in Hsame.
    elim (removeNth_neq (Z.to_nat (cursor m)) (history m)); [|exact Hsame].
    unfold len in Hc. lia.
Qed.

Lemma only_history_is_written_witness :
  exists m' w',
    Update (initialModel firstWorld) (KeyMsg "enter") firstWorld = Some (m', cmdTick, w') /\
    reads w' = 1%nat /\
    disk w' = disk firstWorld.
Proof.
  do 2 eexists. split; [reflexivity|]. split; [reflexivity|].
  exact (only_history_is_written (initialModel firstWorld) _ (KeyMsg "enter") cmdTick
           firstWorld _ eq_refl eq_refl).
Defined.

(** X14. A step never alters a session of the history: the history stays
    as it is, or it gets one more session at its end, or it loses the
    session under the cursor of the history screen.  A session is added
    only by "enter" on the second menu item or by "enter" or "s" on the
    tracking screen, while a session runs; it starts when tracking started,
    ends at the time of the stop, and its duration is the time measured at
    the last tick, not the difference of the two.  A session is removed
    only by "d" or "backspace" on the history screen. *)
Theorem history_append_or_remove (m m' : model) (message : msg) (c : cmd) (w w' : world)
  (Hstep : Update m message w = Some (m', c, w')) :
  history m' = history m \/
  (tracking m = true /\ tracking m' = false /\
   history m'
   = (history m ++ [mkSession (trackingStart m) (clock w (reads w)) (elapsed m)])%list /\
   ((currentView m = menuView /\ cursor m = 1 /\ message = KeyMsg "enter") \/
    (currentView m = trackingView /\
     (message = KeyMsg "enter" \/ message = KeyMsg "s")))) \/
  (currentView m = historyView /\
   (message = KeyMsg "d" \/ message = KeyMsg "backspace") /\
   0 <= cursor m < len (history m) /\
   history m' = removeNth (Z.to_nat (cursor m)) (history m) /\
   forall s, In s (history m') -> In s (history m)).
Proof.
  destruct (Update_history _ _ _ _ _ _ Hstep)
    as [[E _] | [(H1 & H2 & E & _ & Hk) | (Hv & Hc & E & _ & Hk)]].
  - now left.
  - right; left. now repeat split.
  - right; right. repeat split; try assumption; try lia.
    intros s. rewrite E. apply In_removeNth.
Qed.

Lemma history_append_or_remove_witness :
  exists m' w',
    Update runningModel (KeyMsg "s") firstWorld = Some (m', cmdNil, w') /\
    history m' = [mkSession savingTime savingTime (5 * Second)].
Proof.
  do 2 eexists. split; [reflexivity|].
  destruct (history_append_or_remove runningModel _ (KeyMsg "s") cmdNil firstWorld _
              eq_refl) as [H | [(_ & _ & H & _) | (H & _)]];
    [discriminate H | exact H | discriminate H].
Defined.

Lemma mapGet_mapSet (k k' : string) (v : bool) (s : settingsMap) :
  mapGet k (mapSet k' v s) = if String.eqb k' k then v else mapGet k s.
Proof.
  induction s as [|[a b] s IH]; cbn [mapSet mapGet].
  - reflexivity.
  - destruct (String.eqb a k') eqn:E; cbn [mapGet].
    + apply String.eqb_eq in E. subst a. now destruct (String.eqb k' k).
    + rewrite IH. destruct (String.eqb a k) eqn:E1; [|reflexivity].
      apply String.eqb_eq in E1. subst a. now rewrite String.eqb_sym, E.
Qed.

(** X15. On the settings screen "enter" and the space bar switch the
    setting under the cursor and no other: the cursor selects one of the
    four settings, every other setting and every other part of the model
    stay as they are, no file is written, and the same key pressed again
    gives back the settings as they were. *)
Theorem toggle_selected_setting (m : model) (w : world) (key : string)
  (Hm : inBounds m)
  (Hview : currentView m = settingsView)
  (Hkey : key = "enter" \/ key = " ") :
  In (selected m) getSettingsKeys /\
  exists m' m'',
    Update m (KeyMsg key) w = Some (m', cmdNil, w) /\
    Update m' (KeyMsg key) w = Some (m'', cmdNil, w) /\
    (forall k, setting m' k
               = if String.eqb (selected m) k then negb (setting m k) else setting m k) /\
    (forall k, setting m'' k = setting m k) /\
    m' = mkModel (currentView m) (cursor m) (menuItems m) (tracking m)
           (trackingStart m) (elapsed m) (history m) (settingsCursor m) (settings m').
Proof.
  destruct Hm as (_ & _ & Hs & Hmap & _).
  destruct m as [v c items tr ts el h sc st]. cbn in Hview, Hs, Hmap. subst v.
  destruct st as [s|]; [clear Hmap | now elim Hmap].
  unfold selected. cbn [settingsCursor].
  assert (Hsc : sc = 0 \/ sc = 1 \/ sc = 2 \/ sc = 3) by lia.
  split.
  { destruct Hsc as [-> | [-> | [-> | ->]]]; cbn; auto. }
  assert (Hin : (sc <? 0) || (len getSettingsKeys <=? sc) = false).
  { change (len getSettingsKeys) with 4. apply orb_false_iff.
    split; [apply Z.ltb_ge | apply Z.leb_gt]; lia. }
  assert (Hk : keyIs key ["ctrl+c"; "q"] = false /\ keyIs key ["esc"; "b"] = false /\
               keyIs key ["up"; "k"] = false /\ keyIs key ["down"; "j"] = false /\
               keyIs key ["enter"; " "] = true)
    by (destruct Hkey; subst key; repeat split; reflexivity).
  destruct Hk as (K1 & K2 & K3 & K4 & K5).
  do 2 eexists.
  split.
  { cbn [Update currentView]. unfold updateSettings.
    cbn [settingsCursor settings]. rewrite K1, K2, K3, K4, K5, Hin. reflexivity. }
  split.
  { cbn [Update currentView]. unfold updateSettings.
    cbn [settingsCursor settings]. rewrite K1, K2, K3, K4, K5, Hin. reflexivity. }
  split; [|split; [|reflexivity]].
  - intros k. unfold setting. cbn [settings]. rewrite mapGet_mapSet.
    destruct (String.eqb _ k) eqn:E; [|reflexivity].
    apply String.eqb_eq in E. now rewrite E.
  - intros k. unfold setting. cbn [settings].
    rewrite !mapGet_mapSet, String.eqb_refl.
    destruct (String.eqb _ k) eqn:E; [|reflexivity].
    apply String.eqb_eq in E. rewrite E. apply negb_involutive.
Qed.

Lemma toggle_selected_setting_witness :
  In "Show seconds" getSettingsKeys /\
  exists m' m'',
    Update (setView (initialModel firstWorld) settingsView) (KeyMsg " ") firstWorld
    = Some (m', cmdNil, firstWorld) /\
    Update m' (KeyMsg " ") firstWorld = Some (m'', cmdNil, firstWorld) /\
    setting m' "Show seconds" = false /\ setting m'' "Show seconds" = true.
Proof.
  destruct (toggle_selected_setting (setView (initialModel firstWorld) settingsView)
              firstWorld " ") as (Hin & m' & m'' & H1 & H2 & H3 & H4 & _).
  - unfold inBounds. cbn. repeat split; try lia; discriminate.
  - reflexivity.
  - now right.
  - split; [exact Hin|]. exists m', m''. repeat split; try assumption.
    + now rewrite H3.
    + now rewrite H4.
Defined.

(** X16. While a session runs no step changes the time at which it
    started, and a step ends it only by recording it: after the step the
    session still runs with the same start, or it is the last session of
    the history.  Starting again from the menu while a session runs
    does nothing. *)
Theorem running_session_is_kept (m m' : model) (message : msg) (c : cmd) (w w' : world)
  (Hrun : tracking m = true)
  (Hstep : Update m message w = Some (m', c, w')) :
  trackingStart m' = trackingStart m /\
  (tracking m' = true \/
   history m'
   = (history m ++ [mkSession (trackingStart m) (clock w (reads w)) (elapsed m)])%list) /\
  (currentView m = menuView -> cursor m = 0 -> message = KeyMsg "enter" ->
   m' = m /\ c = cmdNil /\ w' = w).
Proof.
  destruct m as [v cu items tr ts el h sc st]. cbn in Hrun. subst tr.
  destruct message as [t | key |]; cbn [Update currentView tracking] in Hstep.
  - unfold timeSince, timeNow in Hstep. cbn in Hstep. inversion Hstep; subst.
    cbn. repeat split; auto; discriminate.
  - destruct v.
    + revert Hstep.
      unfold updateMenu, stopped, save, timeNow, setCursor, setView, setSettingsCursor.
      cbn -[keyIs Z.ltb Z.eqb len saveHistory].
      step_cases; intros H; inversion H; subst; cbn -[saveHistory];
        repeat split; auto; intros; bools; try congruence; try lia;
        try (exfalso; key_found).
    + revert Hstep.
      unfold updateTracking, stopped, save, timeNow, setCursor, setView.
      cbn -[keyIs Z.ltb Z.eqb len saveHistory].
      step_cases; intros H; inversion H; subst; cbn -[saveHistory];
        repeat split; auto; intros; discriminate.
    + revert Hstep.
      unfold updateHistory, save, timeNow, setCursor, setView.
      cbn -[keyIs Z.ltb Z.eqb Z.leb len removeNth saveHistory].
      step_cases; intros H; inversion H; subst;
        cbn -[saveHistory removeNth len Z.ltb Z.leb];
        repeat split; auto; intros; discriminate.
    + revert Hstep.
      unfold updateSettings, setCursor, setView, setSettingsCursor.
      cbn -[keyIs Z.ltb Z.eqb Z.leb len nth].
      step_cases; try discriminate; destruct st; try discriminate;
        intros H; inversion H; subst; cbn;
        repeat split; auto; intros; discriminate.
  - inversion Hstep; subst. cbn. repeat split; auto; discriminate.
Qed.

Lemma running_session_is_kept_witness :
  exists m' w',
    Update (setView runningModel menuView) (KeyMsg "enter") firstWorld
    = Some (m', cmdNil, w') /\
    trackingStart m' = savingTime /\ w' = firstWorld.
Proof.
  do 2 eexists. split; [reflexivity|].
  destruct (running_session_is_kept (setView runningModel menuView) _ (KeyMsg "enter")
              cmdNil firstWorld _ eq_refl eq_refl) as (H1 & _ & H3).
  split; [exact H1 | exact (proj2 (proj2 (H3 eq_refl eq_refl eq_refl)))].
Defined.

Lemma writable_disk (w w' : world) : disk w' = disk w -> writable w' = writable w.
Proof. unfold writable. now intros ->. Qed.

Lemma run_file (fs0 : fsys) (msgs : list msg) :
  forall m w m' w',
    writable w = true ->
    (disk w = fs0 /\ history m = loadHistory fs0) \/
    loadHistory (disk w) = recovered (history m) ->
    run msgs m w = Some (m', w') ->
    (disk w' = fs0 /\ history m' = loadHistory fs0) \/
    loadHistory (disk w') = recovered (history m').
Proof.
  induction msgs as [|message rest IH]; intros m w m' w' Hw Hinv Hrun.
  - cbn in Hrun. inversion Hrun; subst. exact Hinv.
  - cbn [run] in Hrun.
    destruct (Update m message w) as [[[m1 c1] w1]|] eqn:E; [|discriminate].
    pose proof (proj1 (writable_spec w) Hw) as Hw'.
    assert (H1 : writable w1 = true /\
                 ((disk w1 = fs0 /\ history m1 = loadHistory fs0) \/
                  loadHistory (disk w1) = recovered (history m1))).
    { destruct (Update_history _ _ _ _ _ _ E)
        as [[Eh Ed] | [(_ & _ & _ & Ed & _) | (_ & _ & _ & Ed & _)]].
      - split; [now rewrite (writable_disk _ _ Ed)|].
        rewrite Eh, Ed. exact Hinv.
      - destruct (save_writable (clock w (S (reads w))) (history m1) (disk w) Hw')
          as [Hl Hb].
        rewrite <- Ed in Hl, Hb. split; [now apply writable_spec | now right].
      - destruct (save_writable (clock w (reads w)) (history m1) (disk w) Hw')
          as [Hl Hb].
        rewrite <- Ed in Hl, Hb. split; [now apply writable_spec | now right]. }
    destruct H1 as [Hw1 Hinv1]. exact (IH _ _ _ _ Hw1 Hinv1 Hrun).
Qed.

(** X17. The file follows the history through a whole run.  When the
    history file can be written at the start, then after any sequence of
    messages either no file was touched and the history is still the one
    loaded at the start, or the program started anew on the files left
    behind loads what the reader recovers from the history that the run
    ended with. *)
Theorem file_follows_history (w : world) (msgs : list msg) (m' : model) (w' : world)
  (Hfile : writable w = true)
  (Hrun : run msgs (initialModel w) w = Some (m', w')) :
  (disk w' = disk w /\ history m' = history (initialModel w)) \/
  history (initialModel w') = recovered (history m').
Proof.
  apply (run_file (disk w) msgs (initialModel w) w m' w' Hfile); [|exact Hrun].
  left. now split.
Qed.

Lemma file_follows_history_witness :
  exists m' w',
    run [KeyMsg "enter"; tickMsg 0; KeyMsg "s"; KeyMsg "j"; KeyMsg "j"; KeyMsg "enter";
         KeyMsg "d"] (initialModel firstWorld) firstWorld = Some (m', w') /\
    history m' = [] /\
    ((disk w' = disk firstWorld /\ history m' = history (initialModel firstWorld)) \/
     history (initialModel w') = recovered (history m')).
Proof.
  do 2 eexists. split; [reflexivity|]. split; [reflexivity|].
  exact (file_follows_history firstWorld
           [KeyMsg "enter"; tickMsg 0; KeyMsg "s"; KeyMsg "j"; KeyMsg "j"; KeyMsg "enter";
            KeyMsg "d"] _ _ eq_refl eq_refl).
Defined.
